(** * ftpclient.h: a shallow embedding of the single-header FTP client

    The library is a wrapper over libcurl.  The embedding follows
    [src/ftpclient.h] function by function.  What lies outside the header
    (the C allocator, stdio, libcurl's transfer engine) is modelled by an
    explicit [world] that the functions thread through a small state monad:
    a computation without a defined result (a NULL dereference, a write
    outside a block, a loop that does not end) yields [None]. *)

From Stdlib Require Import ZArith List String Ascii Lia Bool DecimalString.
From stdpp Require Import base gmap strings list.

Open Scope Z_scope.

(** ** Configuration macros *)

Definition FTP_MAX_URL_LENGTH : Z := 2048.
Definition FTP_BUFFER_SIZE : Z := 8192.

(** ** Enumerations *)

Inductive ftp_error_t : Type :=
| FTP_OK
| FTP_ERROR_INIT
| FTP_ERROR_CONNECTION
| FTP_ERROR_AUTH
| FTP_ERROR_TRANSFER
| FTP_ERROR_FILE_NOT_FOUND
| FTP_ERROR_MEMORY
| FTP_ERROR_INVALID_PARAM
| FTP_ERROR_CURL
| FTP_ERROR_FILE_IO
| FTP_ERROR_TIMEOUT.

(** The integer each enumerator stands for. *)
Definition ftp_error_value (e : ftp_error_t) : Z :=
  match e with
  | FTP_OK => 0
  | FTP_ERROR_INIT => -1
  | FTP_ERROR_CONNECTION => -2
  | FTP_ERROR_AUTH => -3
  | FTP_ERROR_TRANSFER => -4
  | FTP_ERROR_FILE_NOT_FOUND => -5
  | FTP_ERROR_MEMORY => -6
  | FTP_ERROR_INVALID_PARAM => -7
  | FTP_ERROR_CURL => -8
  | FTP_ERROR_FILE_IO => -9
  | FTP_ERROR_TIMEOUT => -10
  end.

Inductive ftp_mode_t : Type := FTP_MODE_PASSIVE | FTP_MODE_ACTIVE.

Inductive ftp_ssl_mode_t : Type :=
| FTP_SSL_NONE | FTP_SSL_TRY | FTP_SSL_CONTROL | FTP_SSL_ALL.

Definition ftp_ssl_mode_value (m : ftp_ssl_mode_t) : Z :=
  match m with
  | FTP_SSL_NONE => 0 | FTP_SSL_TRY => 1 | FTP_SSL_CONTROL => 2 | FTP_SSL_ALL => 3
  end.

Global Instance ftp_error_eq_dec : EqDecision ftp_error_t.
Proof. solve_decision. Defined.

(** ** Machine integers

    [size_t] is 64 bits wide; a [size_t] value is a [Z] in [0, 2^64) and
    every arithmetic result is reduced by [wrap]. *)

Definition SIZE_WIDTH : Z := 64.
Definition wrap (x : Z) : Z := x mod 2 ^ SIZE_WIDTH.

(** [(double)x] for a [curl_off_t]: an integer of at most 53 significant
    bits is kept, a longer one is rounded to the nearest value that has
    53, ties to the even one.  The double is held as the integer it
    equals. *)
Definition double_of_off_t (x : Z) : Z :=
  let a := Z.abs x in
  if a <? 2 ^ 53 then x
  else
    let e := Z.log2 a - 52 in
    let q := a / 2 ^ e in
    let r := a mod 2 ^ e in
    let half := 2 ^ (e - 1) in
    let q' := if r <? half then q
              else if half <? r then q + 1
                   else if Z.even q then q else q + 1 in
    Z.sgn x * (q' * 2 ^ e).

(** libcurl's result code is a C enumeration; only the enumerators the
    header compares against are named. *)
Definition CURLcode : Type := Z.
Definition CURLE_OK : CURLcode := 0.
Definition CURLE_WRITE_ERROR : CURLcode := 23.
Definition CURLE_OPERATION_TIMEDOUT : CURLcode := 28.
Definition CURLE_ABORTED_BY_CALLBACK : CURLcode := 42.
Definition CURLE_LOGIN_DENIED : CURLcode := 67.
Definition CURLE_REMOTE_FILE_NOT_FOUND : CURLcode := 78.
Definition CURLE_COULDNT_CONNECT : CURLcode := 7.

(** curl.h, from libcurl 7.68.0 on: the value (0x10000001) by which a
    progress callback asks libcurl to go on and to run its own progress
    meter. *)
Definition CURL_PROGRESSFUNC_CONTINUE : Z := 268435457.

(** ** Data structures of the header *)

(** [ftp_memory_buffer_t]: [data] is NULL or an allocated block, given by
    its bytes (the length of the list is the size of the allocation). *)
Record ftp_memory_buffer_t : Type := {
  data : option (list ascii);
  size : Z;
  capacity : Z
}.

(** The progress callback receives the user pointer and four counters
    as [double]s, each held as the integer it equals, and returns an
    [int]. *)
Definition ftp_progress_callback_t : Type := Z -> Z -> Z -> Z -> Z -> Z.

Record ftp_config_t : Type := {
  host : option string;
  port : Z;
  username : option string;
  password : option string;
  mode : ftp_mode_t;
  ssl_mode : ftp_ssl_mode_t;
  verify_ssl : Z;
  timeout : Z;
  connect_timeout : Z;
  verbose : Z;
  progress_callback : option ftp_progress_callback_t;
  progress_user_data : Z
}.

(** ** libcurl easy handles

    A handle is the store of options set on it, most recent first,
    together with the content length libcurl reports after a transfer. *)

Inductive CURLoption : Type :=
| CURLOPT_URL | CURLOPT_USERNAME | CURLOPT_PASSWORD | CURLOPT_TIMEOUT
| CURLOPT_CONNECTTIMEOUT | CURLOPT_VERBOSE | CURLOPT_FTPPORT
| CURLOPT_FTP_USE_EPSV | CURLOPT_USE_SSL | CURLOPT_SSL_VERIFYPEER
| CURLOPT_SSL_VERIFYHOST | CURLOPT_XFERINFOFUNCTION | CURLOPT_XFERINFODATA
| CURLOPT_NOPROGRESS | CURLOPT_QUOTE | CURLOPT_WRITEFUNCTION
| CURLOPT_WRITEDATA | CURLOPT_UPLOAD | CURLOPT_READFUNCTION
| CURLOPT_READDATA | CURLOPT_INFILESIZE_LARGE | CURLOPT_NOBODY
| CURLOPT_FILETIME | CURLOPT_HEADER.

Global Instance CURLoption_eq_dec : EqDecision CURLoption.
Proof. solve_decision. Defined.

(** The static callbacks of the header, as function pointers. *)
Inductive callback : Type :=
| fn_write_memory_callback
| fn_write_file_callback
| fn_read_file_callback
| fn_progress_callback_wrapper.

(** What a [void *] handed to libcurl points to inside one API call. *)
Inductive pointer : Type := ptr_client | ptr_buffer | ptr_fp.

Inductive optval : Type :=
| OptLong (n : Z)
| OptStr (s : option string)
| OptSlist (l : list string)
| OptFn (f : callback)
| OptPtr (p : pointer).

Record CURL : Type := {
  options : list (CURLoption * optval);
  content_length_download : CURLcode * Z
}.

Record ftp_client_t : Type := {
  curl : option CURL;
  config : ftp_config_t;
  last_error : string
}.

(** ** The world outside the header *)

Inductive xfer_event : Type :=
| XferData (contents : list ascii)
| XferWant (nmemb : Z)
| XferProgress (dltotal dlnow ultotal ulnow : Z).

(** What the server and the network do to one transfer: the events in
    the order libcurl meets them, the result it ends with when no callback
    stops it, and what CURLINFO_CONTENT_LENGTH_DOWNLOAD_T answers after. *)
Record transfer : Type := {
  xfer_events : list xfer_event;
  xfer_result : CURLcode;
  xfer_length : CURLcode * Z
}.

(** - [fs]: the local files, by path, with their bytes;
    - [readonly]: the paths that cannot be opened for writing;
    - [heap]: the answers to the allocation requests still to come;
    - [junk]: the byte that fresh memory holds;
    - [net]: what the server does to the transfers still to come;
    - [wire]: the handles performed so far, oldest first;
    - [strerror]: the text of [curl_easy_strerror]. *)
Record world : Type := {
  fs : gmap string (list ascii);
  readonly : gset string;
  heap : list bool;
  junk : ascii;
  net : list transfer;
  wire : list CURL;
  strerror : CURLcode -> string
}.

Definition set_fs (f : gmap string (list ascii)) (w : world) : world :=
  {| fs := f; readonly := readonly w; heap := heap w; junk := junk w;
     net := net w; wire := wire w; strerror := strerror w |}.

Definition set_heap (h : list bool) (w : world) : world :=
  {| fs := fs w; readonly := readonly w; heap := h; junk := junk w;
     net := net w; wire := wire w; strerror := strerror w |}.

Definition set_net (n : list transfer) (w : world) : world :=
  {| fs := fs w; readonly := readonly w; heap := heap w; junk := junk w;
     net := n; wire := wire w; strerror := strerror w |}.

Definition set_wire (l : list CURL) (w : world) : world :=
  {| fs := fs w; readonly := readonly w; heap := heap w; junk := junk w;
     net := net w; wire := l; strerror := strerror w |}.

(** ** The monad of C computations *)

Definition M (A : Type) : Type := world -> option (A * world).

Definition ret {A} (a : A) : M A := fun w => Some (a, w).

Definition bind {A B} (c : M A) (k : A -> M B) : M B :=
  fun w => match c w with
           | Some (a, w') => k a w'
           | None => None
           end.

Definition undefined {A} : M A := fun _ => None.

Definition lift {A} (o : option A) : M A :=
  fun w => match o with Some a => Some (a, w) | None => None end.

Definition gets {A} (f : world -> A) : M A := fun w => Some (f w, w).

Definition modify (f : world -> world) : M unit := fun w => Some (tt, f w).

Declare Scope c_scope.
Delimit Scope c_scope with C.

Notation "x <- c1 ;; c2" := (bind c1 (fun x => c2))
  (at level 100, c1 at next level, right associativity) : c_scope.
Notation "c1 ;;; c2" := (bind c1 (fun _ => c2))
  (at level 100, c2 at level 200, right associativity) : c_scope.

Open Scope c_scope.

(** ** The C library *)

(** One allocation request: the world decides; an exhausted [heap] list
    stands for memory that never runs out. *)
Definition alloc : M bool :=
  fun w => match heap w with
           | [] => Some (true, w)
           | ok :: rest => Some (ok, set_heap rest w)
           end.

(** [realloc(ptr, n)]: on success a block of [n] bytes that starts with
    the old contents; on failure NULL, the old block untouched. *)
Definition realloc (ptr : option (list ascii)) (n : Z) : M (option (list ascii)) :=
  ok <- alloc ;;
  if ok : bool then
    j <- gets junk ;;
    ret (Some (resize (Z.to_nat n) j (default [] ptr)))
  else ret None.

Definition strdup (s : string) : M (option string) :=
  ok <- alloc ;;
  ret (if ok : bool then Some s else None).

(** [memcpy(&blk[off], src, n)] and [blk[off] = c]; both are defined only
    inside the block. *)
Definition memcpy_at (blk : list ascii) (off : Z) (src : list ascii) (n : Z)
  : option (list ascii) :=
  if (0 <=? off) && (0 <=? n) && (off + n <=? Z.of_nat (length blk))
     && (n <=? Z.of_nat (length src))
  then Some (take (Z.to_nat off) blk ++ take (Z.to_nat n) src
             ++ drop (Z.to_nat (off + n)) blk)
  else None.

Definition store_at (blk : list ascii) (off : Z) (c : ascii) : option (list ascii) :=
  if (0 <=? off) && (off <? Z.of_nat (length blk))
  then Some (<[Z.to_nat off := c]> blk)
  else None.

Definition strlen (s : string) : Z := Z.of_nat (String.length s).

(** [snprintf(buf, n, ...)] keeps at most [n - 1] characters of the
    formatted text. *)
Definition snprintf (n : Z) (text : string) : string :=
  substring 0 (Z.to_nat (n - 1)) text.

(** The conversion [%d]. *)
Definition format_d (n : Z) : string := NilZero.string_of_int (Z.to_int n).

(** ** Internal helper functions *)

(** The loop [while (new_capacity < need) new_capacity *= 2;].  The
    product wraps at 2^64, so a capacity that reaches 0 never grows
    again; 64 doublings decide whether the loop ends. *)
Fixpoint grow_capacity (fuel : nat) (new_capacity need : Z) : option Z :=
  if new_capacity <? need then
    match fuel with
    | O => None
    | S fuel' => grow_capacity fuel' (wrap (new_capacity * 2)) need
    end
  else Some new_capacity.

Definition write_memory_callback (contents : list ascii) (sz nmemb : Z)
    (mem : ftp_memory_buffer_t) : M (Z * ftp_memory_buffer_t) :=
  let realsize := wrap (sz * nmemb) in
  let need := wrap (wrap (size mem + realsize) + 1) in
  grown <-
    (if capacity mem <? need then
       new_capacity <-
         lift (grow_capacity 64
                 (if capacity mem =? 0 then FTP_BUFFER_SIZE
                  else wrap (capacity mem * 2)) need) ;;
       new_data <- realloc (data mem) new_capacity ;;
       match new_data with
       | None => ret None
       | Some blk =>
           ret (Some {| data := Some blk; size := size mem;
                        capacity := new_capacity |})
       end
     else ret (Some mem)) ;;
  match grown with
  | None => ret (0, mem)
  | Some mem1 =>
      blk <- lift (data mem1) ;;
      blk1 <- lift (memcpy_at blk (size mem1) contents realsize) ;;
      let size' := wrap (size mem1 + realsize) in
      blk2 <- lift (store_at blk1 size' Ascii.zero) ;;
      ret (realsize, {| data := Some blk2; size := size';
                        capacity := capacity mem1 |})
  end.

(** ** stdio

    A stream is the path it was opened on and its position.  A file can be
    opened for reading when it exists, and for writing unless the world
    lists its path as [readonly]; opening for writing creates or truncates
    it. *)

Record FILE : Type := { file_path : string; file_pos : Z }.

Inductive fopen_mode : Type := mode_rb | mode_wb.

Definition fopen (path : string) (m : fopen_mode) : M (option FILE) :=
  fun w =>
    match m with
    | mode_rb =>
        match fs w !! path with
        | Some _ => Some (Some {| file_path := path; file_pos := 0 |}, w)
        | None => Some (None, w)
        end
    | mode_wb =>
        if decide (path ∈ readonly w) then Some (None, w)
        else Some (Some {| file_path := path; file_pos := 0 |},
                   set_fs (<[path := []]> (fs w)) w)
    end.

Definition file_contents (f : FILE) : M (list ascii) :=
  gets (fun w => default [] (fs w !! file_path f)).

Definition fseek_end (f : FILE) : M FILE :=
  c <- file_contents f ;;
  ret {| file_path := file_path f; file_pos := Z.of_nat (length c) |}.

Definition fseek_set (f : FILE) : M FILE :=
  ret {| file_path := file_path f; file_pos := 0 |}.

Definition ftell (f : FILE) : M Z := ret (file_pos f).

(** [fread] returns the number of whole items read. *)
Definition fread (sz nmemb : Z) (f : FILE) : M (Z * FILE) :=
  c <- file_contents f ;;
  let avail := Z.of_nat (length c) - file_pos f in
  let items := if sz <=? 0 then 0 else Z.max 0 (Z.min nmemb (avail / sz)) in
  ret (items, {| file_path := file_path f; file_pos := file_pos f + items * sz |}).

(** [fwrite] on a stream opened with "wb" and written front to back: the
    bytes are appended; it returns the number of items written. *)
Definition fwrite (ptr : list ascii) (sz nmemb : Z) (f : FILE) : M (Z * FILE) :=
  c <- file_contents f ;;
  let bytes := take (Z.to_nat (sz * nmemb)) ptr in
  modify (fun w => set_fs (<[file_path f := c ++ bytes]> (fs w)) w) ;;;
  ret (if sz <=? 0 then 0 else nmemb,
       {| file_path := file_path f;
          file_pos := file_pos f + Z.of_nat (length bytes) |}).

Definition fclose (f : FILE) : M unit := ret tt.

Definition remove (path : string) : M unit :=
  modify (fun w => set_fs (delete path (fs w)) w).

(** ** The file and progress callbacks *)

Definition read_file_callback (sz nmemb : Z) (stream : FILE) : M (Z * FILE) :=
  fread sz nmemb stream.

Definition write_file_callback (ptr : list ascii) (sz nmemb : Z) (stream : FILE)
  : M (Z * FILE) :=
  fwrite ptr sz nmemb stream.

Definition progress_callback_wrapper (client : ftp_client_t)
    (dltotal dlnow ultotal ulnow : Z) : Z :=
  match progress_callback (config client) with
  | Some cb =>
      cb (progress_user_data (config client))
        (double_of_off_t dltotal) (double_of_off_t dlnow)
        (double_of_off_t ultotal) (double_of_off_t ulnow)
  | None => 0
  end.

(** ** build_ftp_url *)

Definition begins_with_slash (s : string) : bool :=
  match s with
  | String c _ => bool_decide (c = "/"%char)
  | EmptyString => false
  end.

(** The text the three [snprintf] calls format, before it is cut to the
    buffer. *)
Definition url_text (h : string) (p : Z) (remote_path : option string) : string :=
  let protocol := "ftp"%string in
  match remote_path with
  | Some path =>
      if begins_with_slash path
      then protocol +:+ "://" +:+ h +:+ ":" +:+ format_d p +:+ path
      else protocol +:+ "://" +:+ h +:+ ":" +:+ format_d p +:+ "/" +:+ path
  | None => protocol +:+ "://" +:+ h +:+ ":" +:+ format_d p +:+ "/"
  end.

(** The space the function reserves: the lengths of two strings held in
    memory cannot add up to 2^64, so the sums are written without [wrap]. *)
Definition required_len (h : string) (remote_path : option string) : Z :=
  let protocol := "ftp"%string in
  let base_len := strlen protocol + 3 + strlen h + 1 + 5 + 1 in
  let path_len := match remote_path with Some p => strlen p | None => 0 end in
  base_len + path_len + 1.

(** The result is the return value and what the call left in [url]
    ([None]: the buffer was not written).  A NULL [config.host] makes
    [strlen] undefined. *)
Definition build_ftp_url (client : ftp_client_t) (remote_path : option string)
    (url_size : Z) : option (ftp_error_t * option string) :=
  match host (config client) with
  | None => None
  | Some h =>
      if url_size <? required_len h remote_path
      then Some (FTP_ERROR_INVALID_PARAM, None)
      else Some (FTP_OK,
                 Some (snprintf url_size (url_text h (port (config client)) remote_path)))
  end.

(** ** libcurl *)

Definition curl_easy_init : M (option CURL) :=
  ok <- alloc ;;
  ret (if ok : bool
       then Some {| options := []; content_length_download := (CURLE_OK, -1) |}
       else None).

Definition curl_easy_reset (h : CURL) : CURL :=
  {| options := []; content_length_download := content_length_download h |}.

Definition curl_easy_setopt (h : CURL) (o : CURLoption) (v : optval) : CURL :=
  {| options := (o, v) :: options h;
     content_length_download := content_length_download h |}.

Definition curl_getopt (h : CURL) (o : CURLoption) : option optval :=
  snd <$> List.find (fun p => bool_decide (fst p = o)) (options h).

Definition curl_easy_getinfo_content_length (h : CURL) : CURLcode * Z :=
  content_length_download h.

(** [curl_slist_append]: NULL when the node cannot be allocated. *)
Definition curl_slist_append (l : option (list string)) (s : string)
  : M (option (list string)) :=
  ok <- alloc ;;
  ret (if ok : bool then Some (default [] l ++ [s]) else None).

(** The variables of the calling function that libcurl reaches through
    the [void *] it was given. *)
Record locals : Type := {
  buffer : ftp_memory_buffer_t;
  fp : option FILE
}.

Definition no_buffer : ftp_memory_buffer_t :=
  {| data := None; size := 0; capacity := 0 |}.

Definition progress_enabled (h : CURL) : bool :=
  match curl_getopt h CURLOPT_NOPROGRESS, curl_getopt h CURLOPT_XFERINFOFUNCTION with
  | Some (OptLong 0), Some (OptFn fn_progress_callback_wrapper) => true
  | _, _ => false
  end.

(** Received bytes go to CURLOPT_WRITEFUNCTION with [size = 1]; without
    one libcurl writes them to stdout. *)
Definition deliver (h : CURL) (contents : list ascii) (l : locals) : M (Z * locals) :=
  let n := Z.of_nat (length contents) in
  match curl_getopt h CURLOPT_WRITEFUNCTION with
  | Some (OptFn fn_write_memory_callback) =>
      r <- write_memory_callback contents 1 n (buffer l) ;;
      ret (fst r, {| buffer := snd r; fp := fp l |})
  | Some (OptFn fn_write_file_callback) =>
      f <- lift (fp l) ;;
      r <- write_file_callback contents 1 n f ;;
      ret (fst r, {| buffer := buffer l; fp := Some (snd r) |})
  | _ => ret (n, l)
  end.

Definition request (h : CURL) (nmemb : Z) (l : locals) : M (Z * locals) :=
  match curl_getopt h CURLOPT_READFUNCTION with
  | Some (OptFn fn_read_file_callback) =>
      f <- lift (fp l) ;;
      r <- read_file_callback 1 nmemb f ;;
      ret (fst r, {| buffer := buffer l; fp := Some (snd r) |})
  | _ => ret (0, l)
  end.

(** What libcurl (7.68.0 and later) makes of the value its progress
    callback returns: 0 and CURL_PROGRESSFUNC_CONTINUE let the transfer go
    on, every other value ends it. *)
Definition progress_continues (r : Z) : bool :=
  (r =? 0) || (r =? CURL_PROGRESSFUNC_CONTINUE).

(** The events of one transfer.  A write callback that does not take all
    the bytes ends it with CURLE_WRITE_ERROR, a progress callback whose
    result does not let it go on with CURLE_ABORTED_BY_CALLBACK; the
    events after that do not happen. *)
Fixpoint run_transfer (h : CURL) (client : ftp_client_t) (evs : list xfer_event)
    (l : locals) : M (option CURLcode * locals) :=
  match evs with
  | [] => ret (None, l)
  | XferData contents :: evs' =>
      r <- deliver h contents l ;;
      if fst r =? Z.of_nat (length contents)
      then run_transfer h client evs' (snd r)
      else ret (Some CURLE_WRITE_ERROR, snd r)
  | XferWant nmemb :: evs' =>
      r <- request h nmemb l ;;
      run_transfer h client evs' (snd r)
  | XferProgress dltotal dlnow ultotal ulnow :: evs' =>
      if progress_enabled h then
        if progress_continues
             (progress_callback_wrapper client dltotal dlnow ultotal ulnow)
        then run_transfer h client evs' l
        else ret (Some CURLE_ABORTED_BY_CALLBACK, l)
      else run_transfer h client evs' l
  end.

Definition no_server : transfer :=
  {| xfer_events := []; xfer_result := CURLE_COULDNT_CONNECT;
     xfer_length := (CURLE_OK, -1) |}.

Definition next_transfer : M transfer :=
  fun w => match net w with
           | [] => Some (no_server, w)
           | t :: rest => Some (t, set_net rest w)
           end.

(** [curl_easy_perform]: the handle goes on the wire as it is set up, the
    next transfer of the world is played against the callbacks. *)
Definition curl_easy_perform (h : CURL) (client : ftp_client_t) (l : locals)
  : M (CURLcode * CURL * locals) :=
  t <- next_transfer ;;
  modify (fun w => set_wire (wire w ++ [h]) w) ;;;
  r <- run_transfer h client (xfer_events t) l ;;
  ret (match fst r with Some stop => stop | None => xfer_result t end,
       {| options := options h; content_length_download := xfer_length t |},
       snd r).

(** ** Field updates *)

Definition with_host (h : option string) (c : ftp_config_t) : ftp_config_t :=
  {| host := h; port := port c; username := username c; password := password c;
     mode := mode c; ssl_mode := ssl_mode c; verify_ssl := verify_ssl c;
     timeout := timeout c; connect_timeout := connect_timeout c;
     verbose := verbose c; progress_callback := progress_callback c;
     progress_user_data := progress_user_data c |}.

Definition with_port (p : Z) (c : ftp_config_t) : ftp_config_t :=
  {| host := host c; port := p; username := username c; password := password c;
     mode := mode c; ssl_mode := ssl_mode c; verify_ssl := verify_ssl c;
     timeout := timeout c; connect_timeout := connect_timeout c;
     verbose := verbose c; progress_callback := progress_callback c;
     progress_user_data := progress_user_data c |}.

Definition with_username (u : option string) (c : ftp_config_t) : ftp_config_t :=
  {| host := host c; port := port c; username := u; password := password c;
     mode := mode c; ssl_mode := ssl_mode c; verify_ssl := verify_ssl c;
     timeout := timeout c; connect_timeout := connect_timeout c;
     verbose := verbose c; progress_callback := progress_callback c;
     progress_user_data := progress_user_data c |}.

Definition with_password (p : option string) (c : ftp_config_t) : ftp_config_t :=
  {| host := host c; port := port c; username := username c; password := p;
     mode := mode c; ssl_mode := ssl_mode c; verify_ssl := verify_ssl c;
     timeout := timeout c; connect_timeout := connect_timeout c;
     verbose := verbose c; progress_callback := progress_callback c;
     progress_user_data := progress_user_data c |}.

Definition with_mode (m : ftp_mode_t) (c : ftp_config_t) : ftp_config_t :=
  {| host := host c; port := port c; username := username c; password := password c;
     mode := m; ssl_mode := ssl_mode c; verify_ssl := verify_ssl c;
     timeout := timeout c; connect_timeout := connect_timeout c;
     verbose := verbose c; progress_callback := progress_callback c;
     progress_user_data := progress_user_data c |}.

Definition with_ssl (m : ftp_ssl_mode_t) (verify : Z) (c : ftp_config_t) : ftp_config_t :=
  {| host := host c; port := port c; username := username c; password := password c;
     mode := mode c; ssl_mode := m; verify_ssl := verify;
     timeout := timeout c; connect_timeout := connect_timeout c;
     verbose := verbose c; progress_callback := progress_callback c;
     progress_user_data := progress_user_data c |}.

Definition with_timeout (t : Z) (c : ftp_config_t) : ftp_config_t :=
  {| host := host c; port := port c; username := username c; password := password c;
     mode := mode c; ssl_mode := ssl_mode c; verify_ssl := verify_ssl c;
     timeout := t; connect_timeout := connect_timeout c;
     verbose := verbose c; progress_callback := progress_callback c;
     progress_user_data := progress_user_data c |}.

Definition with_connect_timeout (t : Z) (c : ftp_config_t) : ftp_config_t :=
  {| host := host c; port := port c; username := username c; password := password c;
     mode := mode c; ssl_mode := ssl_mode c; verify_ssl := verify_ssl c;
     timeout := timeout c; connect_timeout := t;
     verbose := verbose c; progress_callback := progress_callback c;
     progress_user_data := progress_user_data c |}.

Definition with_verbose (v : Z) (c : ftp_config_t) : ftp_config_t :=
  {| host := host c; port := port c; username := username c; password := password c;
     mode := mode c; ssl_mode := ssl_mode c; verify_ssl := verify_ssl c;
     timeout := timeout c; connect_timeout := connect_timeout c;
     verbose := v; progress_callback := progress_callback c;
     progress_user_data := progress_user_data c |}.

Definition with_progress (cb : option ftp_progress_callback_t) (user_data : Z)
    (c : ftp_config_t) : ftp_config_t :=
  {| host := host c; port := port c; username := username c; password := password c;
     mode := mode c; ssl_mode := ssl_mode c; verify_ssl := verify_ssl c;
     timeout := timeout c; connect_timeout := connect_timeout c;
     verbose := verbose c; progress_callback := cb;
     progress_user_data := user_data |}.

Definition with_config (cfg : ftp_config_t) (c : ftp_client_t) : ftp_client_t :=
  {| curl := curl c; config := cfg; last_error := last_error c |}.

Definition with_curl (h : CURL) (c : ftp_client_t) : ftp_client_t :=
  {| curl := Some h; config := config c; last_error := last_error c |}.

(** [snprintf(client->last_error, sizeof(client->last_error), ...)]. *)
Definition with_error (text : string) (c : ftp_client_t) : ftp_client_t :=
  {| curl := curl c; config := config c; last_error := snprintf 512 text |}.

Definition curl_easy_strerror (res : CURLcode) : M string :=
  gets (fun w => strerror w res).

(** ** setup_curl_common *)

Definition setup_curl_common (client : ftp_client_t) (h : CURL) : CURL :=
  let cfg := config client in
  let h := curl_easy_setopt h CURLOPT_USERNAME (OptStr (username cfg)) in
  let h := curl_easy_setopt h CURLOPT_PASSWORD (OptStr (password cfg)) in
  let h := curl_easy_setopt h CURLOPT_TIMEOUT (OptLong (timeout cfg)) in
  let h := curl_easy_setopt h CURLOPT_CONNECTTIMEOUT (OptLong (connect_timeout cfg)) in
  let h := curl_easy_setopt h CURLOPT_VERBOSE
             (OptLong (if verbose cfg =? 0 then 0 else 1)) in
  let h :=
    match mode cfg with
    | FTP_MODE_ACTIVE => curl_easy_setopt h CURLOPT_FTPPORT (OptStr (Some "-"%string))
    | FTP_MODE_PASSIVE => curl_easy_setopt h CURLOPT_FTP_USE_EPSV (OptLong 1)
    end in
  let h :=
    match ssl_mode cfg with
    | FTP_SSL_NONE => h
    | m =>
        let h := curl_easy_setopt h CURLOPT_USE_SSL (OptLong (ftp_ssl_mode_value m)) in
        let h := curl_easy_setopt h CURLOPT_SSL_VERIFYPEER
                   (OptLong (if verify_ssl cfg =? 0 then 0 else 1)) in
        curl_easy_setopt h CURLOPT_SSL_VERIFYHOST
          (OptLong (if verify_ssl cfg =? 0 then 0 else 2))
    end in
  match progress_callback cfg with
  | Some _ =>
      let h := curl_easy_setopt h CURLOPT_XFERINFOFUNCTION
                 (OptFn fn_progress_callback_wrapper) in
      let h := curl_easy_setopt h CURLOPT_XFERINFODATA (OptPtr ptr_client) in
      curl_easy_setopt h CURLOPT_NOPROGRESS (OptLong 0)
  | None => curl_easy_setopt h CURLOPT_NOPROGRESS (OptLong 1)
  end.

(** ** ftp_client_execute_simple_command *)

Definition ftp_client_execute_simple_command (client : option ftp_client_t)
    (commands : option (list string)) (error_prefix : string)
  : M (ftp_error_t * option ftp_client_t) :=
  match client, commands with
  | Some c, Some cmds =>
      match curl c with
      | None => ret (FTP_ERROR_INVALID_PARAM, client)
      | Some h =>
          let h := curl_easy_reset h in
          r <- lift (build_ftp_url c (Some "/"%string) FTP_MAX_URL_LENGTH) ;;
          match r with
          | (FTP_OK, url) =>
              let h := curl_easy_setopt h CURLOPT_URL (OptStr url) in
              let h := setup_curl_common c h in
              let h := curl_easy_setopt h CURLOPT_QUOTE (OptSlist cmds) in
              let h := curl_easy_setopt h CURLOPT_WRITEFUNCTION
                         (OptFn fn_write_memory_callback) in
              let h := curl_easy_setopt h CURLOPT_WRITEDATA (OptPtr ptr_buffer) in
              p <- curl_easy_perform h c {| buffer := no_buffer; fp := None |} ;;
              let '(res, h, _) := p in
              if res =? CURLE_OK then ret (FTP_OK, Some (with_curl h c))
              else
                msg <- curl_easy_strerror res ;;
                ret (FTP_ERROR_TRANSFER,
                     Some (with_error (error_prefix +:+ ": " +:+ msg) (with_curl h c)))
          | (result, _) =>
              ret (result,
                   Some (with_error (error_prefix +:+ ": URL too long") (with_curl h c)))
          end
      end
  | _, _ => ret (FTP_ERROR_INVALID_PARAM, client)
  end.

(** ** API implementation *)

Definition ftp_client_init_config (cfg : option ftp_config_t) : M ftp_config_t :=
  match cfg with
  | None => undefined
  | Some _ =>
      u <- strdup "anonymous" ;;
      p <- strdup "user@example.com" ;;
      ret {| host := None; port := 21; username := u; password := p;
             mode := FTP_MODE_PASSIVE; ssl_mode := FTP_SSL_NONE; verify_ssl := 1;
             timeout := 60; connect_timeout := 30; verbose := 0;
             progress_callback := None; progress_user_data := 0 |}
  end.

(** What [calloc] hands out: every field zero. *)
Definition zeroed_config : ftp_config_t :=
  {| host := None; port := 0; username := None; password := None;
     mode := FTP_MODE_PASSIVE; ssl_mode := FTP_SSL_NONE; verify_ssl := 0;
     timeout := 0; connect_timeout := 0; verbose := 0;
     progress_callback := None; progress_user_data := 0 |}.

Definition ftp_client_create : M (option ftp_client_t) :=
  ok <- alloc ;;
  if ok : bool then
    h <- curl_easy_init ;;
    match h with
    | None => ret None
    | Some h =>
        cfg <- ftp_client_init_config (Some zeroed_config) ;;
        ret (Some {| curl := Some h; config := cfg; last_error := ""%string |})
    end
  else ret None.

Definition ftp_client_set_host (client : option ftp_client_t) (h : option string)
    (p : Z) : M (ftp_error_t * option ftp_client_t) :=
  match client, h with
  | Some c, Some name =>
      copy <- strdup name ;;
      let c := with_config (with_host copy (config c)) c in
      match copy with
      | None => ret (FTP_ERROR_MEMORY, Some c)
      | Some _ =>
          if (0 <? p) && (p <=? 65535)
          then ret (FTP_OK, Some (with_config (with_port p (config c)) c))
          else ret (FTP_OK, Some c)
      end
  | _, _ => ret (FTP_ERROR_INVALID_PARAM, client)
  end.

Definition ftp_client_set_credentials (client : option ftp_client_t)
    (user pass : option string) : M (ftp_error_t * option ftp_client_t) :=
  match client, user, pass with
  | Some c, Some u, Some p =>
      u' <- strdup u ;;
      let c := with_config (with_username u' (config c)) c in
      match u' with
      | None => ret (FTP_ERROR_MEMORY, Some c)
      | Some _ =>
          p' <- strdup p ;;
          match p' with
          | None =>
              ret (FTP_ERROR_MEMORY,
                   Some (with_config
                           (with_username None (with_password None (config c))) c))
          | Some _ => ret (FTP_OK, Some (with_config (with_password p' (config c)) c))
          end
      end
  | _, _, _ => ret (FTP_ERROR_INVALID_PARAM, client)
  end.

Definition ftp_client_set_mode (client : option ftp_client_t) (m : ftp_mode_t)
  : option ftp_client_t :=
  match client with
  | Some c => Some (with_config (with_mode m (config c)) c)
  | None => None
  end.

Definition ftp_client_set_ssl (client : option ftp_client_t) (m : ftp_ssl_mode_t)
    (verify : Z) : option ftp_client_t :=
  match client with
  | Some c => Some (with_config (with_ssl m verify (config c)) c)
  | None => None
  end.

Definition ftp_client_set_timeout (client : option ftp_client_t)
    (t connect_t : Z) : option ftp_client_t :=
  match client with
  | Some c =>
      let cfg := config c in
      let cfg := if 0 <? t then with_timeout t cfg else cfg in
      let cfg := if 0 <? connect_t then with_connect_timeout connect_t cfg else cfg in
      Some (with_config cfg c)
  | None => None
  end.

Definition ftp_client_set_verbose (client : option ftp_client_t) (v : Z)
  : option ftp_client_t :=
  match client with
  | Some c => Some (with_config (with_verbose v (config c)) c)
  | None => None
  end.

Definition ftp_client_set_progress_callback (client : option ftp_client_t)
    (cb : option ftp_progress_callback_t) (user_data : Z) : option ftp_client_t :=
  match client with
  | Some c => Some (with_config (with_progress cb user_data (config c)) c)
  | None => None
  end.

Definition ftp_client_connect (client : option ftp_client_t)
  : M (ftp_error_t * option ftp_client_t) :=
  match client with
  | Some c =>
      match curl c with
      | None => ret (FTP_ERROR_INVALID_PARAM, client)
      | Some h =>
          match host (config c) with
          | None | Some EmptyString =>
              ret (FTP_ERROR_INVALID_PARAM, Some (with_error "Host not set" c))
          | Some _ =>
              let h := curl_easy_reset h in
              r <- lift (build_ftp_url c (Some "/"%string) FTP_MAX_URL_LENGTH) ;;
              match r with
              | (FTP_OK, url) =>
                  let h := curl_easy_setopt h CURLOPT_URL (OptStr url) in
                  let h := setup_curl_common c h in
                  let h := curl_easy_setopt h CURLOPT_WRITEFUNCTION
                             (OptFn fn_write_memory_callback) in
                  let h := curl_easy_setopt h CURLOPT_WRITEDATA (OptPtr ptr_buffer) in
                  p <- curl_easy_perform h c {| buffer := no_buffer; fp := None |} ;;
                  let '(res, h, _) := p in
                  if res =? CURLE_OK then ret (FTP_OK, Some (with_curl h c))
                  else
                    msg <- curl_easy_strerror res ;;
                    let c := with_error ("Connection failed: " +:+ msg) (with_curl h c) in
                    if res =? CURLE_LOGIN_DENIED then ret (FTP_ERROR_AUTH, Some c)
                    else if res =? CURLE_OPERATION_TIMEDOUT
                         then ret (FTP_ERROR_TIMEOUT, Some c)
                         else ret (FTP_ERROR_CONNECTION, Some c)
              | (result, _) =>
                  ret (result, Some (with_error "URL too long" (with_curl h c)))
              end
          end
      end
  | None => ret (FTP_ERROR_INVALID_PARAM, client)
  end.

Definition ftp_client_upload (client : option ftp_client_t)
    (local_path remote_path : option string)
  : M (ftp_error_t * option ftp_client_t) :=
  match client, local_path, remote_path with
  | Some c, Some lp, Some rp =>
      match curl c with
      | None => ret (FTP_ERROR_INVALID_PARAM, client)
      | Some h =>
          opened <- fopen lp mode_rb ;;
          match opened with
          | None =>
              ret (FTP_ERROR_FILE_IO,
                   Some (with_error ("Cannot open local file: " +:+ lp) c))
          | Some f =>
              f <- fseek_end f ;;
              file_size <- ftell f ;;
              f <- fseek_set f ;;
              let h := curl_easy_reset h in
              r <- lift (build_ftp_url c (Some rp) FTP_MAX_URL_LENGTH) ;;
              match r with
              | (FTP_OK, url) =>
                  let h := curl_easy_setopt h CURLOPT_URL (OptStr url) in
                  let h := setup_curl_common c h in
                  let h := curl_easy_setopt h CURLOPT_UPLOAD (OptLong 1) in
                  let h := curl_easy_setopt h CURLOPT_READFUNCTION
                             (OptFn fn_read_file_callback) in
                  let h := curl_easy_setopt h CURLOPT_READDATA (OptPtr ptr_fp) in
                  let h := curl_easy_setopt h CURLOPT_INFILESIZE_LARGE
                             (OptLong file_size) in
                  p <- curl_easy_perform h c {| buffer := no_buffer; fp := Some f |} ;;
                  let '(res, h, _) := p in
                  fclose f ;;;
                  if res =? CURLE_OK then ret (FTP_OK, Some (with_curl h c))
                  else
                    msg <- curl_easy_strerror res ;;
                    ret (FTP_ERROR_TRANSFER,
                         Some (with_error ("Upload failed: " +:+ msg) (with_curl h c)))
              | (result, _) =>
                  fclose f ;;;
                  ret (result,
                       Some (with_error "Remote path too long" (with_curl h c)))
              end
          end
      end
  | _, _, _ => ret (FTP_ERROR_INVALID_PARAM, client)
  end.

Definition ftp_client_download (client : option ftp_client_t)
    (remote_path local_path : option string)
  : M (ftp_error_t * option ftp_client_t) :=
  match client, local_path, remote_path with
  | Some c, Some lp, Some rp =>
      match curl c with
      | None => ret (FTP_ERROR_INVALID_PARAM, client)
      | Some h =>
          opened <- fopen lp mode_wb ;;
          match opened with
          | None =>
              ret (FTP_ERROR_FILE_IO,
                   Some (with_error ("Cannot create local file: " +:+ lp) c))
          | Some f =>
              let h := curl_easy_reset h in
              r <- lift (build_ftp_url c (Some rp) FTP_MAX_URL_LENGTH) ;;
              match r with
              | (FTP_OK, url) =>
                  let h := curl_easy_setopt h CURLOPT_URL (OptStr url) in
                  let h := setup_curl_common c h in
                  let h := curl_easy_setopt h CURLOPT_WRITEFUNCTION
                             (OptFn fn_write_file_callback) in
                  let h := curl_easy_setopt h CURLOPT_WRITEDATA (OptPtr ptr_fp) in
                  p <- curl_easy_perform h c {| buffer := no_buffer; fp := Some f |} ;;
                  let '(res, h, _) := p in
                  fclose f ;;;
                  if res =? CURLE_OK then ret (FTP_OK, Some (with_curl h c))
                  else
                    msg <- curl_easy_strerror res ;;
                    let c := with_error ("Download failed: " +:+ msg) (with_curl h c) in
                    remove lp ;;;
                    if res =? CURLE_REMOTE_FILE_NOT_FOUND
                    then ret (FTP_ERROR_FILE_NOT_FOUND, Some c)
                    else ret (FTP_ERROR_TRANSFER, Some c)
              | (result, _) =>
                  fclose f ;;;
                  ret (result,
                       Some (with_error "Remote path too long" (with_curl h c)))
              end
          end
      end
  | _, _, _ => ret (FTP_ERROR_INVALID_PARAM, client)
  end.

(** [output] is the [char **]: NULL, or the address of a pointer whose
    current value is given.  [remote_path] is not checked before
    [strlen]. *)
Definition ftp_client_list_dir (client : option ftp_client_t)
    (remote_path : option string) (output : option (option (list ascii)))
  : M (ftp_error_t * option ftp_client_t * option (option (list ascii))) :=
  match client, output with
  | Some c, Some _ =>
      match curl c with
      | None => ret (FTP_ERROR_INVALID_PARAM, client, output)
      | Some h =>
          let h := curl_easy_reset h in
          rp <- lift remote_path ;;
          let len := strlen rp in
          let dir_path :=
            if (0 <? len)
               && negb (bool_decide
                          (String.get (Z.to_nat (len - 1)) rp = Some "/"%char))
            then snprintf FTP_MAX_URL_LENGTH (rp +:+ "/")
            else snprintf FTP_MAX_URL_LENGTH rp in
          r <- lift (build_ftp_url c (Some dir_path) FTP_MAX_URL_LENGTH) ;;
          match r with
          | (FTP_OK, url) =>
              let h := curl_easy_setopt h CURLOPT_URL (OptStr url) in
              let h := setup_curl_common c h in
              let h := curl_easy_setopt h CURLOPT_WRITEFUNCTION
                         (OptFn fn_write_memory_callback) in
              let h := curl_easy_setopt h CURLOPT_WRITEDATA (OptPtr ptr_buffer) in
              p <- curl_easy_perform h c {| buffer := no_buffer; fp := None |} ;;
              let '(res, h, l) := p in
              if res =? CURLE_OK
              then ret (FTP_OK, Some (with_curl h c), Some (data (buffer l)))
              else
                msg <- curl_easy_strerror res ;;
                ret (FTP_ERROR_TRANSFER,
                     Some (with_error ("Directory listing failed: " +:+ msg)
                             (with_curl h c)),
                     output)
          | (result, _) =>
              ret (result,
                   Some (with_error "Directory path too long" (with_curl h c)),
                   output)
          end
      end
  | _, _ => ret (FTP_ERROR_INVALID_PARAM, client, output)
  end.

(** The command line of the directory and file commands, as in
    [snprintf(cmd, sizeof(cmd), "MKD %s%s", (remote_path[0] == '/') ? "" : "/", remote_path)]
    with [char cmd[512]]. *)
Definition command_line (verb : string) (path : string) : string :=
  snprintf 512 (verb +:+ " " +:+ (if begins_with_slash path then "" else "/") +:+ path).

Definition ftp_client_mkdir (client : option ftp_client_t) (remote_path : option string)
  : M (ftp_error_t * option ftp_client_t) :=
  match client, remote_path with
  | Some c, Some rp =>
      match curl c with
      | None => ret (FTP_ERROR_INVALID_PARAM, client)
      | Some _ =>
          let cmd := command_line "MKD" rp in
          commands <- curl_slist_append None cmd ;;
          ftp_client_execute_simple_command client commands "Create directory failed"
      end
  | _, _ => ret (FTP_ERROR_INVALID_PARAM, client)
  end.

Definition ftp_client_rmdir (client : option ftp_client_t) (remote_path : option string)
  : M (ftp_error_t * option ftp_client_t) :=
  match client, remote_path with
  | Some c, Some rp =>
      match curl c with
      | None => ret (FTP_ERROR_INVALID_PARAM, client)
      | Some _ =>
          let cmd := command_line "RMD" rp in
          commands <- curl_slist_append None cmd ;;
          ftp_client_execute_simple_command client commands "Remove directory failed"
      end
  | _, _ => ret (FTP_ERROR_INVALID_PARAM, client)
  end.

Definition ftp_client_delete (client : option ftp_client_t) (remote_path : option string)
  : M (ftp_error_t * option ftp_client_t) :=
  match client, remote_path with
  | Some c, Some rp =>
      match curl c with
      | None => ret (FTP_ERROR_INVALID_PARAM, client)
      | Some _ =>
          let cmd := command_line "DELE" rp in
          commands <- curl_slist_append None cmd ;;
          ftp_client_execute_simple_command client commands "Delete file failed"
      end
  | _, _ => ret (FTP_ERROR_INVALID_PARAM, client)
  end.

Definition ftp_client_rename (client : option ftp_client_t)
    (old_path new_path : option string)
  : M (ftp_error_t * option ftp_client_t) :=
  match client, old_path, new_path with
  | Some c, Some old, Some new =>
      match curl c with
      | None => ret (FTP_ERROR_INVALID_PARAM, client)
      | Some _ =>
          let cmd1 := command_line "RNFR" old in
          let cmd2 := command_line "RNTO" new in
          commands <- curl_slist_append None cmd1 ;;
          commands <- curl_slist_append commands cmd2 ;;
          ftp_client_execute_simple_command client commands "Rename failed"
      end
  | _, _, _ => ret (FTP_ERROR_INVALID_PARAM, client)
  end.

(** [sz] is the [int64_t *]: NULL, or the address of a variable holding
    the given value; the result carries the variable after the call. *)
Definition ftp_client_get_filesize (client : option ftp_client_t)
    (remote_path : option string) (sz : option Z)
  : M (ftp_error_t * option ftp_client_t * option Z) :=
  match client, remote_path, sz with
  | Some c, Some rp, Some _ =>
      match curl c with
      | None => ret (FTP_ERROR_INVALID_PARAM, client, sz)
      | Some h =>
          let h := curl_easy_reset h in
          r <- lift (build_ftp_url c (Some rp) FTP_MAX_URL_LENGTH) ;;
          match r with
          | (FTP_OK, url) =>
              let h := curl_easy_setopt h CURLOPT_URL (OptStr url) in
              let h := setup_curl_common c h in
              let h := curl_easy_setopt h CURLOPT_NOBODY (OptLong 1) in
              let h := curl_easy_setopt h CURLOPT_FILETIME (OptLong 1) in
              let h := curl_easy_setopt h CURLOPT_HEADER (OptLong 1) in
              let h := curl_easy_setopt h CURLOPT_WRITEFUNCTION
                         (OptFn fn_write_memory_callback) in
              let h := curl_easy_setopt h CURLOPT_WRITEDATA (OptPtr ptr_buffer) in
              p <- curl_easy_perform h c {| buffer := no_buffer; fp := None |} ;;
              let '(res, h, _) := p in
              if res =? CURLE_OK then
                let '(res, filesize) := curl_easy_getinfo_content_length h in
                if (res =? CURLE_OK) && (0 <=? filesize)
                then ret (FTP_OK, Some (with_curl h c), Some filesize)
                else ret (FTP_ERROR_TRANSFER,
                          Some (with_error "Could not retrieve file size" (with_curl h c)),
                          sz)
              else
                msg <- curl_easy_strerror res ;;
                ret (FTP_ERROR_TRANSFER,
                     Some (with_error ("Get file size failed: " +:+ msg) (with_curl h c)),
                     sz)
          | (result, _) =>
              ret (result,
                   Some (with_error "Remote path too long" (with_curl h c)),
                   sz)
          end
      end
  | _, _, _ => ret (FTP_ERROR_INVALID_PARAM, client, sz)
  end.

(** [response] is the [char **]: NULL, or the address of a pointer whose
    current value is given. *)
Definition ftp_client_execute_command (client : option ftp_client_t)
    (command : option string) (response : option (option (list ascii)))
  : M (ftp_error_t * option ftp_client_t * option (option (list ascii))) :=
  match client, command with
  | Some c, Some cmd =>
      match curl c with
      | None => ret (FTP_ERROR_INVALID_PARAM, client, response)
      | Some h =>
          let h := curl_easy_reset h in
          r <- lift (build_ftp_url c (Some "/"%string) FTP_MAX_URL_LENGTH) ;;
          match r with
          | (FTP_OK, url) =>
              let h := curl_easy_setopt h CURLOPT_URL (OptStr url) in
              let h := setup_curl_common c h in
              commands <- curl_slist_append None cmd ;;
              let h := curl_easy_setopt h CURLOPT_QUOTE
                         (OptSlist (default [] commands)) in
              let h := curl_easy_setopt h CURLOPT_WRITEFUNCTION
                         (OptFn fn_write_memory_callback) in
              let h := curl_easy_setopt h CURLOPT_WRITEDATA (OptPtr ptr_buffer) in
              p <- curl_easy_perform h c {| buffer := no_buffer; fp := None |} ;;
              let '(res, h, l) := p in
              if res =? CURLE_OK
              then ret (FTP_OK, Some (with_curl h c),
                        match response with
                        | Some _ => Some (data (buffer l))
                        | None => None
                        end)
              else
                msg <- curl_easy_strerror res ;;
                ret (FTP_ERROR_TRANSFER,
                     Some (with_error ("Command execution failed: " +:+ msg)
                             (with_curl h c)),
                     response)
          | (result, _) =>
              ret (result, Some (with_error "URL too long" (with_curl h c)), response)
          end
      end
  | _, _ => ret (FTP_ERROR_INVALID_PARAM, client, response)
  end.

Definition ftp_client_get_error (client : option ftp_client_t) : string :=
  match client with
  | Some c => last_error c
  | None => "Invalid client handle"
  end.

(** * The vocabulary of the statements *)

(** ** Memory buffers

    A buffer is well formed when [size] lies inside the block and
    [capacity] is the size of the block. *)

Definition buffer_ok (mem : ftp_memory_buffer_t) : Prop :=
  0 <= size mem <= capacity mem /\
  match data mem with
  | Some blk => Z.of_nat (length blk) = capacity mem
  | None => capacity mem = 0
  end.

Definition must_grow (mem : ftp_memory_buffer_t) (sz nmemb : Z) : bool :=
  capacity mem <? size mem + sz * nmemb + 1.

Definition next_alloc_fails (w : world) : bool :=
  match heap w with
  | false :: _ => true
  | _ => false
  end.

Definition realloc_fails (mem : ftp_memory_buffer_t) (sz nmemb : Z) (w : world) : bool :=
  must_grow mem sz nmemb && next_alloc_fails w.

Definition after_alloc (w : world) : world :=
  match heap w with
  | [] => w
  | _ :: rest => set_heap rest w
  end.

(** The next [n] allocation requests succeed. *)
Fixpoint allocations_succeed (n : nat) (w : world) : bool :=
  match n with
  | O => true
  | S n' => negb (next_alloc_fails w) && allocations_succeed n' (after_alloc w)
  end.

(** ** Transfers *)

Definition writes_to_memory (h : CURL) : bool :=
  match curl_getopt h CURLOPT_WRITEFUNCTION with
  | Some (OptFn fn_write_memory_callback) => true
  | _ => false
  end.

Definition observer_set (c : ftp_client_t) : bool :=
  match progress_callback (config c) with Some _ => true | None => false end.

Definition observer_continues (c : ftp_client_t) (ev : xfer_event) : bool :=
  match ev with
  | XferProgress dltotal dlnow ultotal ulnow =>
      progress_continues (progress_callback_wrapper c dltotal dlnow ultotal ulnow)
  | _ => true
  end.

(** Where the observer stops a transfer, if it does. *)
Fixpoint observed (c : ftp_client_t) (evs : list xfer_event) : option CURLcode :=
  match evs with
  | [] => None
  | ev :: evs' =>
      if observer_continues c ev then observed c evs'
      else Some CURLE_ABORTED_BY_CALLBACK
  end.

Definition carries_no_data (ev : xfer_event) : bool :=
  match ev with
  | XferProgress _ _ _ _ => true
  | _ => false
  end.

Definition data_volume (evs : list xfer_event) : Z :=
  fold_right (fun ev n =>
                match ev with
                | XferData contents => Z.of_nat (length contents) + n
                | _ => n
                end) 0 evs.

Definition next_script (w : world) : transfer := hd no_server (net w).

(** What libcurl reports for a transfer into a file. *)
Definition file_transfer_result (c : ftp_client_t) (t : transfer) : CURLcode :=
  match observed c (xfer_events t) with
  | Some stop => stop
  | None => xfer_result t
  end.

Definition download_status (res : CURLcode) : ftp_error_t :=
  if res =? CURLE_OK then FTP_OK
  else if res =? CURLE_REMOTE_FILE_NOT_FOUND then FTP_ERROR_FILE_NOT_FOUND
       else FTP_ERROR_TRANSFER.

Definition upload_status (res : CURLcode) : ftp_error_t :=
  if res =? CURLE_OK then FTP_OK else FTP_ERROR_TRANSFER.

(** What [ftp_client_get_filesize] makes of the transfer result and the
    reported length. *)
Definition filesize_status (res : CURLcode) (info : CURLcode * Z) (old : Z)
  : ftp_error_t * Z :=
  if res =? CURLE_OK then
    if (fst info =? CURLE_OK) && (0 <=? snd info) then (FTP_OK, snd info)
    else (FTP_ERROR_TRANSFER, old)
  else (FTP_ERROR_TRANSFER, old).

(** Same world apart from the contents of one file. *)
Definition same_but_file (path : string) (w w' : world) : Prop :=
  heap w' = heap w /\ net w' = net w /\ wire w' = wire w /\
  strerror w' = strerror w /\ readonly w' = readonly w /\
  (forall p, p <> path -> fs w' !! p = fs w !! p).

(** Same world apart from the allocations consumed. *)
Definition same_but_heap (w w' : world) : Prop :=
  fs w' = fs w /\ net w' = net w /\ wire w' = wire w /\
  strerror w' = strerror w /\ readonly w' = readonly w /\ junk w' = junk w.

(** ** Paths and errors *)

Definition absolute (path : string) : string :=
  if begins_with_slash path then path else "/" +:+ path.



(** ** Concrete clients, servers and worlds *)

Definition world0 : world :=
  {| fs := ∅; readonly := ∅; heap := []; junk := "?"%char; net := [];
     wire := []; strerror := fun _ => "error"%string |}.

Definition default_config : ftp_config_t :=
  {| host := None; port := 21; username := Some "anonymous"%string;
     password := Some "user@example.com"%string; mode := FTP_MODE_PASSIVE;
     ssl_mode := FTP_SSL_NONE; verify_ssl := 1; timeout := 60;
     connect_timeout := 30; verbose := 0; progress_callback := None;
     progress_user_data := 0 |}.

Definition fresh_handle : CURL :=
  {| options := []; content_length_download := (CURLE_OK, -1) |}.

Definition example_client : ftp_client_t :=
  {| curl := Some fresh_handle;
     config := with_host (Some "ftp.example.com"%string) default_config;
     last_error := ""%string |}.





(** A host and a relative path that fill the URL buffer to its last
    byte. *)
Definition edge_client : ftp_client_t :=
  with_config (with_host (Some "h"%string) default_config) example_client.

Definition edge_path : string := string_of_list_ascii (replicate 2033 "a"%char).

Definition missing_file : transfer :=
  {| xfer_events := [XferProgress 0 0 0 0];
     xfer_result := CURLE_REMOTE_FILE_NOT_FOUND;
     xfer_length := (CURLE_OK, -1) |}.

Definition three_bytes : transfer :=
  {| xfer_events := [XferData ["a"; "b"]%char; XferProgress 3 2 0 0;
                     XferData ["c"]%char; XferProgress 3 3 0 0];
     xfer_result := CURLE_OK;
     xfer_length := (CURLE_OK, 3) |}.


Definition serving (t : transfer) : world := set_net [t] world0.

Definition with_local_file (path : string) (bytes : list ascii) (w : world) : world :=
  set_fs (<[path := bytes]> (fs w)) w.

Definition upload_world : world :=
  with_local_file "local.bin" ["x"; "y"; "z"]%char (serving three_bytes).

Definition long_remote_path : string :=
  "/" +:+ string_of_list_ascii (replicate 2100 "a"%char).

(** Two names of 508 characters that differ in the last one. *)
Definition long_name (last : string) : string :=
  "/" +:+ string_of_list_ascii (replicate 506 "a"%char) +:+ last.

Definition cut_name : string :=
  "/" +:+ string_of_list_ascii (replicate 505 "a"%char).

(** A size query for a path the server does not have, with 7 in the
    variable. *)
Definition missing_query : option (ftp_error_t * option ftp_client_t * option Z * world) :=
  ftp_client_get_filesize (Some example_client) (Some "/missing.txt"%string) (Some 7)
    (serving missing_file).

Definition missing_query_client : option ftp_client_t :=
  match missing_query with
  | Some (_, c', _, _) => c'
  | None => None
  end.

Definition missing_query_world : world :=
  match missing_query with
  | Some (_, _, _, w') => w'
  | None => world0
  end.

(** ** Bytes moved by a transfer *)

(** The bytes of the data events, in order. *)
Fixpoint received (evs : list xfer_event) : list ascii :=
  match evs with
  | [] => []
  | XferData contents :: evs' => contents ++ received evs'
  | _ :: evs' => received evs'
  end.

(** The events before the observer asks to stop. *)
Fixpoint played (c : ftp_client_t) (evs : list xfer_event) : list xfer_event :=
  match evs with
  | [] => []
  | ev :: evs' => if observer_continues c ev then ev :: played c evs' else []
  end.

Definition sends_data (ev : xfer_event) : bool :=
  match ev with
  | XferData _ => true
  | _ => false
  end.

(** No allocation request still to come is refused. *)
Definition memory_suffices (w : world) : bool := forallb (fun ok : bool => ok) (heap w).

(** The buffer holds the given bytes as a C string; an untouched buffer
    holds none. *)
Definition buffer_holds (mem : ftp_memory_buffer_t) (bytes : list ascii) : Prop :=
  size mem = Z.of_nat (length bytes) /\
  match data mem with
  | Some blk => take (length bytes) blk = bytes /\ blk !! length bytes = Some Ascii.zero
  | None => bytes = []
  end.

(** ** More servers and worlds *)

(** A directory without entries: the transfer succeeds and brings no
    data. *)
Definition empty_directory : transfer :=
  {| xfer_events := [XferProgress 0 0 0 0];
     xfer_result := CURLE_OK;
     xfer_length := (CURLE_OK, -1) |}.

Definition login_refused : transfer :=
  {| xfer_events := []; xfer_result := CURLE_LOGIN_DENIED;
     xfer_length := (CURLE_OK, -1) |}.

(** A client as [ftp_client_create] leaves it: no host yet. *)
Definition unconfigured_client : ftp_client_t :=
  {| curl := Some fresh_handle; config := default_config; last_error := ""%string |}.

(** A world whose first allocation request is refused and the later
    ones granted, serving a listing of three bytes. *)
Definition one_refusal : world := set_heap [false] (serving three_bytes).

(** A world where "locked.bin" cannot be opened for writing. *)
Definition locked_world : world :=
  {| fs := ∅; readonly := {["locked.bin"%string]}; heap := []; junk := "?"%char;
     net := []; wire := []; strerror := fun _ => "error"%string |}.

(** A client set up for TLS with verification, in active mode. *)
Definition tls_client : ftp_client_t :=
  with_config (with_mode FTP_MODE_ACTIVE (with_ssl FTP_SSL_ALL 1 (config example_client)))
    example_client.

(** A listing and a raw command that fail, with a block of three letters
    behind the out-pointer. *)
Definition failed_listing
  : option (ftp_error_t * option ftp_client_t * option (option (list ascii)) * world) :=
  ftp_client_list_dir (Some example_client) (Some "/pub"%string)
    (Some (Some ["o"; "l"; "d"]%char)) (serving missing_file).

Definition failed_listing_client : option ftp_client_t :=
  match failed_listing with
  | Some (_, c', _, _) => c'
  | None => None
  end.

Definition failed_listing_world : world :=
  match failed_listing with
  | Some (_, _, _, w') => w'
  | None => world0
  end.

Definition failed_command
  : option (ftp_error_t * option ftp_client_t * option (option (list ascii)) * world) :=
  ftp_client_execute_command (Some example_client) (Some "NOOP"%string)
    (Some (Some ["o"; "l"; "d"]%char)) (serving missing_file).

Definition failed_command_client : option ftp_client_t :=
  match failed_command with
  | Some (_, c', _, _) => c'
  | None => None
  end.

Definition failed_command_world : world :=
  match failed_command with
  | Some (_, _, _, w') => w'
  | None => world0
  end.

(** The handle an upload leaves behind, and a client that holds it. *)
Definition sample_upload_handle : CURL :=
  curl_easy_setopt
    (curl_easy_setopt (curl_easy_setopt fresh_handle CURLOPT_UPLOAD (OptLong 1))
       CURLOPT_READFUNCTION (OptFn fn_read_file_callback))
    CURLOPT_INFILESIZE_LARGE (OptLong 3).

Definition sample_after_upload : ftp_client_t :=
  with_curl sample_upload_handle example_client.

(** ** Programs over the API

    One call of the public API with its arguments: the client is the one
    the program holds.  [api_step] makes the call and gives back what the
    function returned ([None] for the functions that return [void]) and the
    client after it; what a call stores through an out-pointer is dropped. *)

Inductive api_call : Type :=
| SetHost (h : option string) (p : Z)
| SetCredentials (user pass : option string)
| SetMode (m : ftp_mode_t)
| SetSsl (m : ftp_ssl_mode_t) (verify : Z)
| SetTimeout (t connect_t : Z)
| SetVerbose (v : Z)
| SetProgressCallback (cb : option ftp_progress_callback_t) (user_data : Z)
| Connect
| Upload (local_path remote_path : option string)
| Download (remote_path local_path : option string)
| ListDir (remote_path : option string) (output : option (option (list ascii)))
| Mkdir (remote_path : option string)
| Rmdir (remote_path : option string)
| Delete (remote_path : option string)
| Rename (old_path new_path : option string)
| GetFilesize (remote_path : option string) (sz : option Z)
| ExecuteCommand (command : option string) (response : option (option (list ascii))).

Definition returned {A} (r : ftp_error_t * A) : option ftp_error_t * A :=
  (Some (fst r), snd r).

Definition api_step (call : api_call) (client : option ftp_client_t)
  : M (option ftp_error_t * option ftp_client_t) :=
  match call with
  | SetHost h p => r <- ftp_client_set_host client h p ;; ret (returned r)
  | SetCredentials user pass =>
      r <- ftp_client_set_credentials client user pass ;; ret (returned r)
  | SetMode m => ret (None, ftp_client_set_mode client m)
  | SetSsl m verify => ret (None, ftp_client_set_ssl client m verify)
  | SetTimeout t connect_t => ret (None, ftp_client_set_timeout client t connect_t)
  | SetVerbose v => ret (None, ftp_client_set_verbose client v)
  | SetProgressCallback cb user_data =>
      ret (None, ftp_client_set_progress_callback client cb user_data)
  | Connect => r <- ftp_client_connect client ;; ret (returned r)
  | Upload lp rp => r <- ftp_client_upload client lp rp ;; ret (returned r)
  | Download rp lp => r <- ftp_client_download client rp lp ;; ret (returned r)
  | ListDir rp out => r <- ftp_client_list_dir client rp out ;; ret (returned (fst r))
  | Mkdir rp => r <- ftp_client_mkdir client rp ;; ret (returned r)
  | Rmdir rp => r <- ftp_client_rmdir client rp ;; ret (returned r)
  | Delete rp => r <- ftp_client_delete client rp ;; ret (returned r)
  | Rename old new => r <- ftp_client_rename client old new ;; ret (returned r)
  | GetFilesize rp sz => r <- ftp_client_get_filesize client rp sz ;; ret (returned (fst r))
  | ExecuteCommand cmd resp =>
      r <- ftp_client_execute_command client cmd resp ;; ret (returned (fst r))
  end.

(** The calls one after the other, each on the client the one before
    left. *)
Fixpoint api_run (calls : list api_call) (client : option ftp_client_t)
  : M (option ftp_client_t) :=
  match calls with
  | [] => ret client
  | call :: rest => r <- api_step call client ;; api_run rest (snd r)
  end.

Definition is_setter (call : api_call) : bool :=
  match call with
  | SetHost _ _ | SetCredentials _ _ | SetMode _ | SetSsl _ _ | SetTimeout _ _
  | SetVerbose _ | SetProgressCallback _ _ => true
  | _ => false
  end.

(** The functions declared [void]. *)
Definition returns_void (call : api_call) : bool :=
  match call with
  | SetMode _ | SetSsl _ _ | SetTimeout _ _ | SetVerbose _
  | SetProgressCallback _ _ => true
  | _ => false
  end.

(** The local file a call may write: the target of a download. *)
Definition written_file (call : api_call) : option string :=
  match call with
  | Download _ lp => lp
  | _ => None
  end.

(** The ranges the setters keep. *)
Definition config_in_range (cfg : ftp_config_t) : Prop :=
  1 <= port cfg <= 65535 /\ 0 < timeout cfg /\ 0 < connect_timeout cfg.

(** Nothing went to the server, and no file but [target] changed. *)
Definition quiet (target : option string) (w w' : world) : Prop :=
  wire w' = wire w /\ net w' = net w /\
  forall p, target <> Some p -> fs w' !! p = fs w !! p.

(** One handle went to the server and took the next transfer of the
    world; no file but [target] changed. *)
Definition one_transfer (target : option string) (w w' : world) : Prop :=
  (exists sent, wire w' = wire w ++ [sent]) /\ net w' = tl (net w) /\
  forall p, target <> Some p -> fs w' !! p = fs w !! p.

(** What every call keeps: at most one transfer, no file changed but
    [target], the configuration, and on FTP_OK the error text. *)
Definition call_frame (target : option string) (c : ftp_client_t) (w : world)
    (r : ftp_error_t) (after : option ftp_client_t) (w' : world) : Prop :=
  (quiet target w w' \/ one_transfer target w w') /\
  exists c', after = Some c' /\ config c' = config c /\
             (r = FTP_OK -> last_error c' = last_error c).

(** The conversion of the ports from [p] on takes at most five
    characters each, for [fuel] ports. *)
Fixpoint digits_fit_from (fuel : nat) (p : Z) : bool :=
  match fuel with
  | O => true
  | S fuel' => (strlen (format_d p) <=? 5) && digits_fit_from fuel' (p + 1)
  end.

(** ** A sample program *)

(** A client that carries the text of an earlier failure. *)
Definition stale_client : ftp_client_t :=
  with_error "Upload failed: error" example_client.

Definition sample_call : api_call :=
  Download (Some "/f"%string) (Some "copy.bin"%string).

Definition sample_step : option (option ftp_error_t * option ftp_client_t * world) :=
  api_step sample_call (Some stale_client) (serving three_bytes).

Definition sample_step_client : option ftp_client_t :=
  match sample_step with
  | Some (_, after, _) => after
  | None => None
  end.

Definition sample_step_world : world :=
  match sample_step with
  | Some (_, _, w') => w'
  | None => world0
  end.

(** Out-of-range values, then a connection and a download. *)
Definition sample_program : list api_call :=
  [SetHost (Some "ftp.example.com"%string) 70000; SetTimeout 0 (-5);
   SetCredentials (Some "user"%string) (Some "secret"%string); Connect; sample_call].

Definition sample_run : option (option ftp_client_t * world) :=
  api_run sample_program (Some unconfigured_client) (serving three_bytes).

Definition sample_run_client : option ftp_client_t :=
  match sample_run with
  | Some (after, _) => after
  | None => None
  end.

Definition sample_run_world : world :=
  match sample_run with
  | Some (_, w') => w'
  | None => world0
  end.

(** * Lemmas *)

(** ** Arithmetic of the growth loop *)

Lemma wrap_small x : 0 <= x < 2 ^ 64 -> wrap x = x.
Proof. intros H. unfold wrap, SIZE_WIDTH. apply Z.mod_small. exact H. Qed.

Lemma grow_capacity_enough fuel c need :
  0 < c -> c < 2 ^ 64 -> need <= 2 ^ 63 -> need <= c * 2 ^ Z.of_nat fuel ->
  exists c', grow_capacity fuel c need = Some c' /\ need <= c' /\ c <= c' < 2 ^ 64.
Proof.
  revert c. induction fuel as [|fuel IH]; intros c Hpos Hlt Hneed Hfuel.
  - simpl in *. destruct (c <? need) eqn:E.
    + apply Z.ltb_lt in E. lia.
    + apply Z.ltb_ge in E. exists c. repeat split; lia.
  - simpl. destruct (c <? need) eqn:E.
    + apply Z.ltb_lt in E.
      rewrite wrap_small by lia.
      destruct (IH (c * 2)) as (c' & Hc' & Hn & Hr); try lia.
      { rewrite Nat2Z.inj_succ, Z.pow_succ_r in Hfuel by lia. lia. }
      exists c'. repeat split; try assumption; lia.
    + apply Z.ltb_ge in E. exists c. repeat split; lia.
Qed.

Lemma grow_capacity_zero fuel need : 0 < need -> grow_capacity fuel 0 need = None.
Proof.
  intros H. induction fuel as [|fuel IH]; simpl.
  - destruct (0 <? need) eqn:E; [reflexivity|]. apply Z.ltb_ge in E. lia.
  - destruct (0 <? need) eqn:E; [exact IH|]. apply Z.ltb_ge in E. lia.
Qed.

Lemma grow_capacity_diverges_from n : forall c need,
  (n <= 64)%nat -> 0 <= c < 2 ^ 64 -> (2 ^ (64 - Z.of_nat n) | c) ->
  grow_capacity n c need = None ->
  forall fuel, grow_capacity fuel c need = None.
Proof.
  induction n as [|n IH]; intros c need Hn Hc Hdiv Hnone fuel.
  - assert (c = 0).
    { destruct Hdiv as [q Hq]. simpl in Hq. replace (64 - 0) with 64 in Hq by lia. nia. }
    subst c. simpl in Hnone. destruct (0 <? need) eqn:E; [|discriminate].
    apply Z.ltb_lt in E. apply grow_capacity_zero. exact E.
  - simpl in Hnone. destruct (c <? need) eqn:E; [|discriminate].
    assert (Hrec : forall f, grow_capacity f (wrap (c * 2)) need = None).
    { apply IH; try assumption; try lia.
      - unfold wrap, SIZE_WIDTH. apply Z.mod_pos_bound. lia.
      - unfold wrap, SIZE_WIDTH. rewrite Z.mod_eq by lia.
        assert (D1 : (2 ^ (64 - Z.of_nat n) | c * 2)).
        { destruct Hdiv as [q Hq]. exists q.
          replace (64 - Z.of_nat n) with (Z.succ (64 - Z.of_nat (S n))) by lia.
          rewrite Z.pow_succ_r by lia. lia. }
        assert (D2 : (2 ^ (64 - Z.of_nat n) | 2 ^ 64)).
        { exists (2 ^ Z.of_nat n). rewrite <- Z.pow_add_r by lia. f_equal. lia. }
        apply Z.divide_sub_r; [exact D1|]. apply Z.divide_mul_l. exact D2. }
    destruct fuel as [|fuel]; simpl; rewrite E; [reflexivity|apply Hrec].
Qed.

(** Fuel 64 loses nothing: when it is not enough, no amount is. *)
Lemma grow_capacity_fuel c need :
  0 <= c < 2 ^ 64 -> grow_capacity 64 c need = None ->
  forall fuel, grow_capacity fuel c need = None.
Proof.
  intros Hc Hnone. apply (grow_capacity_diverges_from 64); try assumption; try lia.
  exists c. simpl. lia.
Qed.

(** ** Allocation and block writes *)

Lemma alloc_eq w : alloc w = Some (negb (next_alloc_fails w), after_alloc w).
Proof.
  unfold alloc, next_alloc_fails, after_alloc. destruct (heap w) as [|[] ?]; reflexivity.
Qed.

Lemma alloc_succeeds n w :
  allocations_succeed (S n) w = true ->
  alloc w = Some (true, after_alloc w) /\ allocations_succeed n (after_alloc w) = true.
Proof.
  simpl. intros H. apply andb_true_iff in H as [H1 H2].
  rewrite alloc_eq, H1. auto.
Qed.

Lemma next_script_after_alloc w : next_script (after_alloc w) = next_script w.
Proof. unfold next_script, after_alloc. destruct (heap w); reflexivity. Qed.

Lemma wire_after_alloc w : wire (after_alloc w) = wire w.
Proof. unfold after_alloc. destruct (heap w); reflexivity. Qed.

Lemma memcpy_at_inside (blk src : list ascii) off n :
  0 <= off -> 0 <= n -> off + n <= Z.of_nat (length blk) -> n = Z.of_nat (length src) ->
  exists blk1, memcpy_at blk off src n = Some blk1 /\
    length blk1 = length blk /\
    take (Z.to_nat (off + n)) blk1 = take (Z.to_nat off) blk ++ src.
Proof.
  intros Hoff Hn Hin Hsrc. unfold memcpy_at.
  assert (E : (0 <=? off) && (0 <=? n) && (off + n <=? Z.of_nat (length blk))
              && (n <=? Z.of_nat (length src)) = true).
  { repeat (apply andb_true_iff; split); apply Z.leb_le; lia. }
  rewrite E. eexists. split; [reflexivity|].
  assert (Hsrc' : Z.to_nat n = length src) by lia.
  rewrite Hsrc', firstn_all.
  split.
  - rewrite !length_app, length_take, length_drop. lia.
  - rewrite app_assoc. rewrite take_app_length'; [reflexivity|].
    rewrite length_app, length_take. lia.
Qed.

Lemma store_at_inside (blk : list ascii) off c :
  0 <= off < Z.of_nat (length blk) ->
  exists blk2, store_at blk off c = Some blk2 /\
    length blk2 = length blk /\
    blk2 !! Z.to_nat off = Some c /\
    take (Z.to_nat off) blk2 = take (Z.to_nat off) blk.
Proof.
  intros H. unfold store_at.
  assert (E : (0 <=? off) && (off <? Z.of_nat (length blk)) = true).
  { apply andb_true_iff; split; [apply Z.leb_le|apply Z.ltb_lt]; lia. }
  rewrite E. eexists. split; [reflexivity|].
  split; [apply length_insert|]. split.
  - apply list_lookup_insert_eq. lia.
  - apply take_insert_ge. lia.
Qed.

(** The copy and the terminator, once the block is large enough. *)
Lemma write_memory_callback_store contents realsize (mem1 : ftp_memory_buffer_t) blk w :
  data mem1 = Some blk -> Z.of_nat (length blk) = capacity mem1 ->
  0 <= size mem1 -> realsize = Z.of_nat (length contents) ->
  size mem1 + realsize + 1 <= capacity mem1 -> size mem1 + realsize < 2 ^ 64 ->
  exists blk2,
    (blk <- lift (data mem1) ;;
     blk1 <- lift (memcpy_at blk (size mem1) contents realsize) ;;
     blk2 <- lift (store_at blk1 (wrap (size mem1 + realsize)) Ascii.zero) ;;
     ret (realsize, {| data := Some blk2; size := wrap (size mem1 + realsize);
                       capacity := capacity mem1 |})) w
    = Some (realsize, {| data := Some blk2; size := size mem1 + realsize;
                         capacity := capacity mem1 |}, w) /\
    Z.of_nat (length blk2) = capacity mem1 /\
    blk2 !! Z.to_nat (size mem1 + realsize) = Some Ascii.zero /\
    take (Z.to_nat (size mem1 + realsize)) blk2 = take (Z.to_nat (size mem1)) blk ++ contents.
Proof.
  intros Hd Hlen Hs Hr Hfit Hcap.
  destruct (memcpy_at_inside blk contents (size mem1) realsize) as (blk1 & E1 & L1 & T1); try lia.
  destruct (store_at_inside blk1 (size mem1 + realsize) Ascii.zero) as (blk2 & E2 & L2 & G2 & T2); try lia.
  exists blk2. rewrite wrap_small by lia.
  unfold bind, lift, ret. rewrite Hd, E1, E2.
  repeat split; try assumption; try congruence.
Qed.

Lemma write_memory_callback_fails contents sz nmemb mem w :
  buffer_ok mem -> 0 <= sz -> 0 <= nmemb ->
  size mem + sz * nmemb + 1 <= 2 ^ 63 ->
  realloc_fails mem sz nmemb w = true ->
  write_memory_callback contents sz nmemb mem w = Some (0, mem, after_alloc w).
Proof.
  intros [[Hs0 Hsc] Hblk] Hsz Hn Hbound Hfail.
  unfold realloc_fails, must_grow in Hfail. apply andb_true_iff in Hfail as [Hgrow Hheap].
  apply Z.ltb_lt in Hgrow.
  assert (Hprod : 0 <= sz * nmemb) by (apply Z.mul_nonneg_nonneg; assumption).
  unfold write_memory_callback.
  rewrite (wrap_small (sz * nmemb)) by lia.
  rewrite (wrap_small (size mem + sz * nmemb)) by lia.
  rewrite (wrap_small (size mem + sz * nmemb + 1)) by lia.
  unfold bind at 1. unfold bind at 1.
  apply Z.ltb_lt in Hgrow. rewrite Hgrow. apply Z.ltb_lt in Hgrow.
  unfold bind at 1, lift at 1.
  destruct (grow_capacity_enough 64
              (if capacity mem =? 0 then FTP_BUFFER_SIZE else wrap (capacity mem * 2))
              (size mem + sz * nmemb + 1)) as (c' & Hc' & Hge & Hrange).
  - destruct (capacity mem =? 0) eqn:E; [unfold FTP_BUFFER_SIZE; lia|].
    apply Z.eqb_neq in E. rewrite wrap_small by lia. lia.
  - destruct (capacity mem =? 0) eqn:E; [unfold FTP_BUFFER_SIZE; lia|].
    unfold wrap, SIZE_WIDTH. apply Z.mod_pos_bound. lia.
  - lia.
  - destruct (capacity mem =? 0) eqn:E; [unfold FTP_BUFFER_SIZE; simpl; lia|].
    apply Z.eqb_neq in E. rewrite wrap_small by lia. simpl. lia.
  - rewrite Hc'. unfold realloc, bind. rewrite alloc_eq, Hheap. reflexivity.
Qed.

Lemma write_memory_callback_succeeds contents sz nmemb mem w :
  buffer_ok mem -> 0 <= sz -> 0 <= nmemb ->
  size mem + sz * nmemb + 1 <= 2 ^ 63 ->
  Z.of_nat (length contents) = sz * nmemb ->
  realloc_fails mem sz nmemb w = false ->
  exists blk mem',
    write_memory_callback contents sz nmemb mem w
    = Some (sz * nmemb, mem', if must_grow mem sz nmemb then after_alloc w else w) /\
    data mem' = Some blk /\
    size mem' = size mem + sz * nmemb /\
    capacity mem <= capacity mem' /\
    buffer_ok mem' /\
    size mem' + 1 <= capacity mem' /\
    blk !! Z.to_nat (size mem') = Some Ascii.zero /\
    take (Z.to_nat (size mem')) blk
    = take (Z.to_nat (size mem)) (default [] (data mem)) ++ contents.
Proof.
  intros [[Hs0 Hsc] Hblk] Hsz Hn Hbound Hlen Hok.
  assert (Hprod : 0 <= sz * nmemb) by (apply Z.mul_nonneg_nonneg; assumption).
  unfold write_memory_callback.
  rewrite (wrap_small (sz * nmemb)) by lia.
  rewrite (wrap_small (size mem + sz * nmemb)) by lia.
  rewrite (wrap_small (size mem + sz * nmemb + 1)) by lia.
  unfold realloc_fails in Hok. unfold must_grow in *.
  destruct (capacity mem <? size mem + sz * nmemb + 1) eqn:Hgrow.
  - (* the block is reallocated *)
    simpl in Hok. apply Z.ltb_lt in Hgrow.
    destruct (grow_capacity_enough 64
                (if capacity mem =? 0 then FTP_BUFFER_SIZE else wrap (capacity mem * 2))
                (size mem + sz * nmemb + 1)) as (c' & Hc' & Hge & Hrange).
    { destruct (capacity mem =? 0) eqn:E; [unfold FTP_BUFFER_SIZE; lia|].
      apply Z.eqb_neq in E. rewrite wrap_small by lia. lia. }
    { destruct (capacity mem =? 0) eqn:E; [unfold FTP_BUFFER_SIZE; lia|].
      unfold wrap, SIZE_WIDTH. apply Z.mod_pos_bound. lia. }
    { lia. }
    { destruct (capacity mem =? 0) eqn:E; [unfold FTP_BUFFER_SIZE; simpl; lia|].
      apply Z.eqb_neq in E. rewrite wrap_small by lia. simpl. lia. }
    assert (Hcap : capacity mem <= c').
    { destruct (capacity mem =? 0) eqn:E.
      - apply Z.eqb_eq in E. unfold FTP_BUFFER_SIZE in Hrange. lia.
      - apply Z.eqb_neq in E. rewrite wrap_small in Hrange by lia. lia. }
    set (blk0 := resize (Z.to_nat c') (junk w) (default [] (data mem))).
    set (mem1 := {| data := Some blk0; size := size mem; capacity := c' |}).
    destruct (write_memory_callback_store contents (sz * nmemb) mem1 blk0 (after_alloc w))
      as (blk2 & Hrun & L2 & G2 & T2); cbn [data size capacity mem1];
      try lia; try reflexivity.
    { unfold blk0. rewrite length_resize. lia. }
    exists blk2. eexists. split.
    { unfold bind at 1. unfold bind at 1. unfold bind at 1. unfold lift at 1.
      rewrite Hc'. unfold realloc, bind at 1. rewrite alloc_eq, Hok.
      cbn [negb]. unfold bind at 1, gets at 1, ret at 1, ret at 1.
      assert (Hj : junk (after_alloc w) = junk w).
      { unfold after_alloc. destruct (heap w); reflexivity. }
      rewrite Hj. fold blk0. exact Hrun. }
    clear Hc'. cbn [data size capacity mem1] in *.
    repeat split; cbn [data size capacity]; try assumption; try lia.
    rewrite T2. f_equal. unfold blk0.
    rewrite take_resize_le by lia.
    destruct (data mem) as [old|]; simpl.
    + rewrite resize_le by lia. reflexivity.
    + assert (size mem = 0) by lia. replace (Z.to_nat (size mem)) with 0%nat by lia.
      reflexivity.
  - (* the block is large enough *)
    apply Z.ltb_ge in Hgrow.
    destruct (data mem) as [old|] eqn:Hd; [|lia].
    destruct (write_memory_callback_store contents (sz * nmemb) mem old w)
      as (blk2 & Hrun & L2 & G2 & T2); try lia; try assumption.
    exists blk2. eexists. split.
    { unfold bind at 1. unfold ret at 1. exact Hrun. }
    cbn [data size capacity] in *.
    repeat split; cbn [data size capacity]; try assumption; try lia.
Qed.

(** ** Strings *)

Lemma length_append (a b : string) :
  String.length (a +:+ b) = (String.length a + String.length b)%nat.
Proof. induction a as [|ch a IH]; simpl; [reflexivity|]. rewrite IH. reflexivity. Qed.

Lemma strlen_append a b : strlen (a +:+ b) = strlen a + strlen b.
Proof. unfold strlen. rewrite length_append. lia. Qed.

Lemma substring_whole (s : string) : forall n,
  (String.length s <= n)%nat -> substring 0 n s = s.
Proof.
  induction s as [|ch s IH]; intros n Hn.
  - destruct n; reflexivity.
  - destruct n as [|n]; simpl in *; [lia|]. rewrite IH by lia. reflexivity.
Qed.

Lemma length_substring (s : string) : forall n,
  String.length (substring 0 n s) = Nat.min n (String.length s).
Proof.
  induction s as [|ch s IH]; intros n.
  - destruct n; reflexivity.
  - destruct n as [|n]; simpl; [reflexivity|]. rewrite IH. reflexivity.
Qed.

Lemma snprintf_fits n text : strlen text <= n - 1 -> snprintf n text = text.
Proof. intros H. unfold snprintf, strlen in *. apply substring_whole. lia. Qed.

Lemma strlen_snprintf n text :
  1 <= n -> strlen (snprintf n text) = Z.min (n - 1) (strlen text).
Proof. intros H. unfold snprintf, strlen. rewrite length_substring. lia. Qed.

Lemma begins_with_slash_prepended p : begins_with_slash ("/" +:+ p) = true.
Proof. reflexivity. Qed.

Lemma command_line_fits verb path :
  strlen verb + 1 + strlen (absolute path) <= 511 ->
  command_line verb path = verb +:+ " " +:+ absolute path.
Proof.
  intros H. unfold command_line, absolute in *.
  destruct (begins_with_slash path).
  - apply snprintf_fits. rewrite !strlen_append. unfold strlen in *. simpl in *. lia.
  - apply snprintf_fits. rewrite !strlen_append in *. unfold strlen in *. simpl in *. lia.
Qed.

(** ** URLs *)

Lemma url_text_length hn n rp :
  strlen (format_d n) <= 5 -> strlen (url_text hn n rp) + 1 <= required_len hn rp.
Proof.
  intros Hd. unfold url_text, required_len.
  destruct rp as [p|].
  - destruct (begins_with_slash p); rewrite !strlen_append; unfold strlen in *; simpl; lia.
  - rewrite !strlen_append; unfold strlen in *; simpl; lia.
Qed.

Example build_ftp_url_relative :
  build_ftp_url example_client (Some "pub/readme.txt"%string) FTP_MAX_URL_LENGTH
  = Some (FTP_OK, Some "ftp://ftp.example.com:21/pub/readme.txt"%string).
Proof. vm_compute. reflexivity. Qed.

Example build_ftp_url_absolute :
  build_ftp_url example_client (Some "/pub/readme.txt"%string) FTP_MAX_URL_LENGTH
  = Some (FTP_OK, Some "ftp://ftp.example.com:21/pub/readme.txt"%string).
Proof. vm_compute. reflexivity. Qed.

(** ** Option stores *)

Lemma getopt_setopt h o v o' :
  curl_getopt (curl_easy_setopt h o v) o'
  = if decide (o = o') then Some v else curl_getopt h o'.
Proof.
  unfold curl_getopt, curl_easy_setopt. simpl.
  destruct (decide (o = o')) as [->|Hne].
  - rewrite bool_decide_eq_true_2 by reflexivity. reflexivity.
  - rewrite bool_decide_eq_false_2 by assumption. reflexivity.
Qed.

Ltac getopt := repeat (rewrite getopt_setopt; simpl decide).

Lemma setup_curl_common_progress c h :
  progress_enabled (setup_curl_common c h) = observer_set c.
Proof.
  unfold progress_enabled, setup_curl_common, observer_set.
  destruct (progress_callback (config c)); destruct (mode (config c));
    destruct (ssl_mode (config c)); reflexivity.
Qed.

Lemma setup_curl_common_other c h o :
  o = CURLOPT_WRITEFUNCTION \/ o = CURLOPT_READFUNCTION \/ o = CURLOPT_QUOTE
  \/ o = CURLOPT_URL ->
  curl_getopt (setup_curl_common c h) o = curl_getopt h o.
Proof.
  unfold setup_curl_common.
  intros [->|[->|[->| ->]]];
    destruct (progress_callback (config c)); destruct (mode (config c));
    destruct (ssl_mode (config c)); reflexivity.
Qed.

(** ** Worlds that differ in one respect *)

Lemma same_but_file_refl path w : same_but_file path w w.
Proof. repeat split. Qed.

Lemma same_but_file_trans path w1 w2 w3 :
  same_but_file path w1 w2 -> same_but_file path w2 w3 -> same_but_file path w1 w3.
Proof.
  intros (A1 & A2 & A3 & A4 & A5 & A6) (B1 & B2 & B3 & B4 & B5 & B6).
  repeat split; try congruence. intros p Hp. rewrite B6, A6 by assumption. reflexivity.
Qed.

Lemma same_but_heap_refl w : same_but_heap w w.
Proof. repeat split. Qed.

Lemma same_but_heap_trans w1 w2 w3 :
  same_but_heap w1 w2 -> same_but_heap w2 w3 -> same_but_heap w1 w3.
Proof.
  intros (A1 & A2 & A3 & A4 & A5 & A6) (B1 & B2 & B3 & B4 & B5 & B6).
  repeat split; congruence.
Qed.

Lemma same_but_heap_after_alloc w : same_but_heap w (after_alloc w).
Proof. unfold after_alloc. destruct (heap w); repeat split. Qed.

Create HintDb worlds.

#[local] Hint Resolve same_but_file_refl same_but_heap_refl
  same_but_heap_after_alloc : worlds.

(** The next transfer of the world, and the world once it is taken. *)
Lemma next_transfer_eq w :
  exists w',
    next_transfer w = Some (next_script w, w') /\
    net w' = tl (net w) /\ fs w' = fs w /\ wire w' = wire w /\
    heap w' = heap w /\ strerror w' = strerror w /\ readonly w' = readonly w /\
    junk w' = junk w.
Proof.
  unfold next_transfer, next_script. destruct (net w) eqn:E; simpl.
  - exists w. rewrite E. repeat split.
  - eexists. split; [reflexivity|]. repeat split.
Qed.

(** ** The observer *)

Lemma wrapper_without_observer c a b d e :
  observer_set c = false -> progress_callback_wrapper c a b d e = 0.
Proof.
  unfold observer_set, progress_callback_wrapper.
  destruct (progress_callback (config c)); [discriminate|reflexivity].
Qed.

Lemma observed_silent c evs :
  forallb (observer_continues c) evs = true -> observed c evs = None.
Proof.
  induction evs as [|ev evs IH]; simpl; [reflexivity|].
  intros H. apply andb_true_iff in H as [H1 H2]. rewrite H1. auto.
Qed.



Lemma run_transfer_no_data h c evs l w :
  progress_enabled h = observer_set c ->
  forallb carries_no_data evs = true ->
  run_transfer h c evs l w = Some (observed c evs, l, w).
Proof.
  intros Hp. induction evs as [|[contents|nmemb|a b d e] evs IH]; simpl; intros Hev;
    try discriminate; [reflexivity|].
  rewrite Hp. destruct (observer_set c) eqn:Hobs.
  - destruct (progress_continues (progress_callback_wrapper c a b d e)); [apply IH; exact Hev|reflexivity].
  - rewrite wrapper_without_observer by assumption. simpl. apply IH. exact Hev.
Qed.

(** ** Transfers into a file

    The handle does not write into memory, and reports progress exactly
    when the client has an observer. *)

Section FileTransfer.

Variables (h : CURL) (c : ftp_client_t).
Hypothesis Hfile : writes_to_memory h = false.
Hypothesis Hwatch : progress_enabled h = observer_set c.

Lemma deliver_file contents l f w :
  fp l = Some f -> is_Some (fs w !! file_path f) ->
  exists f' w',
    deliver h contents l w
    = Some (Z.of_nat (length contents), {| buffer := buffer l; fp := Some f' |}, w') /\
    file_path f' = file_path f /\ is_Some (fs w' !! file_path f) /\
    same_but_file (file_path f) w w'.
Proof.
  intros Hf Hex. unfold deliver. unfold writes_to_memory in Hfile.
  destruct (curl_getopt h CURLOPT_WRITEFUNCTION) as [[n|s|sl|[]|p]|];
    try discriminate;
    try (exists f, w; destruct l; simpl in *; subst; auto with worlds; fail).
  unfold bind, lift. rewrite Hf.
  unfold write_file_callback, fwrite, bind, file_contents, gets, modify, ret. simpl.
  eexists. eexists. split; [reflexivity|]. simpl.
  split; [reflexivity|]. split; [rewrite lookup_insert_eq; eauto|].
  repeat split. intros p Hp. simpl. rewrite lookup_insert_ne by congruence. reflexivity.
Qed.

Lemma request_file nmemb l f w :
  fp l = Some f ->
  exists r f',
    request h nmemb l w = Some (r, {| buffer := buffer l; fp := Some f' |}, w) /\
    file_path f' = file_path f.
Proof.
  intros Hf. unfold request.
  destruct (curl_getopt h CURLOPT_READFUNCTION) as [[n|s|sl|[]|p]|];
    try (exists 0, f; destruct l; simpl in *; subst; split; reflexivity).
  unfold bind, lift. rewrite Hf.
  unfold read_file_callback, fread, bind, file_contents, gets, ret. simpl.
  eexists. eexists. split; reflexivity.
Qed.

(** Such a transfer always runs to its end or to the observer's stop. *)
Lemma run_transfer_file evs : forall l f w,
  fp l = Some f -> is_Some (fs w !! file_path f) ->
  exists l' w',
    run_transfer h c evs l w = Some (observed c evs, l', w') /\
    is_Some (fs w' !! file_path f) /\ same_but_file (file_path f) w w'.
Proof.
  induction evs as [|ev evs IH]; intros l f w Hf Hex.
  - exists l, w. simpl. auto with worlds.
  - destruct ev as [contents|nmemb|a b d e]; simpl.
    + destruct (deliver_file contents l f w Hf Hex)
        as (f' & w' & Hrun & Hpath & Hex' & Hsame).
      unfold bind. rewrite Hrun. simpl. rewrite Z.eqb_refl.
      destruct (IH {| buffer := buffer l; fp := Some f' |} f' w')
        as (l2 & w2 & Hrun2 & Hex2 & Hsame2); [reflexivity|rewrite Hpath; exact Hex'|].
      exists l2, w2. rewrite Hpath in *. split; [exact Hrun2|]. split; [exact Hex2|].
      eapply same_but_file_trans; eassumption.
    + destruct (request_file nmemb l f w Hf) as (r & f' & Hrun & Hpath).
      unfold bind. rewrite Hrun. simpl.
      destruct (IH {| buffer := buffer l; fp := Some f' |} f' w)
        as (l2 & w2 & Hrun2 & Hex2 & Hsame2); [reflexivity|rewrite Hpath; exact Hex|].
      exists l2, w2. rewrite Hpath in *. auto.
    + rewrite Hwatch. destruct (observer_set c) eqn:Hobs.
      * destruct (progress_continues (progress_callback_wrapper c a b d e)).
        -- apply IH; assumption.
        -- exists l, w. auto with worlds.
      * rewrite wrapper_without_observer by assumption. simpl. apply IH; assumption.
Qed.

(** What [curl_easy_perform] returns for it. *)
Lemma curl_easy_perform_file l f w :
  fp l = Some f -> is_Some (fs w !! file_path f) ->
  exists h' l' w',
    curl_easy_perform h c l w
    = Some (file_transfer_result c (next_script w), h', l', w') /\
    wire w' = wire w ++ [h] /\ net w' = tl (net w) /\
    is_Some (fs w' !! file_path f).
Proof.
  intros Hf Hex. unfold curl_easy_perform.
  unfold bind at 1.
  destruct (next_transfer_eq w) as (w2 & -> & Hnet2 & Hfs2 & Hwire2 & _).
  unfold bind at 1, modify at 1.
  destruct (run_transfer_file (xfer_events (next_script w)) l f
              (set_wire (wire w2 ++ [h]) w2) Hf)
    as (l' & w4 & Hrun & Hex4 & (_ & Hn & Hw & _)).
  { simpl. rewrite Hfs2. exact Hex. }
  unfold bind at 1. rewrite Hrun. unfold ret. cbn [fst snd].
  eexists. eexists. eexists. split; [reflexivity|].
  rewrite Hw, Hn. simpl. rewrite Hwire2, Hnet2. auto.
Qed.

End FileTransfer.

(** ** Transfers into memory

    The handle writes into the buffer and reads nothing. *)

Lemma data_volume_nonneg evs : 0 <= data_volume evs.
Proof. induction evs as [|[contents|nmemb|a b d e] evs IH]; simpl; lia. Qed.

Section MemoryTransfer.

Variables (h : CURL) (c : ftp_client_t).
Hypothesis Hmem : writes_to_memory h = true.
Hypothesis Hnoread : curl_getopt h CURLOPT_READFUNCTION = None.

Lemma deliver_memory contents l w :
  buffer_ok (buffer l) ->
  size (buffer l) + Z.of_nat (length contents) + 1 <= 2 ^ 63 ->
  exists r mem' w',
    deliver h contents l w = Some (r, {| buffer := mem'; fp := fp l |}, w') /\
    buffer_ok mem' /\ same_but_heap w w' /\
    (r = Z.of_nat (length contents) ->
     size mem' = size (buffer l) + Z.of_nat (length contents)).
Proof.
  intros Hok Hbound. unfold deliver. unfold writes_to_memory in Hmem.
  destruct (curl_getopt h CURLOPT_WRITEFUNCTION) as [[n|s|sl|[]|p]|]; try discriminate.
  unfold bind.
  destruct (realloc_fails (buffer l) 1 (Z.of_nat (length contents)) w) eqn:Hf.
  - rewrite write_memory_callback_fails; try assumption; try lia.
    exists 0, (buffer l), (after_alloc w). simpl.
    split; [reflexivity|]. split; [assumption|].
    split; [auto with worlds|]. intros H. lia.
  - destruct (write_memory_callback_succeeds contents 1 (Z.of_nat (length contents))
                (buffer l) w) as (blk & mem' & Hrun & _ & Hs & _ & Hok' & _);
      try assumption; try lia.
    rewrite Hrun. exists (1 * Z.of_nat (length contents)), mem'. eexists.
    simpl. split; [reflexivity|]. split; [assumption|]. split.
    + destruct (must_grow _ _ _); auto with worlds.
    + intros _. lia.
Qed.

(** Below 2^63 bytes such a transfer always has a result. *)
Lemma run_transfer_memory evs : forall l w,
  buffer_ok (buffer l) ->
  size (buffer l) + data_volume evs + 1 <= 2 ^ 63 ->
  exists stop l' w',
    run_transfer h c evs l w = Some (stop, l', w') /\
    buffer_ok (buffer l') /\ same_but_heap w w'.
Proof.
  induction evs as [|ev evs IH]; intros l w Hok Hbound.
  - exists None, l, w. simpl. auto with worlds.
  - pose proof (data_volume_nonneg evs) as Hvol.
    destruct ev as [contents|nmemb|a b d e]; simpl in *.
    + destruct (deliver_memory contents l w Hok)
        as (r & mem' & w' & Hrun & Hok' & Hsame & Hsize); [lia|].
      unfold bind. rewrite Hrun. cbn [fst snd].
      destruct (r =? Z.of_nat (length contents)) eqn:E.
      * apply Z.eqb_eq in E. specialize (Hsize E).
        destruct (IH {| buffer := mem'; fp := fp l |} w')
          as (stop & l2 & w2 & Hrun2 & Hok2 & Hsame2); [assumption|simpl; lia|].
        exists stop, l2, w2. split; [exact Hrun2|]. split; [exact Hok2|].
        eapply same_but_heap_trans; eassumption.
      * eexists. eexists. eexists. split; [reflexivity|]. simpl. split; assumption.
    + unfold bind, request. rewrite Hnoread. unfold ret at 1. cbn [snd].
      apply IH; assumption.
    + destruct (progress_enabled h).
      * destruct (progress_continues (progress_callback_wrapper c a b d e)).
        -- apply IH; assumption.
        -- exists (Some CURLE_ABORTED_BY_CALLBACK), l, w. auto with worlds.
      * apply IH; assumption.
Qed.

Lemma curl_easy_perform_memory l w :
  buffer_ok (buffer l) ->
  size (buffer l) + data_volume (xfer_events (next_script w)) + 1 <= 2 ^ 63 ->
  exists res h' l' w',
    curl_easy_perform h c l w = Some (res, h', l', w') /\
    wire w' = wire w ++ [h] /\ net w' = tl (net w) /\ fs w' = fs w.
Proof.
  intros Hok Hbound. unfold curl_easy_perform.
  unfold bind at 1.
  destruct (next_transfer_eq w) as (w2 & -> & Hnet2 & Hfs2 & Hwire2 & _).
  unfold bind at 1, modify at 1.
  destruct (run_transfer_memory (xfer_events (next_script w)) l
              (set_wire (wire w2 ++ [h]) w2) Hok Hbound)
    as (stop & l' & w4 & Hrun & _ & (Hf & Hn & Hw & _)).
  unfold bind at 1. rewrite Hrun. unfold ret. cbn [fst snd].
  eexists. eexists. eexists. eexists. split; [reflexivity|].
  rewrite Hw, Hn, Hf. simpl. rewrite Hwire2, Hnet2, Hfs2. auto.
Qed.

End MemoryTransfer.

(** ** The operations on a configured client

    The client holds a handle and a host name. *)

Section ConfiguredClient.

Variables (c : ftp_client_t) (h : CURL) (hn : string).
Hypothesis Hcurl : curl c = Some h.
Hypothesis Hhost : host (config c) = Some hn.

Lemma build_ftp_url_fits rp sz :
  required_len hn rp <= sz ->
  build_ftp_url c rp sz
  = Some (FTP_OK, Some (snprintf sz (url_text hn (port (config c)) rp))).
Proof.
  intros Hfit. unfold build_ftp_url. rewrite Hhost.
  destruct (sz <? required_len hn rp) eqn:E; [apply Z.ltb_lt in E; lia|reflexivity].
Qed.

Lemma build_ftp_url_oversize rp sz :
  sz < required_len hn rp ->
  build_ftp_url c rp sz = Some (FTP_ERROR_INVALID_PARAM, None).
Proof.
  intros Hbig. unfold build_ftp_url. rewrite Hhost.
  apply Z.ltb_lt in Hbig. rewrite Hbig. reflexivity.
Qed.

Lemma download_runs rp lp w :
  lp ∉ readonly w ->
  required_len hn (Some rp) <= FTP_MAX_URL_LENGTH ->
  exists c' w',
    ftp_client_download (Some c) (Some rp) (Some lp) w
    = Some (download_status (file_transfer_result c (next_script w)), Some c', w') /\
    (file_transfer_result c (next_script w) <> CURLE_OK -> fs w' !! lp = None) /\
    (file_transfer_result c (next_script w) = CURLE_OK -> is_Some (fs w' !! lp)) /\
    length (wire w') = S (length (wire w)).
Proof.
  intros Hro Hfit.
  unfold ftp_client_download. rewrite Hcurl.
  unfold bind at 1. unfold fopen. rewrite decide_False by assumption.
  unfold bind at 1. rewrite (build_ftp_url_fits (Some rp)) by assumption.
  unfold lift at 1.
  set (h' := curl_easy_setopt _ CURLOPT_WRITEDATA _).
  set (w1 := set_fs _ w).
  set (f := {| file_path := lp; file_pos := 0 |}).
  assert (Hm : writes_to_memory h' = false)
    by (unfold writes_to_memory, h'; getopt; reflexivity).
  assert (Hp : progress_enabled h' = observer_set c)
    by (unfold h', progress_enabled; getopt; apply setup_curl_common_progress).
  destruct (curl_easy_perform_file h' c Hm Hp {| buffer := no_buffer; fp := Some f |} f w1)
    as (h2 & l2 & w2 & Hrun & Hwire & _ & Hex).
  { reflexivity. }
  { unfold w1. simpl. rewrite lookup_insert_eq. eauto. }
  change (next_script w1) with (next_script w) in Hrun.
  change (wire w1) with (wire w) in Hwire.
  unfold bind at 1. rewrite Hrun.
  unfold fclose, bind at 1, ret at 1.
  assert (Hlen : length (wire w2) = S (length (wire w)))
    by (rewrite Hwire, length_app; simpl; lia).
  unfold download_status.
  destruct (file_transfer_result c (next_script w) =? CURLE_OK) eqn:Eok.
  - apply Z.eqb_eq in Eok.
    eexists. eexists. split; [reflexivity|].
    split; [congruence|]. split; [intros _; exact Hex|exact Hlen].
  - apply Z.eqb_neq in Eok.
    unfold bind at 1, curl_easy_strerror, gets at 1.
    unfold bind at 1, remove, modify at 1.
    destruct (file_transfer_result c (next_script w) =? CURLE_REMOTE_FILE_NOT_FOUND);
      (eexists; eexists; split; [reflexivity|]; simpl;
       split; [intros _; apply lookup_delete_eq|]; split; [congruence|exact Hlen]).
Qed.


Lemma get_filesize_no_data rp old w :
  required_len hn (Some rp) <= FTP_MAX_URL_LENGTH ->
  forallb carries_no_data (xfer_events (next_script w)) = true ->
  exists c' w',
    ftp_client_get_filesize (Some c) (Some rp) (Some old) w
    = Some (fst (filesize_status (file_transfer_result c (next_script w))
                   (xfer_length (next_script w)) old),
            Some c',
            Some (snd (filesize_status (file_transfer_result c (next_script w))
                         (xfer_length (next_script w)) old)),
            w') /\
    length (wire w') = S (length (wire w)).
Proof.
  intros Hfit Hev.
  unfold ftp_client_get_filesize. rewrite Hcurl.
  unfold bind at 1. rewrite (build_ftp_url_fits (Some rp)) by assumption.
  unfold lift at 1.
  set (h' := curl_easy_setopt _ CURLOPT_WRITEDATA _).
  unfold bind at 1. unfold curl_easy_perform.
  unfold bind at 1.
  destruct (next_transfer_eq w) as (w2 & -> & _ & _ & Hwire2 & _).
  unfold bind at 1, modify at 1.
  unfold bind at 1. rewrite run_transfer_no_data; [|
    unfold h', progress_enabled; getopt; apply setup_curl_common_progress | exact Hev].
  unfold ret at 1. cbn [fst snd].
  fold (file_transfer_result c (next_script w)).
  unfold filesize_status, curl_easy_getinfo_content_length.
  cbn [content_length_download].
  destruct (file_transfer_result c (next_script w) =? CURLE_OK).
  - destruct (xfer_length (next_script w)) as [code len]. cbn [fst snd].
    destruct ((code =? CURLE_OK) && (0 <=? len));
      (eexists; eexists; split; [reflexivity|]; simpl;
       rewrite Hwire2, length_app; simpl; lia).
  - unfold bind at 1, curl_easy_strerror, gets at 1.
    eexists; eexists; split; [reflexivity|]; simpl.
    rewrite Hwire2, length_app; simpl; lia.
Qed.

(** The commands go on the wire with the URL of the root directory. *)
Lemma execute_simple_command_runs cmds prefix w :
  required_len hn (Some "/"%string) <= FTP_MAX_URL_LENGTH ->
  data_volume (xfer_events (next_script w)) + 1 <= 2 ^ 63 ->
  exists r c' w' sent,
    ftp_client_execute_simple_command (Some c) (Some cmds) prefix w
    = Some (r, Some c', w') /\
    wire w' = wire w ++ [sent] /\ net w' = tl (net w) /\
    curl_getopt sent CURLOPT_QUOTE = Some (OptSlist cmds) /\
    curl_getopt sent CURLOPT_URL
    = Some (OptStr (Some (snprintf FTP_MAX_URL_LENGTH
                            (url_text hn (port (config c)) (Some "/"%string))))) /\
    (r = FTP_OK \/ r = FTP_ERROR_TRANSFER).
Proof.
  intros Hfit Hvol.
  unfold ftp_client_execute_simple_command. rewrite Hcurl.
  unfold bind at 1. rewrite (build_ftp_url_fits (Some "/"%string)) by assumption.
  unfold lift at 1.
  set (h' := curl_easy_setopt _ CURLOPT_WRITEDATA _).
  assert (Hm : writes_to_memory h' = true)
    by (unfold writes_to_memory, h'; getopt; reflexivity).
  assert (Hr : curl_getopt h' CURLOPT_READFUNCTION = None).
  { unfold h'. getopt. rewrite setup_curl_common_other by auto. getopt. reflexivity. }
  assert (Hq : curl_getopt h' CURLOPT_QUOTE = Some (OptSlist cmds))
    by (unfold h'; getopt; reflexivity).
  assert (Hu : curl_getopt h' CURLOPT_URL
               = Some (OptStr (Some (snprintf FTP_MAX_URL_LENGTH
                                       (url_text hn (port (config c)) (Some "/"%string)))))).
  { unfold h'. getopt. rewrite setup_curl_common_other by auto. getopt. reflexivity. }
  destruct (curl_easy_perform_memory h' c Hm Hr {| buffer := no_buffer; fp := None |} w)
    as (res & h2 & l2 & w2 & Hrun & Hwire & Hnet & _).
  { unfold buffer_ok. simpl. lia. }
  { simpl. lia. }
  unfold bind at 1. rewrite Hrun.
  destruct (res =? CURLE_OK).
  - eexists. eexists. eexists. exists h'. split; [reflexivity|]. auto 10.
  - unfold bind at 1, curl_easy_strerror, gets at 1.
    eexists. eexists. eexists. exists h'. split; [reflexivity|]. auto 10.
Qed.

(** Paths short enough for the 512-byte command buffers: both commands go
    out whole, in order, with absolute paths. *)
Lemma rename_sends_both_commands old new w :
  required_len hn (Some "/"%string) <= FTP_MAX_URL_LENGTH ->
  data_volume (xfer_events (next_script w)) + 1 <= 2 ^ 63 ->
  allocations_succeed 2 w = true ->
  strlen (absolute old) <= 506 -> strlen (absolute new) <= 506 ->
  exists r c' w' sent,
    ftp_client_rename (Some c) (Some old) (Some new) w = Some (r, Some c', w') /\
    wire w' = wire w ++ [sent] /\
    curl_getopt sent CURLOPT_QUOTE
    = Some (OptSlist ["RNFR " +:+ absolute old; "RNTO " +:+ absolute new]).
Proof.
  intros Hfit Hvol Halloc Hold Hnew.
  destruct (alloc_succeeds 1 w Halloc) as [E1 H1].
  destruct (alloc_succeeds 0 _ H1) as [E2 _].
  unfold ftp_client_rename. rewrite Hcurl. unfold curl_slist_append.
  unfold bind at 1. unfold bind at 1. rewrite E1. unfold ret at 1.
  unfold bind at 1. unfold bind at 1. rewrite E2. unfold ret at 1.
  rewrite (command_line_fits "RNFR" old) by (unfold strlen in *; simpl; lia).
  rewrite (command_line_fits "RNTO" new) by (unfold strlen in *; simpl; lia).
  destruct (execute_simple_command_runs
              ["RNFR " +:+ absolute old; "RNTO " +:+ absolute new] "Rename failed"
              (after_alloc (after_alloc w)) Hfit)
    as (r & c' & w' & sent & Hrun & Hwire & _ & Hq & _).
  { rewrite !next_script_after_alloc. exact Hvol. }
  exists r, c', w', sent. split; [exact Hrun|]. split; [|exact Hq].
  rewrite Hwire, !wire_after_alloc. reflexivity.
Qed.

End ConfiguredClient.

(** ** The out-pointer of ftp_client_get_filesize *)

Lemma get_filesize_frame client rp sz w r c' sz' w' :
  ftp_client_get_filesize client rp sz w = Some (r, c', sz', w') ->
  (r <> FTP_OK -> sz' = sz) /\
  (r = FTP_OK -> exists v, sz' = Some v /\ 0 <= v).
Proof.
  unfold ftp_client_get_filesize.
  destruct client as [c|]; [|intros [= <- <- <- <-]; split; [auto|discriminate]].
  destruct rp as [p|]; [|intros [= <- <- <- <-]; split; [auto|discriminate]].
  destruct sz as [old|]; [|intros [= <- <- <- <-]; split; [auto|discriminate]].
  destruct (curl c) as [h|]; [|intros [= <- <- <- <-]; split; [auto|discriminate]].
  unfold bind at 1, lift at 1.
  destruct (build_ftp_url c (Some p) FTP_MAX_URL_LENGTH) as [[code url]|]; [|discriminate].
  destruct code; try (intros [= <- <- <- <-]; split; [auto|discriminate]).
  unfold bind at 1.
  destruct (curl_easy_perform _ c _ w) as [[[[res h'] l'] w'']|]; [|discriminate].
  destruct (res =? CURLE_OK).
  - destruct (curl_easy_getinfo_content_length h') as [code len].
    destruct ((code =? CURLE_OK) && (0 <=? len)) eqn:E.
    + intros [= <- <- <- <-]. split; [congruence|]. intros _. exists len. split; [reflexivity|].
      apply andb_true_iff in E as [_ E]. apply Z.leb_le in E. exact E.
    + intros [= <- <- <- <-]; split; [auto|discriminate].
  - unfold bind at 1, curl_easy_strerror, gets at 1.
    intros [= <- <- <- <-]; split; [auto|discriminate].
Qed.

(** ** Examples within the limits *)

Example rename_a_to_b :
  exists r c' w' sent,
    ftp_client_rename (Some example_client) (Some "/a.txt"%string)
      (Some "/b.txt"%string) world0 = Some (r, Some c', w') /\
    wire w' = [sent] /\
    curl_getopt sent CURLOPT_QUOTE
    = Some (OptSlist ["RNFR /a.txt"%string; "RNTO /b.txt"%string]).
Proof. do 4 eexists. split; [vm_compute; reflexivity|]. split; reflexivity. Qed.

(** When the first [curl_slist_append] fails and the second succeeds, the
    list holds the second command only. *)
Example rename_after_failed_append :
  exists r c' w' sent,
    ftp_client_rename (Some example_client) (Some "/a.txt"%string)
      (Some "/b.txt"%string) (set_heap [false; true] world0) = Some (r, Some c', w') /\
    wire w' = [sent] /\
    curl_getopt sent CURLOPT_QUOTE = Some (OptSlist ["RNTO /b.txt"%string]).
Proof. do 4 eexists. split; [vm_compute; reflexivity|]. split; reflexivity. Qed.

(** A port inside the range is stored. *)
Lemma set_host_stores_port c name p w :
  1 <= p <= 65535 -> next_alloc_fails w = false ->
  exists c',
    ftp_client_set_host (Some c) (Some name) p w = Some (FTP_OK, Some c', after_alloc w) /\
    port (config c') = p /\ host (config c') = Some name.
Proof.
  intros Hp Hok. unfold ftp_client_set_host, strdup.
  unfold bind at 1. unfold bind at 1. rewrite alloc_eq, Hok. unfold ret at 1. cbn [negb].
  assert (E : (0 <? p) && (p <=? 65535) = true).
  { apply andb_true_iff. split; [apply Z.ltb_lt|apply Z.leb_le]; lia. }
  rewrite E. eexists. split; [reflexivity|]. simpl. auto.
Qed.

(** A download whose URL does not fit leaves the file it has just
    created, empty. *)
Example download_oversize_leaves_file :
  exists c' w',
    ftp_client_download (Some example_client) (Some long_remote_path)
      (Some "copy.bin"%string) world0
    = Some (FTP_ERROR_INVALID_PARAM, c', w') /\
    fs w' !! "copy.bin"%string = Some [] /\ wire w' = [].
Proof. do 2 eexists. split; [vm_compute; reflexivity|]. split; reflexivity. Qed.

(** ** The growth loop, continued *)

Lemma wrap_le x : 0 <= x -> 0 <= wrap x <= x.
Proof.
  intros H. unfold wrap, SIZE_WIDTH. split.
  - apply Z.mod_pos_bound. lia.
  - apply Z.mod_le; lia.
Qed.

(** The loop stops at the first doubling that is enough. *)
Lemma grow_capacity_tight fuel : forall c need c',
  0 <= c -> grow_capacity fuel c need = Some c' -> c' = c \/ c' < 2 * need.
Proof.
  induction fuel as [|fuel IH]; intros c need c' Hc; simpl.
  - destruct (c <? need); [discriminate|]. intros [= <-]. auto.
  - destruct (c <? need) eqn:E; [|intros [= <-]; auto].
    apply Z.ltb_lt in E. intros Hrun.
    pose proof (wrap_le (c * 2)) as Hw.
    destruct (IH _ _ _ (proj1 (Hw ltac:(lia))) Hrun) as [->|Hlt]; right; lia.
Qed.

(** What a call that returns has done to the capacity. *)
Lemma write_memory_callback_inv contents sz nmemb mem w r mem' w' :
  write_memory_callback contents sz nmemb mem w = Some (r, mem', w') ->
  capacity mem' = capacity mem \/
  ((capacity mem <? wrap (wrap (size mem + wrap (sz * nmemb)) + 1)) = true /\
   grow_capacity 64 (if capacity mem =? 0 then FTP_BUFFER_SIZE
                     else wrap (capacity mem * 2))
     (wrap (wrap (size mem + wrap (sz * nmemb)) + 1)) = Some (capacity mem')).
Proof.
  unfold write_memory_callback.
  set (need := wrap (wrap (size mem + wrap (sz * nmemb)) + 1)).
  set (c0 := if capacity mem =? 0 then FTP_BUFFER_SIZE else wrap (capacity mem * 2)).
  destruct (capacity mem <? need) eqn:Hgrow.
  - unfold bind at 1. unfold bind at 1. unfold lift at 1.
    destruct (grow_capacity 64 c0 need) as [c'|] eqn:Hg; [|discriminate].
    unfold bind at 1. unfold realloc, bind at 1. rewrite alloc_eq.
    destruct (next_alloc_fails w); cbn [negb].
    + unfold ret at 1, ret at 1, ret at 1. intros [= <- <- <-]. auto.
    + unfold bind at 1, gets at 1, ret at 1, ret at 1.
      unfold bind at 1, lift at 1. cbn [data size capacity].
      unfold bind at 1, lift at 1.
      destruct (memcpy_at _ _ _ _) as [blk1|]; [|discriminate].
      unfold bind at 1, lift at 1.
      destruct (store_at _ _ _) as [blk2|]; [|discriminate].
      unfold ret. intros [= <- <- <-]. right. cbn [capacity]. auto.
  - unfold bind at 1, ret at 1. unfold bind at 1, lift at 1.
    destruct (data mem) as [blk|]; [|discriminate].
    unfold bind at 1, lift at 1.
    destruct (memcpy_at _ _ _ _) as [blk1|]; [|discriminate].
    unfold bind at 1, lift at 1.
    destruct (store_at _ _ _) as [blk2|]; [|discriminate].
    unfold ret. intros [= <- <- <-]. left. reflexivity.
Qed.

Lemma grow_capacity_power need n :
  (n <= 63)%nat -> 2 ^ 63 < need ->
  forall fuel, grow_capacity fuel (2 ^ (63 - Z.of_nat n)) need = None.
Proof.
  intros Hn Hneed. induction n as [|n IH]; intros fuel.
  - replace (63 - Z.of_nat 0) with 63 by lia.
    destruct fuel as [|fuel]; simpl grow_capacity;
      (destruct (2 ^ 63 <? need) eqn:E; [|apply Z.ltb_ge in E; lia]); [reflexivity|].
    change (wrap (2 ^ 63 * 2)) with 0. apply grow_capacity_zero. lia.
  - assert (Hlt : 2 ^ (63 - Z.of_nat (S n)) < need).
    { assert (2 ^ (63 - Z.of_nat (S n)) <= 2 ^ 63) by (apply Z.pow_le_mono_r; lia). lia. }
    destruct fuel as [|fuel]; simpl grow_capacity;
      (destruct (2 ^ (63 - Z.of_nat (S n)) <? need) eqn:E; [|apply Z.ltb_ge in E; lia]);
      [reflexivity|].
    assert (Hdouble : wrap (2 ^ (63 - Z.of_nat (S n)) * 2) = 2 ^ (63 - Z.of_nat n)).
    { replace (63 - Z.of_nat n) with (Z.succ (63 - Z.of_nat (S n))) by lia.
      rewrite Z.pow_succ_r by lia. rewrite (Z.mul_comm 2).
      apply wrap_small.
      assert (0 < 2 ^ (63 - Z.of_nat (S n))) by (apply Z.pow_pos_nonneg; lia).
      assert (2 ^ (63 - Z.of_nat (S n)) <= 2 ^ 62) by (apply Z.pow_le_mono_r; lia).
      lia. }
    rewrite Hdouble. apply IH. lia.
Qed.

(** ** What a transfer leaves behind *)

Lemma played_all c evs : observed c evs = None -> played c evs = evs.
Proof.
  induction evs as [|ev evs IH]; simpl; [reflexivity|].
  destruct (observer_continues c ev); [|discriminate].
  intros H. rewrite IH by assumption. reflexivity.
Qed.

Lemma file_transfer_result_ok c t :
  file_transfer_result c t = CURLE_OK <->
  observed c (xfer_events t) = None /\ xfer_result t = CURLE_OK.
Proof.
  unfold file_transfer_result. destruct (observed c (xfer_events t)) as [stop|] eqn:E.
  - split; [|intros [? _]; discriminate].
    intros ->. exfalso. revert E. generalize (xfer_events t).
    induction l as [|ev evs IH]; simpl; [discriminate|].
    destruct (observer_continues c ev); [exact IH|discriminate].
  - split; [auto|intros [_ H]; exact H].
Qed.

Lemma memory_suffices_alloc w :
  memory_suffices w = true ->
  next_alloc_fails w = false /\ memory_suffices (after_alloc w) = true.
Proof.
  unfold memory_suffices, next_alloc_fails, after_alloc.
  destruct (heap w) as [|[] rest] eqn:E; simpl; intros H; try discriminate;
    (split; [reflexivity|]); simpl; rewrite ?E; auto.
Qed.

Lemma memory_suffices_same w w' :
  heap w' = heap w -> memory_suffices w' = memory_suffices w.
Proof. unfold memory_suffices. intros ->. reflexivity. Qed.

Lemma buffer_holds_nothing : buffer_holds no_buffer [].
Proof. split; reflexivity. Qed.

Section MemoryContents.

Variables (h : CURL) (c : ftp_client_t).
Hypothesis Hmem : writes_to_memory h = true.
Hypothesis Hnoread : curl_getopt h CURLOPT_READFUNCTION = None.
Hypothesis Hwatch : progress_enabled h = observer_set c.

Lemma deliver_collects contents l w bytes :
  buffer_ok (buffer l) -> buffer_holds (buffer l) bytes ->
  memory_suffices w = true ->
  size (buffer l) + Z.of_nat (length contents) + 1 <= 2 ^ 63 ->
  exists mem' w',
    deliver h contents l w
    = Some (Z.of_nat (length contents), {| buffer := mem'; fp := fp l |}, w') /\
    buffer_ok mem' /\ buffer_holds mem' (bytes ++ contents) /\
    is_Some (data mem') /\
    memory_suffices w' = true /\ same_but_heap w w'.
Proof.
  intros Hok [Hsize Hold] Hheap Hbound.
  destruct (memory_suffices_alloc w Hheap) as [Hnext Hheap'].
  unfold deliver. unfold writes_to_memory in Hmem.
  destruct (curl_getopt h CURLOPT_WRITEFUNCTION) as [[n|s|sl|[]|p]|]; try discriminate.
  destruct (write_memory_callback_succeeds contents 1 (Z.of_nat (length contents))
              (buffer l) w) as (blk & mem' & Hrun & Hd & Hs & _ & Hok' & _ & Hz & Ht);
    try assumption; try lia.
  { unfold realloc_fails. rewrite Hnext. apply andb_false_r. }
  unfold bind. rewrite Hrun. cbn [fst snd]. unfold ret.
  rewrite Z.mul_1_l. exists mem'. eexists. split; [reflexivity|].
  split; [assumption|].
  assert (Hlen : size mem' = Z.of_nat (length (bytes ++ contents))).
  { rewrite Hs, Hsize, length_app. lia. }
  assert (Hprev : take (Z.to_nat (size (buffer l))) (default [] (data (buffer l))) = bytes).
  { rewrite Hsize, Nat2Z.id. destruct (data (buffer l)) as [old|]; simpl.
    - apply Hold.
    - subst bytes. reflexivity. }
  split.
  { split; [exact Hlen|]. rewrite Hd.
    rewrite Hlen, Nat2Z.id in Ht, Hz. rewrite Hprev in Ht. split; assumption. }
  split; [rewrite Hd; eauto|].
  destruct (must_grow _ _ _); split; auto with worlds.
Qed.

(** With memory to spare the transfer runs to its end or to the
    observer's stop, and the buffer collects what was received. *)
Lemma run_transfer_collects evs : forall l w bytes,
  buffer_ok (buffer l) -> buffer_holds (buffer l) bytes ->
  memory_suffices w = true ->
  size (buffer l) + data_volume evs + 1 <= 2 ^ 63 ->
  exists l' w',
    run_transfer h c evs l w = Some (observed c evs, l', w') /\
    buffer_ok (buffer l') /\
    buffer_holds (buffer l') (bytes ++ received (played c evs)) /\
    (data (buffer l') = None <->
     data (buffer l) = None /\ existsb sends_data (played c evs) = false) /\
    memory_suffices w' = true /\ same_but_heap w w'.
Proof.
  induction evs as [|ev evs IH]; intros l w bytes Hok Hholds Hheap Hbound.
  - exists l, w. simpl. rewrite app_nil_r.
    split; [reflexivity|]. split; [assumption|]. split; [assumption|].
    split; [tauto|]. auto with worlds.
  - pose proof (data_volume_nonneg evs) as Hvol.
    destruct ev as [contents|nmemb|a b d e]; simpl in Hbound |- *.
    + destruct (deliver_collects contents l w bytes Hok Hholds Hheap)
        as (mem' & w' & Hrun & Hok' & Hholds' & [blk Hsome] & Hheap' & Hsame); [lia|].
      unfold bind. rewrite Hrun. cbn [fst snd]. rewrite Z.eqb_refl.
      destruct (IH {| buffer := mem'; fp := fp l |} w' (bytes ++ contents))
        as (l2 & w2 & Hrun2 & Hok2 & Hholds2 & Hnull2 & Hheap2 & Hsame2);
        try assumption.
      { cbn [buffer]. destruct Hholds' as [Hs _]. destruct Hholds as [Hs0 _].
        rewrite Hs, length_app. lia. }
      exists l2, w2. split; [exact Hrun2|]. split; [exact Hok2|].
      split; [rewrite app_assoc; exact Hholds2|].
      split.
      { cbn [buffer] in Hnull2. rewrite Hsome in Hnull2. split.
        - intros H. apply Hnull2 in H as [H _]. discriminate.
        - intros [_ H]. discriminate. }
      split; [exact Hheap2|]. eapply same_but_heap_trans; eassumption.
    + unfold bind, request. rewrite Hnoread. unfold ret at 1. cbn [snd].
      apply IH; assumption.
    + rewrite Hwatch. unfold observer_continues.
      destruct (observer_set c) eqn:Hobs.
      * destruct (progress_continues (progress_callback_wrapper c a b d e)).
        -- simpl. apply IH; assumption.
        -- exists l, w. simpl. rewrite app_nil_r.
           split; [reflexivity|]. split; [assumption|]. split; [assumption|].
           split; [tauto|]. auto with worlds.
      * rewrite wrapper_without_observer by assumption. simpl. apply IH; assumption.
Qed.

Lemma curl_easy_perform_collects w :
  memory_suffices w = true ->
  data_volume (xfer_events (next_script w)) + 1 <= 2 ^ 63 ->
  exists h' l' w',
    curl_easy_perform h c {| buffer := no_buffer; fp := None |} w
    = Some (file_transfer_result c (next_script w), h', l', w') /\
    options h' = options h /\
    content_length_download h' = xfer_length (next_script w) /\
    buffer_holds (buffer l') (received (played c (xfer_events (next_script w)))) /\
    (data (buffer l') = None <->
     existsb sends_data (played c (xfer_events (next_script w))) = false) /\
    wire w' = wire w ++ [h] /\ net w' = tl (net w) /\ fs w' = fs w /\
    strerror w' = strerror w /\ memory_suffices w' = true.
Proof.
  intros Hheap Hbound. unfold curl_easy_perform.
  unfold bind at 1.
  destruct (next_transfer_eq w) as (w2 & -> & Hnet2 & Hfs2 & Hwire2 & Hheap2 & Hstr2 & _).
  unfold bind at 1, modify at 1.
  destruct (run_transfer_collects (xfer_events (next_script w))
              {| buffer := no_buffer; fp := None |}
              (set_wire (wire w2 ++ [h]) w2) [])
    as (l' & w4 & Hrun & _ & Hholds & Hnull & Hheap4 & (Hf & Hn & Hw & Hs & _)).
  { unfold buffer_ok. simpl. lia. }
  { apply buffer_holds_nothing. }
  { rewrite (memory_suffices_same w); [assumption|]. simpl. exact Hheap2. }
  { simpl. lia. }
  unfold bind at 1. rewrite Hrun. unfold ret. cbn [fst snd].
  fold (file_transfer_result c (next_script w)).
  eexists. eexists. eexists. split; [reflexivity|].
  split; [reflexivity|]. split; [reflexivity|].
  split; [exact Hholds|].
  split; [simpl in Hnull; tauto|].
  rewrite Hw, Hn, Hf, Hs. simpl. rewrite Hwire2, Hnet2, Hfs2, Hstr2. auto.
Qed.

End MemoryContents.

(** ** Downloads: the handle writes into the local file *)

Section DownloadContents.

Variables (h : CURL) (c : ftp_client_t).
Hypothesis Hwrite :
  curl_getopt h CURLOPT_WRITEFUNCTION = Some (OptFn fn_write_file_callback).
Hypothesis Hnoread : curl_getopt h CURLOPT_READFUNCTION = None.
Hypothesis Hwatch : progress_enabled h = observer_set c.

Lemma run_transfer_appends evs : forall l f w old,
  fp l = Some f -> fs w !! file_path f = Some old ->
  exists l' w',
    run_transfer h c evs l w = Some (observed c evs, l', w') /\
    fs w' !! file_path f = Some (old ++ received (played c evs)) /\
    same_but_file (file_path f) w w'.
Proof.
  induction evs as [|ev evs IH]; intros l f w old Hf Hold.
  - exists l, w. simpl. rewrite app_nil_r. auto with worlds.
  - destruct ev as [contents|nmemb|a b d e]; simpl.
    + unfold bind at 1. unfold deliver. rewrite Hwrite.
      unfold bind at 1, lift at 1. rewrite Hf.
      unfold bind at 1. unfold write_file_callback, fwrite.
      unfold bind at 1, file_contents at 1, gets at 1. rewrite Hold. cbn [default].
      unfold bind at 1, modify at 1, ret at 1, ret at 1. cbn [fst snd].
      rewrite Z.mul_1_l, Nat2Z.id, firstn_all. cbn [Z.leb Z.compare].
      rewrite Z.eqb_refl.
      set (w1 := set_fs _ w).
      set (f1 := {| file_path := file_path f; file_pos := _ |}).
      destruct (IH {| buffer := buffer l; fp := Some f1 |} f1 w1 (old ++ contents))
        as (l2 & w2 & Hrun2 & Hfs2 & Hsame2); [reflexivity| |].
      { unfold w1, f1. simpl. apply lookup_insert_eq. }
      exists l2, w2. split; [exact Hrun2|]. unfold f1 in *. cbn [file_path] in *.
      split; [rewrite Hfs2, app_assoc; reflexivity|].
      eapply same_but_file_trans; [|exact Hsame2].
      unfold w1. repeat split. intros p Hp. simpl.
      rewrite lookup_insert_ne by congruence. reflexivity.
    + unfold bind, request. rewrite Hnoread. unfold ret at 1. cbn [snd].
      eapply IH; eassumption.
    + rewrite Hwatch. unfold observer_continues.
      destruct (observer_set c) eqn:Hobs.
      * destruct (progress_continues (progress_callback_wrapper c a b d e)).
        -- simpl. eapply IH; eassumption.
        -- exists l, w. simpl. rewrite app_nil_r. auto with worlds.
      * rewrite wrapper_without_observer by assumption. simpl. eapply IH; eassumption.
Qed.

End DownloadContents.

(** ** Uploads: the handle has no write callback *)

Section UploadFrame.

Variables (h : CURL) (c : ftp_client_t).
Hypothesis Hnowrite : curl_getopt h CURLOPT_WRITEFUNCTION = None.
Hypothesis Hwatch : progress_enabled h = observer_set c.

Lemma run_transfer_reads_only evs : forall l f w,
  fp l = Some f ->
  exists l', run_transfer h c evs l w = Some (observed c evs, l', w).
Proof.
  induction evs as [|ev evs IH]; intros l f w Hf.
  - exists l. reflexivity.
  - destruct ev as [contents|nmemb|a b d e]; simpl.
    + unfold bind, deliver. rewrite Hnowrite. unfold ret at 1. cbn [fst snd].
      rewrite Z.eqb_refl. eapply IH; eassumption.
    + unfold request.
      destruct (curl_getopt h CURLOPT_READFUNCTION) as [[n|s|sl|[]|p]|];
        try (unfold bind, ret at 1; cbn [snd]; eapply IH; eassumption).
      unfold bind at 1. unfold bind at 1, lift at 1. rewrite Hf.
      unfold bind at 1. unfold read_file_callback, fread.
      unfold bind at 1, file_contents at 1, gets at 1, ret at 1, ret at 1.
      cbn [fst snd]. eapply IH. reflexivity.
    + rewrite Hwatch. unfold observer_continues.
      destruct (observer_set c) eqn:Hobs.
      * destruct (progress_continues (progress_callback_wrapper c a b d e)).
        -- eapply IH; eassumption.
        -- exists l. reflexivity.
      * rewrite wrapper_without_observer by assumption. simpl. eapply IH; eassumption.
Qed.

End UploadFrame.

(** ** Transfers that bring no data *)

Lemma run_transfer_without_data h c evs : forall l w,
  curl_getopt h CURLOPT_READFUNCTION = None ->
  progress_enabled h = observer_set c ->
  existsb sends_data evs = false ->
  run_transfer h c evs l w = Some (observed c evs, l, w).
Proof.
  intros l w Hnoread Hwatch.
  induction evs as [|[contents|nmemb|a b d e] evs IH]; simpl; intros Hev;
    try discriminate; [reflexivity| |].
  - unfold bind, request. rewrite Hnoread. unfold ret at 1. cbn [snd]. apply IH. exact Hev.
  - rewrite Hwatch. destruct (observer_set c) eqn:Hobs.
    + destruct (progress_continues (progress_callback_wrapper c a b d e)); [apply IH; exact Hev|reflexivity].
    + rewrite wrapper_without_observer by assumption. simpl. apply IH. exact Hev.
Qed.

Lemma curl_easy_perform_without_data h c l w :
  curl_getopt h CURLOPT_READFUNCTION = None ->
  progress_enabled h = observer_set c ->
  existsb sends_data (xfer_events (next_script w)) = false ->
  exists h' w',
    curl_easy_perform h c l w
    = Some (file_transfer_result c (next_script w), h', l, w') /\
    wire w' = wire w ++ [h] /\ net w' = tl (net w) /\ fs w' = fs w /\
    heap w' = heap w.
Proof.
  intros Hnoread Hwatch Hev. unfold curl_easy_perform.
  unfold bind at 1.
  destruct (next_transfer_eq w) as (w2 & -> & Hnet2 & Hfs2 & Hwire2 & Hheap2 & _).
  unfold bind at 1, modify at 1.
  unfold bind at 1. rewrite run_transfer_without_data by assumption.
  unfold ret. cbn [fst snd].
  fold (file_transfer_result c (next_script w)).
  eexists. eexists. split; [reflexivity|]. simpl.
  rewrite Hwire2, Hnet2, Hfs2, Hheap2. auto.
Qed.

Section DownloadPerform.

Variables (h : CURL) (c : ftp_client_t).
Hypothesis Hwrite :
  curl_getopt h CURLOPT_WRITEFUNCTION = Some (OptFn fn_write_file_callback).
Hypothesis Hnoread : curl_getopt h CURLOPT_READFUNCTION = None.
Hypothesis Hwatch : progress_enabled h = observer_set c.

Lemma curl_easy_perform_appends l f w old :
  fp l = Some f -> fs w !! file_path f = Some old ->
  exists h' l' w',
    curl_easy_perform h c l w
    = Some (file_transfer_result c (next_script w), h', l', w') /\
    fs w' !! file_path f
    = Some (old ++ received (played c (xfer_events (next_script w)))) /\
    (forall p, p <> file_path f -> fs w' !! p = fs w !! p) /\
    wire w' = wire w ++ [h] /\ net w' = tl (net w) /\ heap w' = heap w.
Proof.
  intros Hf Hold. unfold curl_easy_perform.
  unfold bind at 1.
  destruct (next_transfer_eq w) as (w2 & -> & Hnet2 & Hfs2 & Hwire2 & Hheap2 & _).
  unfold bind at 1, modify at 1.
  destruct (run_transfer_appends h c Hwrite Hnoread Hwatch (xfer_events (next_script w))
              l f (set_wire (wire w2 ++ [h]) w2) old Hf)
    as (l' & w4 & Hrun & Hfs4 & (Hh & Hn & Hw & _ & _ & Hothers)).
  { simpl. rewrite Hfs2. exact Hold. }
  unfold bind at 1. rewrite Hrun. unfold ret. cbn [fst snd].
  fold (file_transfer_result c (next_script w)).
  eexists. eexists. eexists. split; [reflexivity|].
  split; [exact Hfs4|]. split.
  { intros p Hp. rewrite Hothers by assumption. simpl. rewrite Hfs2. reflexivity. }
  rewrite Hw, Hn, Hh. simpl. rewrite Hwire2, Hnet2, Hheap2. auto.
Qed.

End DownloadPerform.

Section UploadPerform.

Variables (h : CURL) (c : ftp_client_t).
Hypothesis Hnowrite : curl_getopt h CURLOPT_WRITEFUNCTION = None.
Hypothesis Hwatch : progress_enabled h = observer_set c.

Lemma curl_easy_perform_reads_only l f w :
  fp l = Some f ->
  exists h' l' w',
    curl_easy_perform h c l w
    = Some (file_transfer_result c (next_script w), h', l', w') /\
    fs w' = fs w /\ heap w' = heap w /\
    wire w' = wire w ++ [h] /\ net w' = tl (net w).
Proof.
  intros Hf. unfold curl_easy_perform.
  unfold bind at 1.
  destruct (next_transfer_eq w) as (w2 & -> & Hnet2 & Hfs2 & Hwire2 & Hheap2 & _).
  unfold bind at 1, modify at 1.
  destruct (run_transfer_reads_only h c Hnowrite Hwatch (xfer_events (next_script w))
              l f (set_wire (wire w2 ++ [h]) w2) Hf) as (l' & Hrun).
  unfold bind at 1. rewrite Hrun. unfold ret. cbn [fst snd].
  fold (file_transfer_result c (next_script w)).
  eexists. eexists. eexists. split; [reflexivity|]. simpl.
  rewrite Hwire2, Hnet2, Hfs2, Hheap2. auto.
Qed.

End UploadPerform.

(** ** Directory listings *)

Lemma get_append_last (s : string) (ch : ascii) :
  String.get (String.length s) (s +:+ String ch EmptyString) = Some ch.
Proof. induction s as [|x s IH]; simpl; [reflexivity|exact IH]. Qed.

Section Listing.

Variables (c : ftp_client_t) (h : CURL) (hn : string).
Hypothesis Hcurl : curl c = Some h.
Hypothesis Hhost : host (config c) = Some hn.

(** A listing with memory to spare: the result follows the transfer, a
    success hands over the buffer. *)
Lemma list_dir_runs rp out w :
  strlen hn + strlen rp + 15 <= FTP_MAX_URL_LENGTH ->
  memory_suffices w = true ->
  data_volume (xfer_events (next_script w)) + 1 <= 2 ^ 63 ->
  exists c' out' w' mem,
    ftp_client_list_dir (Some c) (Some rp) (Some out) w
    = Some (upload_status (file_transfer_result c (next_script w)), Some c', out', w') /\
    (file_transfer_result c (next_script w) = CURLE_OK -> out' = Some (data mem)) /\
    (file_transfer_result c (next_script w) <> CURLE_OK -> out' = Some out) /\
    buffer_holds mem (received (played c (xfer_events (next_script w)))) /\
    (data mem = None <->
     existsb sends_data (played c (xfer_events (next_script w))) = false) /\
    length (wire w') = S (length (wire w)).
Proof.
  intros Hfit Hheap Hvol.
  unfold ftp_client_list_dir. rewrite Hcurl.
  unfold bind at 1, lift at 1.
  set (dir_path := if (0 <? strlen rp) && _ then _ else _).
  assert (Hdir : required_len hn (Some dir_path) <= FTP_MAX_URL_LENGTH).
  { assert (Hlen : strlen dir_path <= strlen rp + 1).
    { unfold dir_path, FTP_MAX_URL_LENGTH. destruct ((0 <? strlen rp) && _);
        rewrite strlen_snprintf by lia; try rewrite strlen_append;
        unfold strlen; simpl; lia. }
    unfold required_len, FTP_MAX_URL_LENGTH in *.
    unfold strlen in *. simpl String.length in *. lia. }
  unfold bind at 1. rewrite (build_ftp_url_fits c hn Hhost (Some dir_path)) by assumption.
  unfold lift at 1.
  set (h' := curl_easy_setopt _ CURLOPT_WRITEDATA _).
  assert (Hm : writes_to_memory h' = true)
    by (unfold writes_to_memory, h'; getopt; reflexivity).
  assert (Hr : curl_getopt h' CURLOPT_READFUNCTION = None).
  { unfold h'. getopt. rewrite setup_curl_common_other by auto. getopt. reflexivity. }
  assert (Hp : progress_enabled h' = observer_set c)
    by (unfold h', progress_enabled; getopt; apply setup_curl_common_progress).
  destruct (curl_easy_perform_collects h' c Hm Hr Hp w Hheap Hvol)
    as (h2 & l2 & w2 & Hrun & _ & _ & Hholds & Hnull & Hwire & _).
  unfold bind at 1. rewrite Hrun.
  assert (Hlen : length (wire w2) = S (length (wire w)))
    by (rewrite Hwire, length_app; simpl; lia).
  unfold upload_status.
  destruct (file_transfer_result c (next_script w) =? CURLE_OK) eqn:Eok.
  - apply Z.eqb_eq in Eok. eexists. eexists. eexists. exists (buffer l2).
    split; [reflexivity|]. split; [reflexivity|]. split; [congruence|]. auto.
  - apply Z.eqb_neq in Eok. unfold bind at 1, curl_easy_strerror, gets at 1.
    eexists. eexists. eexists. exists (buffer l2).
    split; [reflexivity|]. split; [congruence|]. split; [reflexivity|]. auto.
Qed.

(** Without data the memory plays no part. *)
Lemma list_dir_without_data rp out w :
  strlen hn + strlen rp + 15 <= FTP_MAX_URL_LENGTH ->
  existsb sends_data (xfer_events (next_script w)) = false ->
  exists c' w',
    ftp_client_list_dir (Some c) (Some rp) (Some out) w
    = Some (upload_status (file_transfer_result c (next_script w)), Some c',
            Some (if file_transfer_result c (next_script w) =? CURLE_OK
                  then None else out), w') /\
    heap w' = heap w.
Proof.
  intros Hfit Hev.
  unfold ftp_client_list_dir. rewrite Hcurl.
  unfold bind at 1, lift at 1.
  set (dir_path := if (0 <? strlen rp) && _ then _ else _).
  assert (Hdir : required_len hn (Some dir_path) <= FTP_MAX_URL_LENGTH).
  { assert (Hlen : strlen dir_path <= strlen rp + 1).
    { unfold dir_path, FTP_MAX_URL_LENGTH. destruct ((0 <? strlen rp) && _);
        rewrite strlen_snprintf by lia; try rewrite strlen_append;
        unfold strlen; simpl; lia. }
    unfold required_len, FTP_MAX_URL_LENGTH in *.
    unfold strlen in *. simpl String.length in *. lia. }
  unfold bind at 1. rewrite (build_ftp_url_fits c hn Hhost (Some dir_path)) by assumption.
  unfold lift at 1.
  set (h' := curl_easy_setopt _ CURLOPT_WRITEDATA _).
  assert (Hr : curl_getopt h' CURLOPT_READFUNCTION = None).
  { unfold h'. getopt. rewrite setup_curl_common_other by auto. getopt. reflexivity. }
  assert (Hp : progress_enabled h' = observer_set c)
    by (unfold h', progress_enabled; getopt; apply setup_curl_common_progress).
  destruct (curl_easy_perform_without_data h' c {| buffer := no_buffer; fp := None |} w
              Hr Hp Hev) as (h2 & w2 & Hrun & _ & _ & _ & Hheap).
  unfold bind at 1. rewrite Hrun.
  unfold upload_status.
  destruct (file_transfer_result c (next_script w) =? CURLE_OK).
  - eexists. eexists. split; [reflexivity|exact Hheap].
  - unfold bind at 1, curl_easy_strerror, gets at 1.
    eexists. eexists. split; [reflexivity|exact Hheap].
Qed.

End Listing.

(** ** Downloads and uploads, byte for byte *)

Section FileOperations.

Variables (c : ftp_client_t) (h : CURL) (hn : string).
Hypothesis Hcurl : curl c = Some h.
Hypothesis Hhost : host (config c) = Some hn.

Lemma download_collects rp lp w :
  lp ∉ readonly w ->
  required_len hn (Some rp) <= FTP_MAX_URL_LENGTH ->
  exists c' w',
    ftp_client_download (Some c) (Some rp) (Some lp) w
    = Some (download_status (file_transfer_result c (next_script w)), Some c', w') /\
    (file_transfer_result c (next_script w) = CURLE_OK ->
     fs w' !! lp = Some (received (played c (xfer_events (next_script w))))) /\
    (forall p, p <> lp -> fs w' !! p = fs w !! p) /\
    heap w' = heap w.
Proof.
  intros Hro Hfit.
  unfold ftp_client_download. rewrite Hcurl.
  unfold bind at 1. unfold fopen. rewrite decide_False by assumption.
  unfold bind at 1. rewrite (build_ftp_url_fits c hn Hhost (Some rp)) by assumption.
  unfold lift at 1.
  set (h' := curl_easy_setopt _ CURLOPT_WRITEDATA _).
  set (w1 := set_fs _ w).
  set (f := {| file_path := lp; file_pos := 0 |}).
  assert (Hw : curl_getopt h' CURLOPT_WRITEFUNCTION = Some (OptFn fn_write_file_callback))
    by (unfold h'; getopt; reflexivity).
  assert (Hr : curl_getopt h' CURLOPT_READFUNCTION = None).
  { unfold h'. getopt. rewrite setup_curl_common_other by auto. getopt. reflexivity. }
  assert (Hp : progress_enabled h' = observer_set c)
    by (unfold h', progress_enabled; getopt; apply setup_curl_common_progress).
  destruct (curl_easy_perform_appends h' c Hw Hr Hp
              {| buffer := no_buffer; fp := Some f |} f w1 [])
    as (h2 & l2 & w2 & Hrun & Hfile & Hothers & _ & _ & Hheap).
  { reflexivity. }
  { unfold w1. simpl. apply lookup_insert_eq. }
  change (next_script w1) with (next_script w) in *.
  assert (Hothers' : forall p, p <> lp -> fs w2 !! p = fs w !! p).
  { intros p Hne. rewrite (Hothers p Hne). unfold w1. simpl.
    apply lookup_insert_ne. congruence. }
  unfold bind at 1. rewrite Hrun.
  unfold fclose, bind at 1, ret at 1.
  unfold download_status.
  destruct (file_transfer_result c (next_script w) =? CURLE_OK) eqn:Eok.
  - eexists. eexists. split; [reflexivity|].
    split; [intros _; exact Hfile|]. split; [exact Hothers'|exact Hheap].
  - apply Z.eqb_neq in Eok.
    unfold bind at 1, curl_easy_strerror, gets at 1.
    unfold bind at 1, remove, modify at 1.
    destruct (file_transfer_result c (next_script w) =? CURLE_REMOTE_FILE_NOT_FOUND);
      (eexists; eexists; split; [reflexivity|]; simpl;
       split; [congruence|]; split; [|exact Hheap];
       intros p Hne; rewrite lookup_delete_ne by congruence; apply Hothers'; exact Hne).
Qed.

Lemma upload_reads_only rp lp w content :
  fs w !! lp = Some content ->
  required_len hn (Some rp) <= FTP_MAX_URL_LENGTH ->
  exists c' w' sent,
    ftp_client_upload (Some c) (Some lp) (Some rp) w
    = Some (upload_status (file_transfer_result c (next_script w)), Some c', w') /\
    fs w' = fs w /\ heap w' = heap w /\
    wire w' = wire w ++ [sent] /\
    curl_getopt sent CURLOPT_UPLOAD = Some (OptLong 1) /\
    curl_getopt sent CURLOPT_INFILESIZE_LARGE
    = Some (OptLong (Z.of_nat (length content))) /\
    curl_getopt sent CURLOPT_URL
    = Some (OptStr (Some (snprintf FTP_MAX_URL_LENGTH
                            (url_text hn (port (config c)) (Some rp))))).
Proof.
  intros Hcontent Hfit.
  unfold ftp_client_upload. rewrite Hcurl.
  unfold bind at 1. unfold fopen. rewrite Hcontent.
  unfold bind at 1. unfold fseek_end at 1, bind at 1, file_contents at 1, gets at 1, ret at 1.
  unfold bind at 1, ftell at 1, ret at 1.
  unfold bind at 1, fseek_set at 1, ret at 1.
  cbn [file_path file_pos]. rewrite Hcontent. cbn [default].
  unfold bind at 1. rewrite (build_ftp_url_fits c hn Hhost (Some rp)) by assumption.
  unfold lift at 1.
  set (h' := curl_easy_setopt _ CURLOPT_INFILESIZE_LARGE _).
  set (f := {| file_path := lp; file_pos := 0 |}).
  assert (Hw : curl_getopt h' CURLOPT_WRITEFUNCTION = None).
  { unfold h'. getopt. rewrite setup_curl_common_other by auto. getopt. reflexivity. }
  assert (Hp : progress_enabled h' = observer_set c)
    by (unfold h', progress_enabled; getopt; apply setup_curl_common_progress).
  assert (Hup : curl_getopt h' CURLOPT_UPLOAD = Some (OptLong 1))
    by (unfold h'; getopt; reflexivity).
  assert (Hsz : curl_getopt h' CURLOPT_INFILESIZE_LARGE
                = Some (OptLong (Z.of_nat (length content))))
    by (unfold h'; getopt; reflexivity).
  assert (Hu : curl_getopt h' CURLOPT_URL
               = Some (OptStr (Some (snprintf FTP_MAX_URL_LENGTH
                                       (url_text hn (port (config c)) (Some rp)))))).
  { unfold h'. getopt. rewrite setup_curl_common_other by auto. getopt. reflexivity. }
  destruct (curl_easy_perform_reads_only h' c Hw Hp
              {| buffer := no_buffer; fp := Some f |} f w)
    as (h2 & l2 & w2 & Hrun & Hfs & Hheap & Hwire & _).
  { reflexivity. }
  unfold bind at 1. rewrite Hrun.
  unfold fclose, bind at 1, ret at 1.
  unfold upload_status.
  destruct (file_transfer_result c (next_script w) =? CURLE_OK).
  - eexists. eexists. exists h'. split; [reflexivity|]. auto 10.
  - unfold bind at 1, curl_easy_strerror, gets at 1.
    eexists. eexists. exists h'. split; [reflexivity|]. auto 10.
Qed.

(** ** Connecting *)

Lemma connect_runs w :
  hn <> ""%string ->
  required_len hn (Some "/"%string) <= FTP_MAX_URL_LENGTH ->
  memory_suffices w = true ->
  data_volume (xfer_events (next_script w)) + 1 <= 2 ^ 63 ->
  exists h' w',
    ftp_client_connect (Some c) w
    = Some (let res := file_transfer_result c (next_script w) in
            if res =? CURLE_OK then (FTP_OK, Some (with_curl h' c))
            else
              let c' := with_error ("Connection failed: " +:+ strerror w res)
                          (with_curl h' c) in
              if res =? CURLE_LOGIN_DENIED then (FTP_ERROR_AUTH, Some c')
              else if res =? CURLE_OPERATION_TIMEDOUT then (FTP_ERROR_TIMEOUT, Some c')
                   else (FTP_ERROR_CONNECTION, Some c'),
            w') /\
    length (wire w') = S (length (wire w)).
Proof.
  intros Hne Hfit Hheap Hvol.
  unfold ftp_client_connect. rewrite Hcurl, Hhost.
  destruct hn as [|ch rest] eqn:Ehn; [congruence|]. rewrite <- Ehn in *.
  unfold bind at 1. rewrite (build_ftp_url_fits c hn Hhost (Some "/"%string)) by assumption.
  unfold lift at 1.
  set (h' := curl_easy_setopt _ CURLOPT_WRITEDATA _).
  assert (Hm : writes_to_memory h' = true)
    by (unfold writes_to_memory, h'; getopt; reflexivity).
  assert (Hr : curl_getopt h' CURLOPT_READFUNCTION = None).
  { unfold h'. getopt. rewrite setup_curl_common_other by auto. getopt. reflexivity. }
  assert (Hp : progress_enabled h' = observer_set c)
    by (unfold h', progress_enabled; getopt; apply setup_curl_common_progress).
  destruct (curl_easy_perform_collects h' c Hm Hr Hp w Hheap Hvol)
    as (h2 & l2 & w2 & Hrun & _ & _ & _ & _ & Hwire & _ & _ & Hstr & _).
  unfold bind at 1. rewrite Hrun.
  assert (Hlen : length (wire w2) = S (length (wire w)))
    by (rewrite Hwire, length_app; simpl; lia).
  cbv zeta.
  destruct (file_transfer_result c (next_script w) =? CURLE_OK).
  - exists h2, w2. split; [reflexivity|exact Hlen].
  - unfold bind at 1, curl_easy_strerror, gets at 1. rewrite Hstr.
    exists h2, w2. split; [|exact Hlen].
    destruct (file_transfer_result c (next_script w) =? CURLE_LOGIN_DENIED); [reflexivity|].
    destruct (file_transfer_result c (next_script w) =? CURLE_OPERATION_TIMEDOUT);
      reflexivity.
Qed.

End FileOperations.

(** ** What a call can reach

    These hold for every call that returns, whatever the server and the
    allocator do. *)

Lemma bind_inv {A B} (m : M A) (k : A -> M B) w r :
  bind m k w = Some r -> exists a w1, m w = Some (a, w1) /\ k a w1 = Some r.
Proof.
  unfold bind. destruct (m w) as [[a w1]|]; [|discriminate]. eauto.
Qed.

Lemma write_memory_callback_world contents sz nmemb mem w r mem' w' :
  write_memory_callback contents sz nmemb mem w = Some (r, mem', w') ->
  same_but_heap w w'.
Proof.
  unfold write_memory_callback.
  set (need := wrap (wrap (size mem + wrap (sz * nmemb)) + 1)).
  set (c0 := if capacity mem =? 0 then FTP_BUFFER_SIZE else wrap (capacity mem * 2)).
  destruct (capacity mem <? need) eqn:Hgrow.
  - unfold bind at 1. unfold bind at 1. unfold lift at 1.
    destruct (grow_capacity 64 c0 need) as [c'|] eqn:Hg; [|discriminate].
    unfold bind at 1. unfold realloc, bind at 1. rewrite alloc_eq.
    destruct (next_alloc_fails w); cbn [negb].
    + unfold ret at 1, ret at 1, ret at 1. intros [= <- <- <-]. auto with worlds.
    + unfold bind at 1, gets at 1, ret at 1, ret at 1.
      unfold bind at 1, lift at 1. cbn [data size capacity].
      unfold bind at 1, lift at 1.
      destruct (memcpy_at _ _ _ _) as [blk1|]; [|discriminate].
      unfold bind at 1, lift at 1.
      destruct (store_at _ _ _) as [blk2|]; [|discriminate].
      unfold ret. intros [= <- <- <-]. auto with worlds.
  - unfold bind at 1, ret at 1. unfold bind at 1, lift at 1.
    destruct (data mem) as [blk|]; [|discriminate].
    unfold bind at 1, lift at 1.
    destruct (memcpy_at _ _ _ _) as [blk1|]; [|discriminate].
    unfold bind at 1, lift at 1.
    destruct (store_at _ _ _) as [blk2|]; [|discriminate].
    unfold ret. intros [= <- <- <-]. auto with worlds.
Qed.

(** The file a transfer may write: the stream behind CURLOPT_WRITEDATA
    when the write callback is [write_file_callback]. *)
Lemma deliver_frame h contents l w r l' w' :
  deliver h contents l w = Some (r, l', w') ->
  wire w' = wire w /\ net w' = net w /\ strerror w' = strerror w /\
  file_path <$> fp l' = file_path <$> fp l /\
  (forall p, file_path <$> fp l <> Some p -> fs w' !! p = fs w !! p) /\
  (curl_getopt h CURLOPT_WRITEFUNCTION <> Some (OptFn fn_write_file_callback) ->
   fs w' = fs w).
Proof.
  unfold deliver.
  destruct (curl_getopt h CURLOPT_WRITEFUNCTION) as [[n|s|sl|[]|p]|];
    try (unfold ret; intros [= <- <- <-]; repeat split; reflexivity).
  - intros H. apply bind_inv in H as ([r0 mem'] & w1 & Hrun & H).
    unfold ret in H. injection H as <- <- <-.
    apply write_memory_callback_world in Hrun as (Hf & Hn & Hw & Hs & _).
    simpl. repeat split; try assumption; try congruence.
  - intros H. apply bind_inv in H as (f & w1 & Hf & H).
    unfold lift in Hf. destruct (fp l) as [f0|] eqn:Hfp; [|discriminate].
    injection Hf as <- <-.
    apply bind_inv in H as ([r0 f'] & w1 & Hrun & H).
    unfold ret in H. injection H as <- <- <-.
    unfold write_file_callback, fwrite, bind, file_contents, gets, modify, ret in Hrun.
    injection Hrun as <- <- <-. simpl.
    split; [reflexivity|]. split; [reflexivity|]. split; [reflexivity|].
    split; [reflexivity|]. split; [|congruence].
    intros p Hp. apply lookup_insert_ne. congruence.
Qed.

Lemma request_frame h nmemb l w r l' w' :
  request h nmemb l w = Some (r, l', w') ->
  w' = w /\ file_path <$> fp l' = file_path <$> fp l.
Proof.
  unfold request.
  destruct (curl_getopt h CURLOPT_READFUNCTION) as [[n|s|sl|[]|p]|];
    try (unfold ret; intros [= <- <- <-]; split; reflexivity).
  intros H. apply bind_inv in H as (f & w1 & Hf & H).
  unfold lift in Hf. destruct (fp l) as [f0|] eqn:Hfp; [|discriminate].
  injection Hf as <- <-.
  unfold read_file_callback, fread, bind, file_contents, gets, ret in H.
  injection H as <- <- <-. split; reflexivity.
Qed.

Lemma run_transfer_frame h c evs : forall l w r l' w',
  run_transfer h c evs l w = Some (r, l', w') ->
  wire w' = wire w /\ net w' = net w /\ strerror w' = strerror w /\
  (forall p, file_path <$> fp l <> Some p -> fs w' !! p = fs w !! p) /\
  (curl_getopt h CURLOPT_WRITEFUNCTION <> Some (OptFn fn_write_file_callback) ->
   fs w' = fs w).
Proof.
  induction evs as [|ev evs IH]; intros l w r l' w'; simpl.
  - unfold ret. intros [= <- <- <-]. repeat split; reflexivity.
  - destruct ev as [contents|nmemb|a b d e].
    + intros H. apply bind_inv in H as ([r0 l1] & w1 & Hd & H). cbn [fst snd] in H.
      apply deliver_frame in Hd as (D1 & D2 & D3 & D4 & D5 & D6).
      destruct (r0 =? Z.of_nat (length contents)).
      * apply IH in H as (I1 & I2 & I3 & I4 & I5).
        split; [congruence|]. split; [congruence|]. split; [congruence|]. split.
        -- intros p Hp. rewrite I4 by (rewrite D4; exact Hp). apply D5. exact Hp.
        -- intros Hno. rewrite I5, D6 by assumption. reflexivity.
      * unfold ret in H. injection H as <- <- <-. auto.
    + intros H. apply bind_inv in H as ([r0 l1] & w1 & Hd & H). cbn [fst snd] in H.
      apply request_frame in Hd as [-> D4].
      apply IH in H as (I1 & I2 & I3 & I4 & I5).
      repeat split; try assumption.
      intros p Hp. apply I4. rewrite D4. exact Hp.
    + destruct (progress_enabled h).
      * destruct (progress_continues (progress_callback_wrapper c a b d e)); [apply IH|].
        unfold ret. intros [= <- <- <-]. repeat split; reflexivity.
      * apply IH.
Qed.

Lemma curl_easy_perform_frame h c l w res h' l' w' :
  curl_easy_perform h c l w = Some (res, h', l', w') ->
  wire w' = wire w ++ [h] /\ net w' = tl (net w) /\ strerror w' = strerror w /\
  options h' = options h /\
  (forall p, file_path <$> fp l <> Some p -> fs w' !! p = fs w !! p) /\
  (curl_getopt h CURLOPT_WRITEFUNCTION <> Some (OptFn fn_write_file_callback) ->
   fs w' = fs w).
Proof.
  unfold curl_easy_perform. intros H.
  apply bind_inv in H as (t & w1 & Ht & H).
  destruct (next_transfer_eq w) as (w2 & E & Hnet2 & Hfs2 & Hwire2 & _ & Hstr2 & _).
  rewrite E in Ht. injection Ht as <- <-.
  apply bind_inv in H as ([] & w3 & Hm & H).
  unfold modify in Hm. injection Hm as <-.
  apply bind_inv in H as ([r0 l1] & w4 & Hrun & H).
  unfold ret in H. injection H as <- <- <- <-.
  apply run_transfer_frame in Hrun as (I1 & I2 & I3 & I4 & I5).
  simpl in *. rewrite I1, I2, I3, Hwire2, Hnet2, Hstr2.
  repeat split.
  - intros p Hp. rewrite I4 by assumption. rewrite Hfs2. reflexivity.
  - intros Hno. rewrite I5 by assumption. exact Hfs2.
Qed.

Lemma quiet_refl target w : quiet target w w.
Proof. repeat split. Qed.

Lemma quiet_after_alloc target w : quiet target w (after_alloc w).
Proof. unfold after_alloc. destruct (heap w); repeat split. Qed.

Lemma quiet_then_transfer target w w1 w2 :
  quiet target w w1 -> one_transfer target w1 w2 -> one_transfer target w w2.
Proof.
  intros (A1 & A2 & A3) ([sent B1] & B2 & B3). split; [|split].
  - exists sent. congruence.
  - congruence.
  - intros p Hp. rewrite B3, A3 by assumption. reflexivity.
Qed.

Lemma transfer_then_quiet target w w1 w2 :
  one_transfer target w w1 -> quiet target w1 w2 -> one_transfer target w w2.
Proof.
  intros ([sent A1] & A2 & A3) (B1 & B2 & B3). split; [|split].
  - exists sent. congruence.
  - congruence.
  - intros p Hp. rewrite B3, A3 by assumption. reflexivity.
Qed.

Lemma quiet_trans target w w1 w2 :
  quiet target w w1 -> quiet target w1 w2 -> quiet target w w2.
Proof.
  intros (A1 & A2 & A3) (B1 & B2 & B3). split; [|split]; try congruence.
  intros p Hp. rewrite B3, A3 by assumption. reflexivity.
Qed.

Lemma quiet_write path bytes w :
  quiet (Some path) w (set_fs (<[path := bytes]> (fs w)) w).
Proof.
  repeat split. intros p Hp. simpl. apply lookup_insert_ne. congruence.
Qed.

Lemma quiet_remove path w : quiet (Some path) w (set_fs (delete path (fs w)) w).
Proof.
  repeat split. intros p Hp. simpl. apply lookup_delete_ne. congruence.
Qed.

(** A transfer into memory, or one that only reads, leaves the files. *)
Lemma perform_in_memory h c l w res h' l' w' :
  curl_getopt h CURLOPT_WRITEFUNCTION <> Some (OptFn fn_write_file_callback) ->
  curl_easy_perform h c l w = Some (res, h', l', w') ->
  one_transfer None w w'.
Proof.
  intros Hno H. apply curl_easy_perform_frame in H as (I1 & I2 & _ & _ & _ & I5).
  split; [eauto|]. split; [exact I2|]. intros p _. rewrite I5 by assumption. reflexivity.
Qed.

Lemma perform_into_file h c l f w res h' l' w' :
  fp l = Some f ->
  curl_easy_perform h c l w = Some (res, h', l', w') ->
  one_transfer (Some (file_path f)) w w'.
Proof.
  intros Hf H. apply curl_easy_perform_frame in H as (I1 & I2 & _ & _ & I4 & _).
  split; [eauto|]. split; [exact I2|]. intros p Hp. apply I4. rewrite Hf. simpl. exact Hp.
Qed.

#[local] Hint Resolve quiet_refl quiet_after_alloc quiet_write quiet_remove : worlds.

Ltac client_facts :=
  eexists; split; [reflexivity|]; split; [reflexivity|];
  let HOK := fresh "HOK" in intros HOK; first [discriminate HOK | reflexivity].

Ltac nothing_done :=
  unfold ret; intros [= <- <- <-]; split; [left; auto with worlds|client_facts].

Ltac nothing_done3 :=
  unfold ret; intros [= <- <- <- <-]; split; [left; auto with worlds|client_facts].

Lemma download_frame c rp lp w r after w' :
  ftp_client_download (Some c) rp lp w = Some (r, after, w') ->
  call_frame lp c w r after w'.
Proof.
  unfold ftp_client_download.
  destruct lp as [lp|]; [|nothing_done].
  destruct rp as [rp|]; [|nothing_done].
  destruct (curl c) as [h|]; [|nothing_done].
  intros H. apply bind_inv in H as (opened & w1 & Hopen & H).
  unfold fopen in Hopen. destruct (decide (lp ∈ readonly w)); injection Hopen as <- <-.
  { revert H. nothing_done. }
  apply bind_inv in H as ([code url] & w2 & Hurl & H).
  unfold lift in Hurl. destruct (build_ftp_url c (Some rp) FTP_MAX_URL_LENGTH);
    [|discriminate]. injection Hurl as -> <-.
  destruct code;
    try (unfold fclose, bind, ret in H; injection H as <- <- <-;
         split; [left; auto with worlds|client_facts]).
  apply bind_inv in H as ([[res h2] l2] & w3 & Hperf & H). cbn beta iota zeta in H.
  eapply perform_into_file in Hperf; [|reflexivity]. cbn [file_path] in Hperf.
  apply (quiet_then_transfer _ w) in Hperf; [|auto with worlds].
  unfold fclose in H. apply bind_inv in H as ([] & w4 & Hc & H).
  unfold ret in Hc. injection Hc as <-.
  destruct (res =? CURLE_OK).
  { unfold ret in H. injection H as <- <- <-. split; [right; exact Hperf|client_facts]. }
  apply bind_inv in H as (msg & w5 & Hmsg & H).
  unfold curl_easy_strerror, gets in Hmsg. injection Hmsg as <- <-.
  apply bind_inv in H as ([] & w6 & Hrm & H).
  unfold remove, modify in Hrm. injection Hrm as <-.
  assert (Hfin : one_transfer (Some lp) w (set_fs (delete lp (fs w3)) w3))
    by (eapply transfer_then_quiet; [exact Hperf|auto with worlds]).
  destruct (res =? CURLE_REMOTE_FILE_NOT_FOUND);
    unfold ret in H; injection H as <- <- <-;
    (split; [right; exact Hfin|client_facts]).
Qed.

Lemma upload_frame c lp rp w r after w' :
  ftp_client_upload (Some c) lp rp w = Some (r, after, w') ->
  call_frame None c w r after w'.
Proof.
  unfold ftp_client_upload.
  destruct lp as [lp|]; [|nothing_done].
  destruct rp as [rp|]; [|nothing_done].
  destruct (curl c) as [h|]; [|nothing_done].
  intros H. apply bind_inv in H as (opened & w1 & Hopen & H).
  unfold fopen in Hopen. destruct (fs w !! lp); injection Hopen as <- <-;
    [|revert H; nothing_done].
  unfold fseek_end, ftell, fseek_set, file_contents in H.
  unfold bind at 1 2 3 4, gets at 1, ret at 1 2 3 in H.
  apply bind_inv in H as ([code url] & w2 & Hurl & H).
  unfold lift in Hurl. destruct (build_ftp_url c (Some rp) FTP_MAX_URL_LENGTH);
    [|discriminate]. injection Hurl as -> <-.
  destruct code;
    try (unfold fclose, bind, ret in H; injection H as <- <- <-;
         split; [left; auto with worlds|client_facts]).
  apply bind_inv in H as ([[res h2] l2] & w3 & Hperf & H). cbn beta iota zeta in H.
  apply perform_in_memory in Hperf.
  2:{ getopt. rewrite setup_curl_common_other by auto. getopt. discriminate. }
  unfold fclose in H. apply bind_inv in H as ([] & w4 & Hc & H).
  unfold ret in Hc. injection Hc as <-.
  destruct (res =? CURLE_OK).
  { unfold ret in H. injection H as <- <- <-. split; [right; exact Hperf|client_facts]. }
  apply bind_inv in H as (msg & w5 & Hmsg & H).
  unfold curl_easy_strerror, gets in Hmsg. injection Hmsg as <- <-.
  unfold ret in H. injection H as <- <- <-. split; [right; exact Hperf|client_facts].
Qed.

Lemma memory_handle h :
  curl_getopt
    (curl_easy_setopt
       (curl_easy_setopt h CURLOPT_WRITEFUNCTION (OptFn fn_write_memory_callback))
       CURLOPT_WRITEDATA (OptPtr ptr_buffer)) CURLOPT_WRITEFUNCTION
  <> Some (OptFn fn_write_file_callback).
Proof. getopt. discriminate. Qed.

Lemma connect_frame c w r after w' :
  ftp_client_connect (Some c) w = Some (r, after, w') ->
  call_frame None c w r after w'.
Proof.
  unfold ftp_client_connect.
  destruct (curl c) as [h|]; [|nothing_done].
  destruct (host (config c)) as [[|ch hn]|]; try nothing_done.
  intros H.
  apply bind_inv in H as ([code url] & w2 & Hurl & H).
  unfold lift in Hurl. destruct (build_ftp_url c (Some "/"%string) FTP_MAX_URL_LENGTH);
    [|discriminate]. injection Hurl as -> <-.
  destruct code;
    try (unfold ret in H; injection H as <- <- <-;
         split; [left; auto with worlds|client_facts]).
  apply bind_inv in H as ([[res h2] l2] & w3 & Hperf & H). cbn beta iota zeta in H.
  apply perform_in_memory in Hperf; [|apply memory_handle].
  destruct (res =? CURLE_OK).
  { unfold ret in H. injection H as <- <- <-. split; [right; exact Hperf|client_facts]. }
  apply bind_inv in H as (msg & w5 & Hmsg & H).
  unfold curl_easy_strerror, gets in Hmsg. injection Hmsg as <- <-.
  destruct (res =? CURLE_LOGIN_DENIED); [|destruct (res =? CURLE_OPERATION_TIMEDOUT)];
    unfold ret in H; injection H as <- <- <-;
    (split; [right; exact Hperf|client_facts]).
Qed.

Lemma list_dir_frame c rp out w r after out' w' :
  ftp_client_list_dir (Some c) rp out w = Some (r, after, out', w') ->
  call_frame None c w r after w'.
Proof.
  unfold ftp_client_list_dir.
  destruct out as [out|]; [|nothing_done3].
  destruct (curl c) as [h|]; [|nothing_done3].
  intros H. apply bind_inv in H as (p & w1 & Hp & H).
  unfold lift in Hp. destruct rp as [rp|]; [|discriminate]. injection Hp as <- <-.
  cbv zeta in H.
  apply bind_inv in H as ([code url] & w2 & Hurl & H).
  unfold lift in Hurl. destruct (build_ftp_url c _ FTP_MAX_URL_LENGTH);
    [|discriminate]. injection Hurl as -> <-.
  destruct code;
    try (unfold ret in H; injection H as <- <- <- <-;
         split; [left; auto with worlds|client_facts]).
  apply bind_inv in H as ([[res h2] l2] & w3 & Hperf & H). cbn beta iota zeta in H.
  apply perform_in_memory in Hperf; [|apply memory_handle].
  destruct (res =? CURLE_OK).
  { unfold ret in H. injection H as <- <- <- <-.
    split; [right; exact Hperf|client_facts]. }
  apply bind_inv in H as (msg & w5 & Hmsg & H).
  unfold curl_easy_strerror, gets in Hmsg. injection Hmsg as <- <-.
  unfold ret in H. injection H as <- <- <- <-. split; [right; exact Hperf|client_facts].
Qed.

Lemma get_filesize_call_frame c rp sz w r after sz' w' :
  ftp_client_get_filesize (Some c) rp sz w = Some (r, after, sz', w') ->
  call_frame None c w r after w'.
Proof.
  unfold ftp_client_get_filesize.
  destruct rp as [rp|]; [|nothing_done3].
  destruct sz as [sz|]; [|nothing_done3].
  destruct (curl c) as [h|]; [|nothing_done3].
  intros H.
  apply bind_inv in H as ([code url] & w2 & Hurl & H).
  unfold lift in Hurl. destruct (build_ftp_url c _ FTP_MAX_URL_LENGTH);
    [|discriminate]. injection Hurl as -> <-.
  destruct code;
    try (unfold ret in H; injection H as <- <- <- <-;
         split; [left; auto with worlds|client_facts]).
  apply bind_inv in H as ([[res h2] l2] & w3 & Hperf & H). cbn beta iota zeta in H.
  apply perform_in_memory in Hperf; [|apply memory_handle].
  destruct (res =? CURLE_OK).
  { destruct (curl_easy_getinfo_content_length h2) as [code len].
    destruct ((code =? CURLE_OK) && (0 <=? len));
      unfold ret in H; injection H as <- <- <- <-;
      (split; [right; exact Hperf|client_facts]). }
  apply bind_inv in H as (msg & w5 & Hmsg & H).
  unfold curl_easy_strerror, gets in Hmsg. injection Hmsg as <- <-.
  unfold ret in H. injection H as <- <- <- <-. split; [right; exact Hperf|client_facts].
Qed.

Lemma execute_command_frame c cmd resp w r after resp' w' :
  ftp_client_execute_command (Some c) cmd resp w = Some (r, after, resp', w') ->
  call_frame None c w r after w'.
Proof.
  unfold ftp_client_execute_command.
  destruct cmd as [cmd|]; [|nothing_done3].
  destruct (curl c) as [h|]; [|nothing_done3].
  intros H.
  apply bind_inv in H as ([code url] & w2 & Hurl & H).
  unfold lift in Hurl. destruct (build_ftp_url c _ FTP_MAX_URL_LENGTH);
    [|discriminate]. injection Hurl as -> <-.
  destruct code;
    try (unfold ret in H; injection H as <- <- <- <-;
         split; [left; auto with worlds|client_facts]).
  apply bind_inv in H as (commands & w3 & Hlist & H).
  unfold curl_slist_append, bind in Hlist. rewrite alloc_eq in Hlist.
  unfold ret in Hlist. injection Hlist as <- <-.
  apply bind_inv in H as ([[res h2] l2] & w4 & Hperf & H). cbn beta iota zeta in H.
  apply perform_in_memory in Hperf; [|apply memory_handle].
  apply (quiet_then_transfer _ w) in Hperf; [|auto with worlds].
  destruct (res =? CURLE_OK).
  { unfold ret in H. injection H as <- <- <- <-.
    split; [right; exact Hperf|client_facts]. }
  apply bind_inv in H as (msg & w5 & Hmsg & H).
  unfold curl_easy_strerror, gets in Hmsg. injection Hmsg as <- <-.
  unfold ret in H. injection H as <- <- <- <-. split; [right; exact Hperf|client_facts].
Qed.

Lemma execute_simple_command_frame c cmds prefix w r after w' :
  ftp_client_execute_simple_command (Some c) cmds prefix w = Some (r, after, w') ->
  call_frame None c w r after w'.
Proof.
  unfold ftp_client_execute_simple_command.
  destruct cmds as [cmds|]; [|nothing_done].
  destruct (curl c) as [h|]; [|nothing_done].
  intros H.
  apply bind_inv in H as ([code url] & w2 & Hurl & H).
  unfold lift in Hurl. destruct (build_ftp_url c _ FTP_MAX_URL_LENGTH);
    [|discriminate]. injection Hurl as -> <-.
  destruct code;
    try (unfold ret in H; injection H as <- <- <-;
         split; [left; auto with worlds|client_facts]).
  apply bind_inv in H as ([[res h2] l2] & w3 & Hperf & H). cbn beta iota zeta in H.
  apply perform_in_memory in Hperf; [|apply memory_handle].
  destruct (res =? CURLE_OK).
  { unfold ret in H. injection H as <- <- <-. split; [right; exact Hperf|client_facts]. }
  apply bind_inv in H as (msg & w5 & Hmsg & H).
  unfold curl_easy_strerror, gets in Hmsg. injection Hmsg as <- <-.
  unfold ret in H. injection H as <- <- <-. split; [right; exact Hperf|client_facts].
Qed.

Lemma call_frame_after_quiet target c w w1 r after w' :
  quiet target w w1 -> call_frame target c w1 r after w' -> call_frame target c w r after w'.
Proof.
  intros Hq [[Hf|Hf] Hc]; (split; [|exact Hc]).
  - left. eapply quiet_trans; eassumption.
  - right. eapply quiet_then_transfer; eassumption.
Qed.

Lemma one_command_frame verb prefix c rp w r after w' :
  (commands <- curl_slist_append None (command_line verb rp) ;;
   ftp_client_execute_simple_command (Some c) commands prefix) w = Some (r, after, w') ->
  call_frame None c w r after w'.
Proof.
  intros H. apply bind_inv in H as (commands & w1 & Hlist & H).
  unfold curl_slist_append, bind in Hlist. rewrite alloc_eq in Hlist.
  unfold ret in Hlist. injection Hlist as <- <-.
  apply execute_simple_command_frame in H.
  eapply call_frame_after_quiet; [|exact H]. auto with worlds.
Qed.

Lemma mkdir_frame c rp w r after w' :
  ftp_client_mkdir (Some c) rp w = Some (r, after, w') -> call_frame None c w r after w'.
Proof.
  unfold ftp_client_mkdir.
  destruct rp as [rp|]; [|nothing_done].
  destruct (curl c) as [h|]; [|nothing_done].
  apply one_command_frame.
Qed.

Lemma rmdir_frame c rp w r after w' :
  ftp_client_rmdir (Some c) rp w = Some (r, after, w') -> call_frame None c w r after w'.
Proof.
  unfold ftp_client_rmdir.
  destruct rp as [rp|]; [|nothing_done].
  destruct (curl c) as [h|]; [|nothing_done].
  apply one_command_frame.
Qed.

Lemma delete_frame c rp w r after w' :
  ftp_client_delete (Some c) rp w = Some (r, after, w') -> call_frame None c w r after w'.
Proof.
  unfold ftp_client_delete.
  destruct rp as [rp|]; [|nothing_done].
  destruct (curl c) as [h|]; [|nothing_done].
  apply one_command_frame.
Qed.

Lemma rename_frame c old new w r after w' :
  ftp_client_rename (Some c) old new w = Some (r, after, w') ->
  call_frame None c w r after w'.
Proof.
  unfold ftp_client_rename.
  destruct old as [old|]; [|nothing_done].
  destruct new as [new|]; [|nothing_done].
  destruct (curl c) as [h|]; [|nothing_done].
  cbv zeta. intros H.
  apply bind_inv in H as (commands & w1 & Hlist & H).
  unfold curl_slist_append, bind in Hlist. rewrite alloc_eq in Hlist.
  unfold ret in Hlist. injection Hlist as <- <-.
  apply bind_inv in H as (commands2 & w2 & Hlist & H).
  unfold curl_slist_append, bind in Hlist. rewrite alloc_eq in Hlist.
  unfold ret in Hlist. injection Hlist as <- <-.
  apply execute_simple_command_frame in H.
  eapply call_frame_after_quiet; [|exact H].
  eapply quiet_trans; auto with worlds.
Qed.

Ltac setter_done :=
  eexists; split; [reflexivity|]; split; [reflexivity|]; split; [reflexivity|];
  let Hr := fresh "Hr" in intros Hr; exact Hr.

(** The setters reach neither the server nor the files, and leave the
    handle and the error text alone. *)
Lemma setter_frame call c w r after w' :
  is_setter call = true ->
  api_step call (Some c) w = Some (r, after, w') ->
  quiet None w w' /\
  exists c', after = Some c' /\ curl c' = curl c /\ last_error c' = last_error c /\
             (config_in_range (config c) -> config_in_range (config c')).
Proof.
  destruct call; try discriminate; intros _; unfold api_step.
  - (* ftp_client_set_host *)
    intros H. apply bind_inv in H as ([r0 after0] & w1 & Hrun & H).
    unfold ret, returned in H. cbn [fst snd] in H. injection H as <- <- <-.
    unfold ftp_client_set_host in Hrun.
    destruct h as [name|];
      [|unfold ret in Hrun; injection Hrun as <- <- <-;
        split; [auto with worlds|setter_done]].
    apply bind_inv in Hrun as (copy & w2 & Hdup & Hrun).
    unfold strdup, bind in Hdup. rewrite alloc_eq in Hdup.
    unfold ret in Hdup. injection Hdup as <- <-.
    destruct (next_alloc_fails w); cbn [negb] in Hrun.
    + unfold ret in Hrun. injection Hrun as <- <- <-.
      split; [auto with worlds|setter_done].
    + destruct ((0 <? p) && (p <=? 65535)) eqn:E;
        unfold ret in Hrun; injection Hrun as <- <- <-;
        (split; [auto with worlds|]); [|setter_done].
      eexists; split; [reflexivity|]; split; [reflexivity|]; split; [reflexivity|].
      apply andb_true_iff in E as [E1 E2]. apply Z.ltb_lt in E1. apply Z.leb_le in E2.
      intros (_ & Ht & Hct). unfold config_in_range. simpl.
      split; [lia|]. split; assumption.
  - (* ftp_client_set_credentials *)
    intros H. apply bind_inv in H as ([r0 after0] & w1 & Hrun & H).
    unfold ret, returned in H. cbn [fst snd] in H. injection H as <- <- <-.
    unfold ftp_client_set_credentials in Hrun.
    destruct user as [u|];
      [|unfold ret in Hrun; injection Hrun as <- <- <-;
        split; [auto with worlds|setter_done]].
    destruct pass as [p|];
      [|unfold ret in Hrun; injection Hrun as <- <- <-;
        split; [auto with worlds|setter_done]].
    apply bind_inv in Hrun as (copy & w2 & Hdup & Hrun).
    unfold strdup, bind in Hdup. rewrite alloc_eq in Hdup.
    unfold ret in Hdup. injection Hdup as <- <-.
    destruct (next_alloc_fails w); cbn [negb] in Hrun.
    + unfold ret in Hrun. injection Hrun as <- <- <-.
      split; [auto with worlds|setter_done].
    + apply bind_inv in Hrun as (copy2 & w3 & Hdup & Hrun).
      unfold strdup, bind in Hdup. rewrite alloc_eq in Hdup.
      unfold ret in Hdup. injection Hdup as <- <-.
      assert (Hq : quiet None w (after_alloc (after_alloc w)))
        by (eapply quiet_trans; auto with worlds).
      destruct (next_alloc_fails (after_alloc w)); cbn [negb] in Hrun;
        unfold ret in Hrun; injection Hrun as <- <- <-;
        (split; [exact Hq|setter_done]).
  - (* ftp_client_set_mode *)
    unfold ret. intros [= <- <- <-]. split; [auto with worlds|setter_done].
  - (* ftp_client_set_ssl *)
    unfold ret. intros [= <- <- <-]. split; [auto with worlds|setter_done].
  - (* ftp_client_set_timeout *)
    unfold ret. intros [= <- <- <-]. split; [auto with worlds|].
    eexists. split; [reflexivity|]. split; [reflexivity|]. split; [reflexivity|].
    intros (Hp & Ht & Hct). unfold config_in_range. cbv zeta. cbn [config with_config].
    destruct (0 <? t) eqn:E1; destruct (0 <? connect_t) eqn:E2;
      try apply Z.ltb_lt in E1; try apply Z.ltb_lt in E2;
      simpl; repeat split; assumption || lia.
  - (* ftp_client_set_verbose *)
    unfold ret. intros [= <- <- <-]. split; [auto with worlds|setter_done].
  - (* ftp_client_set_progress_callback *)
    unfold ret. intros [= <- <- <-]. split; [auto with worlds|setter_done].
Qed.

(** The other calls, one lemma for all. *)
Lemma operation_frame call c w r after w' :
  is_setter call = false ->
  api_step call (Some c) w = Some (r, after, w') ->
  exists code, r = Some code /\ call_frame (written_file call) c w code after w'.
Proof.
  destruct call; try discriminate; intros _; unfold api_step; intros H;
    apply bind_inv in H as (res & w1 & Hrun & H);
    unfold ret, returned in H; injection H as <- <- <-;
    eexists; (split; [reflexivity|]).
  - destruct res as [code after0]. apply connect_frame in Hrun. exact Hrun.
  - destruct res as [code after0]. apply upload_frame in Hrun. exact Hrun.
  - destruct res as [code after0]. apply download_frame in Hrun. exact Hrun.
  - destruct res as [[code after0] out']. apply list_dir_frame in Hrun. exact Hrun.
  - destruct res as [code after0]. apply mkdir_frame in Hrun. exact Hrun.
  - destruct res as [code after0]. apply rmdir_frame in Hrun. exact Hrun.
  - destruct res as [code after0]. apply delete_frame in Hrun. exact Hrun.
  - destruct res as [code after0]. apply rename_frame in Hrun. exact Hrun.
  - destruct res as [[code after0] sz']. apply get_filesize_call_frame in Hrun. exact Hrun.
  - destruct res as [[code after0] resp']. apply execute_command_frame in Hrun. exact Hrun.
Qed.

(** A NULL client: nothing happens. *)
Lemma null_client_frame call w r after w' :
  api_step call None w = Some (r, after, w') -> after = None /\ w' = w.
Proof.
  destruct call; unfold api_step, bind, ret; simpl;
    intros [= <- <- <-]; split; reflexivity.
Qed.

Lemma api_step_in_range call c w r after w' :
  api_step call (Some c) w = Some (r, after, w') ->
  config_in_range (config c) ->
  exists c', after = Some c' /\ config_in_range (config c').
Proof.
  intros H Hrange. destruct (is_setter call) eqn:E.
  - apply setter_frame in H as (_ & c' & -> & _ & _ & Hkeep); [|exact E]. eauto.
  - apply operation_frame in H as (code & _ & _ & c' & -> & Hcfg & _); [|exact E].
    exists c'. split; [reflexivity|]. rewrite Hcfg. exact Hrange.
Qed.

Lemma api_run_in_range calls : forall c w after w',
  api_run calls (Some c) w = Some (after, w') ->
  config_in_range (config c) ->
  exists c', after = Some c' /\ config_in_range (config c').
Proof.
  induction calls as [|call calls IH]; intros c w after w'; simpl.
  - unfold ret. intros [= <- <-]. eauto.
  - intros H Hrange. apply bind_inv in H as ([r after1] & w1 & Hstep & H).
    apply api_step_in_range in Hstep as (c1 & -> & Hrange1); [|exact Hrange].
    cbn [snd] in H. eapply IH; eassumption.
Qed.

Lemma create_in_range w c w' :
  ftp_client_create w = Some (Some c, w') -> config_in_range (config c).
Proof.
  unfold ftp_client_create. intros H.
  apply bind_inv in H as (ok & w1 & _ & H). destruct ok; [|discriminate].
  apply bind_inv in H as (h & w2 & _ & H). destruct h as [h|]; [|discriminate].
  apply bind_inv in H as (cfg & w3 & Hcfg & H).
  unfold ret in H. injection H as <- <-.
  unfold ftp_client_init_config in Hcfg.
  apply bind_inv in Hcfg as (u & w4 & _ & Hcfg).
  apply bind_inv in Hcfg as (p & w5 & _ & Hcfg).
  unfold ret in Hcfg. injection Hcfg as <- <-.
  unfold config_in_range. simpl. lia.
Qed.

(** ** Ports and URLs *)

Lemma digits_fit_from_covers fuel : forall p0 p,
  digits_fit_from fuel p0 = true -> p0 <= p < p0 + Z.of_nat fuel ->
  strlen (format_d p) <= 5.
Proof.
  induction fuel as [|fuel IH]; intros p0 p H Hr; [lia|].
  simpl in H. apply andb_true_iff in H as [H1 H2].
  destruct (Z.eq_dec p p0) as [->|Hne]; [apply Z.leb_le; exact H1|].
  apply (IH (p0 + 1)); [exact H2|lia].
Qed.

(** A port number takes at most the five characters the URL reserves. *)
Lemma port_digits p : 1 <= p <= 65535 -> strlen (format_d p) <= 5.
Proof.
  intros H. apply (digits_fit_from_covers (Z.to_nat 65535) 1); [|lia].
  vm_compute. reflexivity.
Qed.

Lemma build_ftp_url_whole c hn rp n :
  host (config c) = Some hn -> 1 <= port (config c) <= 65535 ->
  required_len hn rp <= n ->
  build_ftp_url c rp n = Some (FTP_OK, Some (url_text hn (port (config c)) rp)).
Proof.
  intros Hh Hp Hfit. rewrite (build_ftp_url_fits c hn Hh) by assumption.
  rewrite snprintf_fits; [reflexivity|].
  pose proof (url_text_length hn (port (config c)) rp (port_digits _ Hp)). lia.
Qed.

(** ** The options a handle carries *)

(** [setup_curl_common] leaves alone the options of the single
    operations. *)
Lemma setup_curl_common_leaves c h o :
  In o [CURLOPT_URL; CURLOPT_QUOTE; CURLOPT_WRITEFUNCTION; CURLOPT_WRITEDATA;
        CURLOPT_UPLOAD; CURLOPT_READFUNCTION; CURLOPT_READDATA;
        CURLOPT_INFILESIZE_LARGE; CURLOPT_NOBODY; CURLOPT_FILETIME; CURLOPT_HEADER] ->
  curl_getopt (setup_curl_common c h) o = curl_getopt h o.
Proof.
  unfold setup_curl_common. simpl.
  intros [<-|[<-|[<-|[<-|[<-|[<-|[<-|[<-|[<-|[<-|[<-|[]]]]]]]]]]]];
    destruct (progress_callback (config c)); destruct (mode (config c));
    destruct (ssl_mode (config c)); reflexivity.
Qed.

(** What [setup_curl_common] puts on a handle that was just reset. *)
Lemma setup_curl_common_settings c h0 u :
  let h := setup_curl_common c (curl_easy_setopt (curl_easy_reset h0) CURLOPT_URL u) in
  curl_getopt h CURLOPT_USERNAME = Some (OptStr (username (config c))) /\
  curl_getopt h CURLOPT_PASSWORD = Some (OptStr (password (config c))) /\
  curl_getopt h CURLOPT_TIMEOUT = Some (OptLong (timeout (config c))) /\
  curl_getopt h CURLOPT_CONNECTTIMEOUT = Some (OptLong (connect_timeout (config c))) /\
  (mode (config c) = FTP_MODE_ACTIVE ->
   curl_getopt h CURLOPT_FTPPORT = Some (OptStr (Some "-"%string)) /\
   curl_getopt h CURLOPT_FTP_USE_EPSV = None) /\
  (mode (config c) = FTP_MODE_PASSIVE ->
   curl_getopt h CURLOPT_FTP_USE_EPSV = Some (OptLong 1) /\
   curl_getopt h CURLOPT_FTPPORT = None) /\
  (ssl_mode (config c) = FTP_SSL_NONE ->
   curl_getopt h CURLOPT_USE_SSL = None /\
   curl_getopt h CURLOPT_SSL_VERIFYPEER = None /\
   curl_getopt h CURLOPT_SSL_VERIFYHOST = None) /\
  (ssl_mode (config c) <> FTP_SSL_NONE ->
   curl_getopt h CURLOPT_USE_SSL
   = Some (OptLong (ftp_ssl_mode_value (ssl_mode (config c)))) /\
   curl_getopt h CURLOPT_SSL_VERIFYPEER
   = Some (OptLong (if verify_ssl (config c) =? 0 then 0 else 1)) /\
   curl_getopt h CURLOPT_SSL_VERIFYHOST
   = Some (OptLong (if verify_ssl (config c) =? 0 then 0 else 2))).
Proof.
  cbv zeta. unfold setup_curl_common.
  destruct (progress_callback (config c)); destruct (mode (config c));
    destruct (ssl_mode (config c));
    (repeat split; try reflexivity; try discriminate; try congruence;
     intros; split; try reflexivity; split; reflexivity).
Qed.

Lemma getopt_write_options h o :
  o <> CURLOPT_WRITEFUNCTION -> o <> CURLOPT_WRITEDATA ->
  forall f p,
    curl_getopt
      (curl_easy_setopt (curl_easy_setopt h CURLOPT_WRITEFUNCTION f) CURLOPT_WRITEDATA p) o
    = curl_getopt h o.
Proof.
  intros H1 H2 f p. rewrite !getopt_setopt.
  destruct (decide (CURLOPT_WRITEDATA = o)); [congruence|].
  destruct (decide (CURLOPT_WRITEFUNCTION = o)); [congruence|]. reflexivity.
Qed.

Lemma command_line_cut verb path :
  command_line verb path = snprintf 512 (verb +:+ " " +:+ absolute path).
Proof.
  unfold command_line, absolute. destruct (begins_with_slash path); reflexivity.
Qed.

Section Commands.

Variables (c : ftp_client_t) (h : CURL) (hn : string).
Hypothesis Hcurl : curl c = Some h.
Hypothesis Hhost : host (config c) = Some hn.

(** One command goes out, cut to its buffer, at the URL of the root
    directory. *)
Lemma one_command_runs verb prefix rp w :
  required_len hn (Some "/"%string) <= FTP_MAX_URL_LENGTH ->
  next_alloc_fails w = false ->
  data_volume (xfer_events (next_script w)) + 1 <= 2 ^ 63 ->
  exists r c' w' sent,
    (commands <- curl_slist_append None (command_line verb rp) ;;
     ftp_client_execute_simple_command (Some c) commands prefix) w
    = Some (r, Some c', w') /\
    wire w' = wire w ++ [sent] /\
    curl_getopt sent CURLOPT_QUOTE
    = Some (OptSlist [snprintf 512 (verb +:+ " " +:+ absolute rp)]) /\
    curl_getopt sent CURLOPT_URL
    = Some (OptStr (Some (snprintf FTP_MAX_URL_LENGTH
                            (url_text hn (port (config c)) (Some "/"%string))))).
Proof.
  intros Hfit Hok Hvol.
  unfold curl_slist_append.
  unfold bind at 1. unfold bind at 1. rewrite alloc_eq, Hok. cbn [negb]. unfold ret at 1.
  cbn [default app]. rewrite command_line_cut.
  destruct (execute_simple_command_runs c h hn Hcurl Hhost
              [snprintf 512 (verb +:+ " " +:+ absolute rp)] prefix (after_alloc w) Hfit)
    as (r & c' & w' & sent & Hrun & Hwire & _ & Hq & Hu & _).
  { rewrite next_script_after_alloc. exact Hvol. }
  exists r, c', w', sent. split; [exact Hrun|].
  rewrite Hwire, wire_after_alloc. auto.
Qed.

(** When only the second command of a rename finds memory, it goes out
    alone. *)
Lemma rename_second_only old new w :
  required_len hn (Some "/"%string) <= FTP_MAX_URL_LENGTH ->
  next_alloc_fails w = true -> next_alloc_fails (after_alloc w) = false ->
  data_volume (xfer_events (next_script w)) + 1 <= 2 ^ 63 ->
  strlen (absolute new) <= 506 ->
  exists r c' w' sent,
    ftp_client_rename (Some c) (Some old) (Some new) w = Some (r, Some c', w') /\
    wire w' = wire w ++ [sent] /\
    curl_getopt sent CURLOPT_QUOTE = Some (OptSlist ["RNTO " +:+ absolute new]).
Proof.
  intros Hfit Hfail Hok Hvol Hlen.
  unfold ftp_client_rename. rewrite Hcurl. cbv zeta. unfold curl_slist_append.
  unfold bind at 1. unfold bind at 1. rewrite alloc_eq, Hfail. cbn [negb]. unfold ret at 1.
  unfold bind at 1. unfold bind at 1. rewrite alloc_eq, Hok. cbn [negb]. unfold ret at 1.
  cbn [default app].
  rewrite (command_line_fits "RNTO" new) by (unfold strlen in *; simpl; lia).
  destruct (execute_simple_command_runs c h hn Hcurl Hhost
              ["RNTO " +:+ absolute new] "Rename failed"
              (after_alloc (after_alloc w)) Hfit)
    as (r & c' & w' & sent & Hrun & Hwire & _ & Hq & _).
  { rewrite !next_script_after_alloc. exact Hvol. }
  exists r, c', w', sent. split; [exact Hrun|].
  rewrite Hwire, !wire_after_alloc. auto.
Qed.

(** [ftp_client_execute_command] with memory to spare once the list node
    has been asked for. *)
Lemma execute_command_runs cmd resp w :
  required_len hn (Some "/"%string) <= FTP_MAX_URL_LENGTH ->
  memory_suffices (after_alloc w) = true ->
  data_volume (xfer_events (next_script w)) + 1 <= 2 ^ 63 ->
  exists c' resp' w' sent mem,
    ftp_client_execute_command (Some c) (Some cmd) resp w
    = Some (upload_status (file_transfer_result c (next_script w)), Some c', resp', w') /\
    wire w' = wire w ++ [sent] /\
    curl_getopt sent CURLOPT_QUOTE
    = Some (OptSlist (if next_alloc_fails w then [] else [cmd])) /\
    (file_transfer_result c (next_script w) = CURLE_OK ->
     resp' = match resp with Some _ => Some (data mem) | None => None end) /\
    (file_transfer_result c (next_script w) <> CURLE_OK -> resp' = resp) /\
    buffer_holds mem (received (played c (xfer_events (next_script w)))) /\
    (data mem = None <->
     existsb sends_data (played c (xfer_events (next_script w))) = false).
Proof.
  intros Hfit Hheap Hvol.
  unfold ftp_client_execute_command. rewrite Hcurl.
  unfold bind at 1. rewrite (build_ftp_url_fits c hn Hhost (Some "/"%string)) by assumption.
  unfold lift at 1.
  unfold bind at 1. unfold curl_slist_append, bind at 1. rewrite alloc_eq.
  unfold ret at 1.
  set (commands := if negb (next_alloc_fails w) then _ else _).
  set (h' := curl_easy_setopt _ CURLOPT_WRITEDATA _).
  assert (Hm : writes_to_memory h' = true)
    by (unfold writes_to_memory, h'; getopt; reflexivity).
  assert (Hr : curl_getopt h' CURLOPT_READFUNCTION = None).
  { unfold h'. getopt. rewrite setup_curl_common_other by auto. getopt. reflexivity. }
  assert (Hp : progress_enabled h' = observer_set c)
    by (unfold h', progress_enabled; getopt; apply setup_curl_common_progress).
  assert (Hq : curl_getopt h' CURLOPT_QUOTE
               = Some (OptSlist (if next_alloc_fails w then [] else [cmd]))).
  { unfold h', commands. getopt. destruct (next_alloc_fails w); reflexivity. }
  destruct (curl_easy_perform_collects h' c Hm Hr Hp (after_alloc w) Hheap)
    as (h2 & l2 & w2 & Hrun & _ & _ & Hholds & Hnull & Hwire & _).
  { rewrite next_script_after_alloc. exact Hvol. }
  rewrite next_script_after_alloc in *. rewrite wire_after_alloc in Hwire.
  unfold bind at 1. rewrite Hrun.
  unfold upload_status.
  destruct (file_transfer_result c (next_script w) =? CURLE_OK) eqn:Eok.
  - apply Z.eqb_eq in Eok. eexists. eexists. eexists. exists h', (buffer l2).
    split; [reflexivity|]. split; [exact Hwire|]. split; [exact Hq|].
    split; [reflexivity|]. split; [congruence|]. auto.
  - apply Z.eqb_neq in Eok. unfold bind at 1, curl_easy_strerror, gets at 1.
    eexists. eexists. eexists. exists h', (buffer l2).
    split; [reflexivity|]. split; [exact Hwire|]. split; [exact Hq|].
    split; [congruence|]. split; [reflexivity|]. auto.
Qed.

(** What [ftp_client_connect] and [ftp_client_download] send. *)
Lemma connect_sends w :
  hn <> ""%string ->
  required_len hn (Some "/"%string) <= FTP_MAX_URL_LENGTH ->
  memory_suffices w = true ->
  data_volume (xfer_events (next_script w)) + 1 <= 2 ^ 63 ->
  exists r c' w' u,
    ftp_client_connect (Some c) w = Some (r, Some c', w') /\
    wire w' = wire w
              ++ [curl_easy_setopt
                    (curl_easy_setopt
                       (setup_curl_common c
                          (curl_easy_setopt (curl_easy_reset h) CURLOPT_URL u))
                       CURLOPT_WRITEFUNCTION (OptFn fn_write_memory_callback))
                    CURLOPT_WRITEDATA (OptPtr ptr_buffer)].
Proof.
  intros Hne Hfit Hheap Hvol.
  unfold ftp_client_connect. rewrite Hcurl, Hhost.
  destruct hn as [|ch rest] eqn:Ehn; [congruence|]. rewrite <- Ehn in *.
  unfold bind at 1. rewrite (build_ftp_url_fits c hn Hhost (Some "/"%string)) by assumption.
  unfold lift at 1.
  set (h' := curl_easy_setopt _ CURLOPT_WRITEDATA _).
  assert (Hm : writes_to_memory h' = true)
    by (unfold writes_to_memory, h'; getopt; reflexivity).
  assert (Hr : curl_getopt h' CURLOPT_READFUNCTION = None).
  { unfold h'. getopt. rewrite setup_curl_common_other by auto. getopt. reflexivity. }
  assert (Hp : progress_enabled h' = observer_set c)
    by (unfold h', progress_enabled; getopt; apply setup_curl_common_progress).
  destruct (curl_easy_perform_collects h' c Hm Hr Hp w Hheap Hvol)
    as (h2 & l2 & w2 & Hrun & _ & _ & _ & _ & Hwire & _).
  unfold bind at 1. rewrite Hrun.
  destruct (file_transfer_result c (next_script w) =? CURLE_OK).
  - do 4 eexists. split; [reflexivity|]. exact Hwire.
  - unfold bind at 1, curl_easy_strerror, gets at 1.
    destruct (file_transfer_result c (next_script w) =? CURLE_LOGIN_DENIED);
      [|destruct (file_transfer_result c (next_script w) =? CURLE_OPERATION_TIMEDOUT)];
      (do 4 eexists; split; [reflexivity|]; exact Hwire).
Qed.

Lemma download_sends rp lp w :
  lp ∉ readonly w ->
  required_len hn (Some rp) <= FTP_MAX_URL_LENGTH ->
  exists r c' w' u,
    ftp_client_download (Some c) (Some rp) (Some lp) w = Some (r, Some c', w') /\
    wire w' = wire w
              ++ [curl_easy_setopt
                    (curl_easy_setopt
                       (setup_curl_common c
                          (curl_easy_setopt (curl_easy_reset h) CURLOPT_URL u))
                       CURLOPT_WRITEFUNCTION (OptFn fn_write_file_callback))
                    CURLOPT_WRITEDATA (OptPtr ptr_fp)].
Proof.
  intros Hro Hfit.
  unfold ftp_client_download. rewrite Hcurl.
  unfold bind at 1. unfold fopen. rewrite decide_False by assumption.
  unfold bind at 1. rewrite (build_ftp_url_fits c hn Hhost (Some rp)) by assumption.
  unfold lift at 1.
  set (h' := curl_easy_setopt _ CURLOPT_WRITEDATA _).
  set (w1 := set_fs _ w).
  set (f := {| file_path := lp; file_pos := 0 |}).
  assert (Hw : curl_getopt h' CURLOPT_WRITEFUNCTION = Some (OptFn fn_write_file_callback))
    by (unfold h'; getopt; reflexivity).
  assert (Hr : curl_getopt h' CURLOPT_READFUNCTION = None).
  { unfold h'. getopt. rewrite setup_curl_common_other by auto. getopt. reflexivity. }
  assert (Hp : progress_enabled h' = observer_set c)
    by (unfold h', progress_enabled; getopt; apply setup_curl_common_progress).
  destruct (curl_easy_perform_appends h' c Hw Hr Hp
              {| buffer := no_buffer; fp := Some f |} f w1 [])
    as (h2 & l2 & w2 & Hrun & _ & _ & Hwire & _).
  { reflexivity. }
  { unfold w1. simpl. apply lookup_insert_eq. }
  change (wire w1) with (wire w) in Hwire.
  unfold bind at 1. rewrite Hrun.
  unfold fclose, bind at 1, ret at 1.
  destruct (file_transfer_result c (next_script w1) =? CURLE_OK).
  - do 4 eexists. split; [reflexivity|]. exact Hwire.
  - unfold bind at 1, curl_easy_strerror, gets at 1.
    unfold bind at 1, remove, modify at 1.
    destruct (file_transfer_result c (next_script w1) =? CURLE_REMOTE_FILE_NOT_FOUND);
      (do 4 eexists; split; [reflexivity|]; exact Hwire).
Qed.

End Commands.

(** ** The out-pointers of the listing and of the raw command *)

Lemma list_dir_out_frame client rp out w r c' out' w' :
  ftp_client_list_dir client rp out w = Some (r, c', out', w') ->
  r <> FTP_OK -> out' = out.
Proof.
  unfold ftp_client_list_dir.
  destruct client as [c|]; [|intros [= <- <- <- <-]; reflexivity].
  destruct out as [out|]; [|intros [= <- <- <- <-]; reflexivity].
  destruct (curl c) as [h|]; [|intros [= <- <- <- <-]; reflexivity].
  intros H. apply bind_inv in H as (p & w1 & Hp & H).
  cbv zeta in H.
  apply bind_inv in H as ([code url] & w2 & Hurl & H).
  destruct code; try (unfold ret in H; injection H as <- <- <- <-; reflexivity).
  apply bind_inv in H as ([[res h2] l2] & w3 & Hperf & H). cbn beta iota zeta in H.
  destruct (res =? CURLE_OK).
  { unfold ret in H. injection H as <- <- <- <-. congruence. }
  apply bind_inv in H as (msg & w5 & Hmsg & H).
  unfold ret in H. injection H as <- <- <- <-. reflexivity.
Qed.

Lemma execute_command_out_frame client cmd resp w r c' resp' w' :
  ftp_client_execute_command client cmd resp w = Some (r, c', resp', w') ->
  (r <> FTP_OK -> resp' = resp) /\ (resp = None -> resp' = None).
Proof.
  unfold ftp_client_execute_command.
  destruct client as [c|]; [|intros [= <- <- <- <-]; auto].
  destruct cmd as [cmd|]; [|intros [= <- <- <- <-]; auto].
  destruct (curl c) as [h|]; [|intros [= <- <- <- <-]; auto].
  intros H.
  apply bind_inv in H as ([code url] & w2 & Hurl & H).
  destruct code; try (unfold ret in H; injection H as <- <- <- <-; auto).
  apply bind_inv in H as (commands & w3 & Hlist & H).
  apply bind_inv in H as ([[res h2] l2] & w4 & Hperf & H). cbn beta iota zeta in H.
  destruct (res =? CURLE_OK).
  { unfold ret in H. injection H as <- <- <- <-.
    split; [congruence|]. intros ->. reflexivity. }
  apply bind_inv in H as (msg & w5 & Hmsg & H).
  unfold ret in H. injection H as <- <- <- <-. auto.
Qed.

(** ** Transfers the observer stops

    The observer lets a first part of the transfer pass and answers the
    progress report that follows with a value that ends the transfer. *)

Lemma double_of_off_t_exact x : Z.abs x < 2 ^ 53 -> double_of_off_t x = x.
Proof.
  intros H. unfold double_of_off_t. cbv zeta.
  apply Z.ltb_lt in H. rewrite H. reflexivity.
Qed.

Example double_of_off_t_rounds :
  double_of_off_t (2 ^ 53 + 1) = 2 ^ 53 /\
  double_of_off_t (2 ^ 53 + 3) = 2 ^ 53 + 4 /\
  double_of_off_t (2 ^ 63 - 1) = 2 ^ 63 /\
  double_of_off_t (- (2 ^ 53 + 1)) = - 2 ^ 53.
Proof. vm_compute. repeat split; reflexivity. Qed.



Section StoppedTransfer.

Variables (c : ftp_client_t) (dltotal dlnow ultotal ulnow : Z).
Variables (pre post : list xfer_event).
Hypothesis Hpre : forallb (observer_continues c) pre = true.
Hypothesis Hstop :
  progress_continues (progress_callback_wrapper c dltotal dlnow ultotal ulnow) = false.
Hypothesis Hvol : data_volume pre + 1 <= 2 ^ 63.





Variables (h : CURL) (hn : string).
Hypothesis Hcurl : curl c = Some h.
Hypothesis Hhost : host (config c) = Some hn.









End StoppedTransfer.

(** * The claims *)

(** C1, counterexample: the size query of a missing path ends in
    FTP_ERROR_TRANSFER, which is not FTP_ERROR_FILE_NOT_FOUND. *)
Lemma filesize_of_missing_path :
  exists c' w',
    ftp_client_get_filesize (Some example_client) (Some "/missing.txt"%string)
      (Some 7) (serving missing_file)
    = Some (FTP_ERROR_TRANSFER, c', Some 7, w') /\
    FTP_ERROR_TRANSFER <> FTP_ERROR_FILE_NOT_FOUND.
Proof.
  eexists. eexists. split; [vm_compute; reflexivity|discriminate].
Qed.

(** C1: a remote path that does not exist (the transfer carries no data
    and ends with CURLE_REMOTE_FILE_NOT_FOUND, the observer not
    interfering): [ftp_client_download] returns FTP_ERROR_FILE_NOT_FOUND,
    [ftp_client_get_filesize] returns FTP_ERROR_TRANSFER and leaves the
    size variable alone. *)
Theorem missing_remote_path c h hn rp lp old w t rest :
  curl c = Some h -> host (config c) = Some hn ->
  required_len hn (Some rp) <= FTP_MAX_URL_LENGTH ->
  lp ∉ readonly w ->
  net w = t :: rest ->
  xfer_result t = CURLE_REMOTE_FILE_NOT_FOUND ->
  forallb carries_no_data (xfer_events t) = true ->
  forallb (observer_continues c) (xfer_events t) = true ->
  (exists c' w',
     ftp_client_download (Some c) (Some rp) (Some lp) w
     = Some (FTP_ERROR_FILE_NOT_FOUND, Some c', w')) /\
  (exists c' w',
     ftp_client_get_filesize (Some c) (Some rp) (Some old) w
     = Some (FTP_ERROR_TRANSFER, Some c', Some old, w')).
Proof.
  intros Hc Hh Hfit Hro Hnet Hres Hnodata Hsilent.
  assert (Hscript : next_script w = t) by (unfold next_script; rewrite Hnet; reflexivity).
  assert (Hresult : file_transfer_result c t = CURLE_REMOTE_FILE_NOT_FOUND).
  { unfold file_transfer_result. rewrite observed_silent by assumption. exact Hres. }
  split.
  - destruct (download_runs c h hn Hc Hh rp lp w Hro Hfit) as (c' & w' & Hrun & _).
    rewrite Hscript, Hresult in Hrun. exists c', w'. exact Hrun.
  - destruct (get_filesize_no_data c h hn Hc Hh rp old w Hfit) as (c' & w' & Hrun & _).
    { rewrite Hscript. exact Hnodata. }
    rewrite Hscript, Hresult in Hrun. exists c', w'. exact Hrun.
Qed.

Lemma missing_remote_path_witness :
  curl example_client = Some fresh_handle /\
  host (config example_client) = Some "ftp.example.com"%string /\
  (required_len "ftp.example.com" (Some "/missing.txt"%string) <= FTP_MAX_URL_LENGTH) /\
  ("out.txt"%string ∉ readonly (serving missing_file)) /\
  net (serving missing_file) = missing_file :: [] /\
  xfer_result missing_file = CURLE_REMOTE_FILE_NOT_FOUND /\
  forallb carries_no_data (xfer_events missing_file) = true /\
  forallb (observer_continues example_client) (xfer_events missing_file) = true /\
  (exists c' w',
     ftp_client_download (Some example_client) (Some "/missing.txt"%string)
       (Some "out.txt"%string) (serving missing_file)
     = Some (FTP_ERROR_FILE_NOT_FOUND, Some c', w')) /\
  (exists c' w',
     ftp_client_get_filesize (Some example_client) (Some "/missing.txt"%string)
       (Some 7) (serving missing_file)
     = Some (FTP_ERROR_TRANSFER, Some c', Some 7, w')).
Proof.
  assert (H1 : curl example_client = Some fresh_handle) by reflexivity.
  assert (H2 : host (config example_client) = Some "ftp.example.com"%string)
    by reflexivity.
  assert (H3 : required_len "ftp.example.com" (Some "/missing.txt"%string)
               <= FTP_MAX_URL_LENGTH) by (vm_compute; discriminate).
  assert (H4 : "out.txt"%string ∉ readonly (serving missing_file))
    by (simpl; apply not_elem_of_empty).
  assert (H5 : net (serving missing_file) = missing_file :: []) by reflexivity.
  assert (H6 : xfer_result missing_file = CURLE_REMOTE_FILE_NOT_FOUND) by reflexivity.
  assert (H7 : forallb carries_no_data (xfer_events missing_file) = true)
    by reflexivity.
  assert (H8 : forallb (observer_continues example_client) (xfer_events missing_file)
               = true) by reflexivity.
  repeat (split; [assumption|]).
  exact (missing_remote_path example_client fresh_handle "ftp.example.com"
           "/missing.txt" "out.txt" 7 (serving missing_file) missing_file []
           H1 H2 H3 H4 H5 H6 H7 H8).
Defined.




(** C3, at paths longer than the command buffers: what goes out is cut
    to 511 characters, so neither command carries the path it was given,
    and the two commands name the same file. *)
Theorem rename_cuts_long_paths :
  exists r c' w' sent,
    ftp_client_rename (Some example_client) (Some (long_name "1"))
      (Some (long_name "2")) world0 = Some (r, c', w') /\
    wire w' = [sent] /\
    curl_getopt sent CURLOPT_QUOTE
    = Some (OptSlist ["RNFR " +:+ cut_name; "RNTO " +:+ cut_name]) /\
    strlen ("RNFR " +:+ cut_name) = 511 /\
    strlen ("RNFR " +:+ long_name "1") = 513.
Proof.
  do 4 eexists. split; [vm_compute; reflexivity|].
  split; [reflexivity|]. split; [vm_compute; reflexivity|].
  split; vm_compute; reflexivity.
Qed.

(** C4, at ports 0 and 70000: [ftp_client_set_host] does not return
    FTP_ERROR_INVALID_PARAM.  It returns FTP_OK, replaces the host, and
    leaves the port at the 21 it was. *)
Theorem set_host_accepts_bad_port :
  exists c0 w0 c1 w1,
    ftp_client_set_host (Some example_client) (Some "other.example.com"%string) 0 world0
    = Some (FTP_OK, Some c0, w0) /\
    ftp_client_set_host (Some example_client) (Some "other.example.com"%string) 70000
      world0
    = Some (FTP_OK, Some c1, w1) /\
    host (config c1) = Some "other.example.com"%string /\
    port (config c1) = 21 /\
    FTP_OK <> FTP_ERROR_INVALID_PARAM.
Proof.
  do 4 eexists. split; [vm_compute; reflexivity|]. split; [vm_compute; reflexivity|].
  split; [reflexivity|]. split; [reflexivity|]. discriminate.
Qed.

(** The same at every port outside 1..65535: the call stores the host,
    keeps the port it had and returns FTP_OK, or FTP_ERROR_MEMORY when the
    host cannot be copied. *)
Lemma set_host_ignores_bad_port c name p w :
  p < 1 \/ 65535 < p ->
  exists r c',
    ftp_client_set_host (Some c) (Some name) p w = Some (r, Some c', after_alloc w) /\
    port (config c') = port (config c) /\
    (next_alloc_fails w = false -> r = FTP_OK /\ host (config c') = Some name) /\
    (next_alloc_fails w = true -> r = FTP_ERROR_MEMORY /\ host (config c') = None).
Proof.
  intros Hp. unfold ftp_client_set_host, strdup.
  unfold bind at 1. unfold bind at 1. rewrite alloc_eq. unfold ret at 1.
  destruct (next_alloc_fails w); cbn [negb].
  - eexists. eexists. split; [reflexivity|]. simpl.
    split; [reflexivity|]. split; [discriminate|auto].
  - assert (E : (0 <? p) && (p <=? 65535) = false).
    { apply andb_false_iff. destruct Hp; [left; apply Z.ltb_ge|right; apply Z.leb_gt]; lia. }
    rewrite E. eexists. eexists. split; [reflexivity|]. simpl.
    split; [reflexivity|]. split; [auto|discriminate].
Qed.

Lemma set_host_ignores_bad_port_witness :
  (70000 < 1 \/ 65535 < 70000) /\
  exists r c',
    ftp_client_set_host (Some example_client) (Some "other.example.com"%string) 70000
      world0
    = Some (r, Some c', after_alloc world0) /\
    port (config c') = port (config example_client) /\
    (next_alloc_fails world0 = false ->
     r = FTP_OK /\ host (config c') = Some "other.example.com"%string) /\
    (next_alloc_fails world0 = true -> r = FTP_ERROR_MEMORY /\ host (config c') = None).
Proof.
  assert (H : 70000 < 1 \/ 65535 < 70000) by (right; lia).
  split; [exact H|].
  exact (set_host_ignores_bad_port example_client "other.example.com" 70000 world0 H).
Defined.

(** C5: memory permitting, [ftp_client_init_config] fills the
    configuration with port 21, user "anonymous", password
    "user@example.com", passive mode, no SSL, verification on, timeouts 60
    and 30, verbose off, and [ftp_client_create] yields a client with that
    configuration. *)
Theorem default_configuration cfg w :
  allocations_succeed 4 w = true ->
  (exists w',
     ftp_client_init_config (Some cfg) w
     = Some ({| host := None; port := 21;
                username := Some "anonymous"%string;
                password := Some "user@example.com"%string;
                mode := FTP_MODE_PASSIVE; ssl_mode := FTP_SSL_NONE;
                verify_ssl := 1; timeout := 60; connect_timeout := 30;
                verbose := 0; progress_callback := None;
                progress_user_data := 0 |}, w')) /\
  (exists h w',
     ftp_client_create w
     = Some (Some {| curl := Some h;
                     config := {| host := None; port := 21;
                                  username := Some "anonymous"%string;
                                  password := Some "user@example.com"%string;
                                  mode := FTP_MODE_PASSIVE; ssl_mode := FTP_SSL_NONE;
                                  verify_ssl := 1; timeout := 60;
                                  connect_timeout := 30; verbose := 0;
                                  progress_callback := None;
                                  progress_user_data := 0 |};
                     last_error := ""%string |}, w')).
Proof.
  intros H4. split.
  - destruct (alloc_succeeds 3 w H4) as [E1 H3].
    destruct (alloc_succeeds 2 _ H3) as [E2 _].
    unfold ftp_client_init_config, strdup.
    unfold bind at 1. unfold bind at 1. rewrite E1. unfold ret at 1.
    unfold bind at 1. unfold bind at 1. rewrite E2. unfold ret at 1.
    eexists. reflexivity.
  - destruct (alloc_succeeds 3 w H4) as [E1 H3].
    destruct (alloc_succeeds 2 _ H3) as [E2 H2].
    destruct (alloc_succeeds 1 _ H2) as [E3 H1].
    destruct (alloc_succeeds 0 _ H1) as [E4 _].
    unfold ftp_client_create.
    unfold bind at 1. rewrite E1.
    unfold bind at 1. unfold curl_easy_init. unfold bind at 1. rewrite E2. unfold ret at 1.
    unfold bind at 1. unfold ftp_client_init_config, strdup.
    unfold bind at 1. unfold bind at 1. rewrite E3. unfold ret at 1.
    unfold bind at 1. unfold bind at 1. rewrite E4. unfold ret at 1.
    eexists. eexists. reflexivity.
Qed.

Lemma default_configuration_witness :
  allocations_succeed 4 world0 = true /\
  (exists w',
     ftp_client_init_config (Some zeroed_config) world0
     = Some ({| host := None; port := 21;
                username := Some "anonymous"%string;
                password := Some "user@example.com"%string;
                mode := FTP_MODE_PASSIVE; ssl_mode := FTP_SSL_NONE;
                verify_ssl := 1; timeout := 60; connect_timeout := 30;
                verbose := 0; progress_callback := None;
                progress_user_data := 0 |}, w')) /\
  (exists h w',
     ftp_client_create world0
     = Some (Some {| curl := Some h;
                     config := {| host := None; port := 21;
                                  username := Some "anonymous"%string;
                                  password := Some "user@example.com"%string;
                                  mode := FTP_MODE_PASSIVE; ssl_mode := FTP_SSL_NONE;
                                  verify_ssl := 1; timeout := 60;
                                  connect_timeout := 30; verbose := 0;
                                  progress_callback := None;
                                  progress_user_data := 0 |};
                     last_error := ""%string |}, w')).
Proof.
  assert (H : allocations_succeed 4 world0 = true) by reflexivity.
  split; [exact H|].
  exact (default_configuration zeroed_config world0 H).
Defined.

(** C6, counterexample: host "h" and a relative path of 2033 characters
    fill the 2048 bytes exactly.  The path is accepted and its URL
    constructed; the same path with '/' in front is refused and no URL is
    constructed. *)
Lemma build_ftp_url_edge :
  begins_with_slash edge_path = false /\
  required_len "h" (Some edge_path) = FTP_MAX_URL_LENGTH /\
  build_ftp_url edge_client (Some edge_path) FTP_MAX_URL_LENGTH
  = Some (FTP_OK, Some ("ftp://h:21/" +:+ edge_path)) /\
  build_ftp_url edge_client (Some ("/" +:+ edge_path)) FTP_MAX_URL_LENGTH
  = Some (FTP_ERROR_INVALID_PARAM, None).
Proof. vm_compute. repeat split; reflexivity. Qed.

(** C6: with the host set, for a path p that does not begin with '/',
    [build_ftp_url] accepts p in a buffer of at least
    strlen host + strlen p + 14 bytes and p with '/' in front in one of
    at least a byte more; the URL it constructs is the same for both,
    ftp://host:port/ followed by p, cut to the buffer. *)
Theorem build_ftp_url_prepends_slash c hn p url_size :
  host (config c) = Some hn ->
  begins_with_slash p = false ->
  build_ftp_url c (Some p) url_size
  = (if url_size <? strlen hn + strlen p + 14
     then Some (FTP_ERROR_INVALID_PARAM, None)
     else Some (FTP_OK,
                Some (snprintf url_size
                        ("ftp://" +:+ hn +:+ ":" +:+ format_d (port (config c))
                         +:+ "/" +:+ p)))) /\
  build_ftp_url c (Some ("/" +:+ p)) url_size
  = (if url_size <? strlen hn + strlen p + 15
     then Some (FTP_ERROR_INVALID_PARAM, None)
     else Some (FTP_OK,
                Some (snprintf url_size
                        ("ftp://" +:+ hn +:+ ":" +:+ format_d (port (config c))
                         +:+ "/" +:+ p)))).
Proof.
  intros Hh Hrel. unfold build_ftp_url. rewrite Hh.
  assert (Hlen : required_len hn (Some p) = strlen hn + strlen p + 14)
    by (unfold required_len, strlen; simpl; lia).
  assert (Hlen' : required_len hn (Some ("/" +:+ p)) = strlen hn + strlen p + 15)
    by (unfold required_len; rewrite strlen_append; unfold strlen; simpl; lia).
  rewrite Hlen, Hlen'. unfold url_text.
  rewrite Hrel, begins_with_slash_prepended. split; reflexivity.
Qed.

Lemma build_ftp_url_prepends_slash_witness :
  host (config example_client) = Some "ftp.example.com"%string /\
  begins_with_slash "pub/readme.txt" = false /\
  build_ftp_url example_client (Some "pub/readme.txt"%string) FTP_MAX_URL_LENGTH
  = (if FTP_MAX_URL_LENGTH <? strlen "ftp.example.com" + strlen "pub/readme.txt" + 14
     then Some (FTP_ERROR_INVALID_PARAM, None)
     else Some (FTP_OK,
                Some (snprintf FTP_MAX_URL_LENGTH
                        ("ftp://" +:+ "ftp.example.com" +:+ ":"
                         +:+ format_d (port (config example_client))
                         +:+ "/" +:+ "pub/readme.txt")))) /\
  build_ftp_url example_client (Some ("/" +:+ "pub/readme.txt")) FTP_MAX_URL_LENGTH
  = (if FTP_MAX_URL_LENGTH <? strlen "ftp.example.com" + strlen "pub/readme.txt" + 15
     then Some (FTP_ERROR_INVALID_PARAM, None)
     else Some (FTP_OK,
                Some (snprintf FTP_MAX_URL_LENGTH
                        ("ftp://" +:+ "ftp.example.com" +:+ ":"
                         +:+ format_d (port (config example_client))
                         +:+ "/" +:+ "pub/readme.txt")))).
Proof.
  assert (H1 : host (config example_client) = Some "ftp.example.com"%string)
    by reflexivity.
  assert (H2 : begins_with_slash "pub/readme.txt" = false) by reflexivity.
  split; [exact H1|]. split; [exact H2|].
  exact (build_ftp_url_prepends_slash example_client "ftp.example.com" "pub/readme.txt"
           FTP_MAX_URL_LENGTH H1 H2).
Defined.

(** C7: once the local file has been created and the transfer started,
    [ftp_client_download] returns, and whenever it returns an error the
    local file is gone; on success the file is there. *)
Theorem failed_download_removes_file c h hn rp lp w :
  curl c = Some h -> host (config c) = Some hn ->
  lp ∉ readonly w ->
  required_len hn (Some rp) <= FTP_MAX_URL_LENGTH ->
  exists r c' w',
    ftp_client_download (Some c) (Some rp) (Some lp) w = Some (r, Some c', w') /\
    (r <> FTP_OK -> fs w' !! lp = None) /\
    (r = FTP_OK -> is_Some (fs w' !! lp)) /\
    (r = FTP_OK <-> file_transfer_result c (next_script w) = CURLE_OK).
Proof.
  intros Hc Hh Hro Hfit.
  destruct (download_runs c h hn Hc Hh rp lp w Hro Hfit)
    as (c' & w' & Hrun & Hgone & Hkept & _).
  eexists. exists c', w'. split; [exact Hrun|].
  unfold download_status in *.
  destruct (file_transfer_result c (next_script w) =? CURLE_OK) eqn:E.
  - apply Z.eqb_eq in E. split; [congruence|]. split; [auto|]. split; auto.
  - apply Z.eqb_neq in E.
    destruct (file_transfer_result c (next_script w) =? CURLE_REMOTE_FILE_NOT_FOUND);
      (split; [auto|]; split; [discriminate|]; split; [discriminate|contradiction]).
Qed.

Lemma failed_download_removes_file_witness :
  curl example_client = Some fresh_handle /\
  host (config example_client) = Some "ftp.example.com"%string /\
  ("out.txt"%string ∉ readonly (serving missing_file)) /\
  (required_len "ftp.example.com" (Some "/missing.txt"%string) <= FTP_MAX_URL_LENGTH) /\
  exists r c' w',
    ftp_client_download (Some example_client) (Some "/missing.txt"%string)
      (Some "out.txt"%string) (serving missing_file) = Some (r, Some c', w') /\
    (r <> FTP_OK -> fs w' !! "out.txt"%string = None) /\
    (r = FTP_OK -> is_Some (fs w' !! "out.txt"%string)) /\
    (r = FTP_OK <->
     file_transfer_result example_client (next_script (serving missing_file)) = CURLE_OK).
Proof.
  assert (H1 : curl example_client = Some fresh_handle) by reflexivity.
  assert (H2 : host (config example_client) = Some "ftp.example.com"%string)
    by reflexivity.
  assert (H3 : "out.txt"%string ∉ readonly (serving missing_file))
    by (simpl; apply not_elem_of_empty).
  assert (H4 : required_len "ftp.example.com" (Some "/missing.txt"%string)
               <= FTP_MAX_URL_LENGTH) by (vm_compute; discriminate).
  repeat (split; [assumption|]).
  exact (failed_download_removes_file example_client fresh_handle "ftp.example.com"
           "/missing.txt" "out.txt" (serving missing_file) H1 H2 H3 H4).
Defined.

(** C8: when the space [build_ftp_url] reserves for the URL (the scheme,
    "://", the host, ':', five characters of port, '/', the path and the
    terminator) exceeds FTP_MAX_URL_LENGTH, every operation that puts the
    remote path into the URL returns FTP_ERROR_INVALID_PARAM; nothing is
    put on the wire and no transfer of the server is consumed. *)
Theorem oversize_url_is_rejected c h hn rp up down old out w :
  curl c = Some h -> host (config c) = Some hn ->
  FTP_MAX_URL_LENGTH < required_len hn (Some rp) ->
  is_Some (fs w !! up) -> down ∉ readonly w ->
  (exists c',
     ftp_client_upload (Some c) (Some up) (Some rp) w
     = Some (FTP_ERROR_INVALID_PARAM, Some c', w)) /\
  (exists c' w',
     ftp_client_download (Some c) (Some rp) (Some down) w
     = Some (FTP_ERROR_INVALID_PARAM, Some c', w') /\
     wire w' = wire w /\ net w' = net w) /\
  (exists c',
     ftp_client_get_filesize (Some c) (Some rp) (Some old) w
     = Some (FTP_ERROR_INVALID_PARAM, Some c', Some old, w)) /\
  (exists c',
     ftp_client_list_dir (Some c) (Some rp) (Some out) w
     = Some (FTP_ERROR_INVALID_PARAM, Some c', Some out, w)).
Proof.
  intros Hc Hh Hbig [content Hfile] Hro.
  split; [|split; [|split]].
  - unfold ftp_client_upload. rewrite Hc.
    unfold bind at 1. unfold fopen. rewrite Hfile.
    unfold bind at 1. unfold fseek_end at 1, bind at 1, file_contents at 1, gets at 1, ret at 1.
    unfold bind at 1, ftell at 1, ret at 1.
    unfold bind at 1, fseek_set at 1, ret at 1.
    unfold bind at 1. rewrite (build_ftp_url_oversize c hn Hh (Some rp)) by assumption.
    unfold lift at 1. unfold bind at 1, fclose at 1, ret at 1.
    eexists. reflexivity.
  - unfold ftp_client_download. rewrite Hc.
    unfold bind at 1. unfold fopen. rewrite decide_False by assumption.
    unfold bind at 1. rewrite (build_ftp_url_oversize c hn Hh (Some rp)) by assumption.
    unfold lift at 1. unfold bind at 1, fclose at 1, ret at 1.
    eexists. eexists. split; [reflexivity|]. split; reflexivity.
  - unfold ftp_client_get_filesize. rewrite Hc.
    unfold bind at 1. rewrite (build_ftp_url_oversize c hn Hh (Some rp)) by assumption.
    unfold lift at 1. eexists. reflexivity.
  - unfold ftp_client_list_dir. rewrite Hc.
    unfold bind at 1, lift at 1.
    set (dir_path := if (0 <? strlen rp) && _ then _ else _).
    assert (Hdir : FTP_MAX_URL_LENGTH < required_len hn (Some dir_path)).
    { assert (Hlen : Z.min 2047 (strlen rp) <= strlen dir_path).
      { unfold dir_path, FTP_MAX_URL_LENGTH. destruct ((0 <? strlen rp) && _);
          rewrite strlen_snprintf by lia; try rewrite strlen_append;
          unfold strlen; simpl; lia. }
      unfold required_len, FTP_MAX_URL_LENGTH in *.
      pose proof (Nat2Z.is_nonneg (String.length hn)).
      unfold strlen in *. simpl String.length in *. lia. }
    unfold bind at 1. rewrite (build_ftp_url_oversize c hn Hh (Some dir_path)) by assumption.
    unfold lift at 1. eexists. reflexivity.
Qed.

Lemma oversize_url_is_rejected_witness :
  curl example_client = Some fresh_handle /\
  host (config example_client) = Some "ftp.example.com"%string /\
  (FTP_MAX_URL_LENGTH < required_len "ftp.example.com" (Some long_remote_path)) /\
  is_Some (fs upload_world !! "local.bin"%string) /\
  ("copy.bin"%string ∉ readonly upload_world) /\
  (exists c',
     ftp_client_upload (Some example_client) (Some "local.bin"%string)
       (Some long_remote_path) upload_world
     = Some (FTP_ERROR_INVALID_PARAM, Some c', upload_world)) /\
  (exists c' w',
     ftp_client_download (Some example_client) (Some long_remote_path)
       (Some "copy.bin"%string) upload_world
     = Some (FTP_ERROR_INVALID_PARAM, Some c', w') /\
     wire w' = wire upload_world /\ net w' = net upload_world) /\
  (exists c',
     ftp_client_get_filesize (Some example_client) (Some long_remote_path) (Some 7)
       upload_world
     = Some (FTP_ERROR_INVALID_PARAM, Some c', Some 7, upload_world)) /\
  (exists c',
     ftp_client_list_dir (Some example_client) (Some long_remote_path) (Some None)
       upload_world
     = Some (FTP_ERROR_INVALID_PARAM, Some c', Some None, upload_world)).
Proof.
  assert (H1 : curl example_client = Some fresh_handle) by reflexivity.
  assert (H2 : host (config example_client) = Some "ftp.example.com"%string)
    by reflexivity.
  assert (H3 : FTP_MAX_URL_LENGTH < required_len "ftp.example.com" (Some long_remote_path))
    by (vm_compute; reflexivity).
  assert (H4 : is_Some (fs upload_world !! "local.bin"%string))
    by (exists ["x"; "y"; "z"]%char; vm_compute; reflexivity).
  assert (H5 : "copy.bin"%string ∉ readonly upload_world)
    by (simpl; apply not_elem_of_empty).
  repeat (split; [assumption|]).
  exact (oversize_url_is_rejected example_client fresh_handle "ftp.example.com"
           long_remote_path "local.bin" "copy.bin" 7 None upload_world
           H1 H2 H3 H4 H5).
Defined.

(** C9, counterexample. *)
Lemma write_memory_callback_zero_bytes :
  exists mem' w',
    write_memory_callback [] 1 0 no_buffer world0 = Some (0, mem', w') /\
    realloc_fails no_buffer 1 0 world0 = false /\
    capacity mem' = FTP_BUFFER_SIZE /\
    mem' <> no_buffer.
Proof.
  eexists. eexists. split; [vm_compute; reflexivity|].
  split; [reflexivity|]. split; [reflexivity|]. discriminate.
Qed.

(** C9 *)
Theorem write_memory_callback_invariant contents sz nmemb mem w :
  buffer_ok mem -> 0 <= sz -> 0 <= nmemb ->
  size mem + sz * nmemb + 1 <= 2 ^ 63 ->
  Z.of_nat (length contents) = sz * nmemb ->
  exists r mem' w',
    write_memory_callback contents sz nmemb mem w = Some (r, mem', w') /\
    (realloc_fails mem sz nmemb w = true -> r = 0 /\ mem' = mem) /\
    (realloc_fails mem sz nmemb w = false ->
       r = sz * nmemb /\
       size mem' = size mem + sz * nmemb /\
       size mem' + 1 <= capacity mem' /\
       exists blk, data mem' = Some blk /\
                   blk !! Z.to_nat (size mem') = Some Ascii.zero) /\
    (r = 0 <-> realloc_fails mem sz nmemb w = true \/ sz * nmemb = 0).
Proof.
  intros Hok Hsz Hn Hbound Hlen.
  destruct (realloc_fails mem sz nmemb w) eqn:Hf.
  - exists 0, mem, (after_alloc w).
    split; [apply write_memory_callback_fails; assumption|].
    split; [auto|]. split; [discriminate|]. split; auto.
  - destruct (write_memory_callback_succeeds contents sz nmemb mem w)
      as (blk & mem' & Hrun & Hd & Hs & _ & _ & Hc & Hz & _); try assumption.
    exists (sz * nmemb), mem'. eexists. split; [exact Hrun|].
    split; [discriminate|]. split.
    + intros _. repeat split; try assumption. exists blk. split; assumption.
    + split; [auto|]. intros [H|H]; [discriminate|exact H].
Qed.

Lemma write_memory_callback_invariant_witness :
  buffer_ok no_buffer /\ 0 <= 1 /\ 0 <= 2 /\
  size no_buffer + 1 * 2 + 1 <= 2 ^ 63 /\
  Z.of_nat (length ["a"; "b"]%char) = 1 * 2 /\
  exists r mem' w',
    write_memory_callback ["a"; "b"]%char 1 2 no_buffer world0 = Some (r, mem', w') /\
    (realloc_fails no_buffer 1 2 world0 = true -> r = 0 /\ mem' = no_buffer) /\
    (realloc_fails no_buffer 1 2 world0 = false ->
       r = 1 * 2 /\
       size mem' = size no_buffer + 1 * 2 /\
       size mem' + 1 <= capacity mem' /\
       exists blk, data mem' = Some blk /\
                   blk !! Z.to_nat (size mem') = Some Ascii.zero) /\
    (r = 0 <-> realloc_fails no_buffer 1 2 world0 = true \/ 1 * 2 = 0).
Proof.
  assert (H1 : buffer_ok no_buffer) by (unfold buffer_ok; simpl; lia).
  assert (H2 : 0 <= 1) by lia.
  assert (H3 : 0 <= 2) by lia.
  assert (H4 : size no_buffer + 1 * 2 + 1 <= 2 ^ 63) by (simpl; lia).
  assert (H5 : Z.of_nat (length ["a"; "b"]%char) = 1 * 2) by reflexivity.
  repeat (split; [assumption|]).
  exact (write_memory_callback_invariant ["a"; "b"]%char 1 2 no_buffer world0 H1 H2 H3 H4 H5).
Defined.

(** C10: [ftp_client_get_filesize] changes the variable behind [size]
    only when it returns FTP_OK, and then to a value that is not
    negative. *)
Theorem get_filesize_writes_only_on_success client rp sz w r c' sz' w' :
  ftp_client_get_filesize client rp sz w = Some (r, c', sz', w') ->
  (r <> FTP_OK -> sz' = sz) /\
  (r = FTP_OK -> exists v, sz' = Some v /\ 0 <= v).
Proof. apply get_filesize_frame. Qed.

Lemma get_filesize_writes_only_on_success_witness :
  ftp_client_get_filesize (Some example_client) (Some "/missing.txt"%string) (Some 7)
    (serving missing_file)
  = Some (FTP_ERROR_TRANSFER, missing_query_client, Some 7, missing_query_world) /\
  (FTP_ERROR_TRANSFER <> FTP_OK -> Some 7 = Some 7) /\
  (FTP_ERROR_TRANSFER = FTP_OK -> exists v, Some 7 = Some v /\ 0 <= v).
Proof.
  assert (H : ftp_client_get_filesize (Some example_client) (Some "/missing.txt"%string)
                (Some 7) (serving missing_file)
              = Some (FTP_ERROR_TRANSFER, missing_query_client, Some 7,
                      missing_query_world)) by (vm_compute; reflexivity).
  split; [exact H|].
  exact (get_filesize_writes_only_on_success (Some example_client)
           (Some "/missing.txt"%string) (Some 7) (serving missing_file)
           FTP_ERROR_TRANSFER missing_query_client (Some 7) missing_query_world H).
Defined.

(** The error returns of [ftp_client_get_filesize] one by one: a NULL
    argument, a URL that does not fit, a failed transfer, a length that
    libcurl does not know.  The variable keeps its 7 in each. *)
Example get_filesize_error_returns :
  ftp_client_get_filesize None (Some "/f"%string) (Some 7) world0
  = Some (FTP_ERROR_INVALID_PARAM, None, Some 7, world0) /\
  (exists c',
     ftp_client_get_filesize (Some example_client) (Some long_remote_path) (Some 7) world0
     = Some (FTP_ERROR_INVALID_PARAM, c', Some 7, world0)) /\
  (exists c' w',
     ftp_client_get_filesize (Some example_client) (Some "/f"%string) (Some 7) world0
     = Some (FTP_ERROR_TRANSFER, c', Some 7, w')) /\
  (exists c' w',
     ftp_client_get_filesize (Some example_client) (Some "/f"%string) (Some 7)
       (serving {| xfer_events := []; xfer_result := CURLE_OK;
                   xfer_length := (CURLE_OK, -1) |})
     = Some (FTP_ERROR_TRANSFER, c', Some 7, w')) /\
  (exists c' w',
     ftp_client_get_filesize (Some example_client) (Some "/f"%string) (Some 7)
       (serving three_bytes)
     = Some (FTP_OK, c', Some 3, w')).
Proof.
  split; [reflexivity|].
  split; [eexists; vm_compute; reflexivity|].
  split; [do 2 eexists; vm_compute; reflexivity|].
  split; [do 2 eexists; vm_compute; reflexivity|].
  do 2 eexists; vm_compute; reflexivity.
Qed.

(** * Further properties of the code *)

(** ** The memory buffer *)

(** X1: a call of [write_memory_callback] that does not fail keeps the
    bytes stored so far and puts the new ones right after them. *)
Theorem write_memory_callback_appends contents sz nmemb mem w :
  buffer_ok mem -> 0 <= sz -> 0 <= nmemb ->
  size mem + sz * nmemb + 1 <= 2 ^ 63 ->
  Z.of_nat (length contents) = sz * nmemb ->
  realloc_fails mem sz nmemb w = false ->
  exists blk mem' w',
    write_memory_callback contents sz nmemb mem w = Some (sz * nmemb, mem', w') /\
    data mem' = Some blk /\
    take (Z.to_nat (size mem')) blk
    = take (Z.to_nat (size mem)) (default [] (data mem)) ++ contents.
Proof.
  intros Hok Hsz Hn Hbound Hlen Hnofail.
  destruct (write_memory_callback_succeeds contents sz nmemb mem w)
    as (blk & mem' & Hrun & Hd & _ & _ & _ & _ & _ & Ht); try assumption.
  exists blk, mem'. eexists. split; [exact Hrun|]. split; assumption.
Qed.

Lemma write_memory_callback_appends_witness :
  buffer_ok no_buffer /\ 0 <= 1 /\ 0 <= 2 /\
  (size no_buffer + 1 * 2 + 1 <= 2 ^ 63) /\
  Z.of_nat (length ["a"; "b"]%char) = 1 * 2 /\
  realloc_fails no_buffer 1 2 world0 = false /\
  exists blk mem' w',
    write_memory_callback ["a"; "b"]%char 1 2 no_buffer world0
    = Some (1 * 2, mem', w') /\
    data mem' = Some blk /\
    take (Z.to_nat (size mem')) blk
    = take (Z.to_nat (size no_buffer)) (default [] (data no_buffer)) ++ ["a"; "b"]%char.
Proof.
  assert (H1 : buffer_ok no_buffer) by (unfold buffer_ok; simpl; lia).
  assert (H2 : 0 <= 1) by lia.
  assert (H3 : 0 <= 2) by lia.
  assert (H4 : size no_buffer + 1 * 2 + 1 <= 2 ^ 63) by (simpl; lia).
  assert (H5 : Z.of_nat (length ["a"; "b"]%char) = 1 * 2) by reflexivity.
  assert (H6 : realloc_fails no_buffer 1 2 world0 = false) by reflexivity.
  repeat (split; [assumption|]).
  exact (write_memory_callback_appends ["a"; "b"]%char 1 2 no_buffer world0
           H1 H2 H3 H4 H5 H6).
Defined.

(** X2: [write_memory_callback] never shrinks the buffer, and what it
    reserves stays below twice the bytes needed (the data and its
    terminator) unless it is the first block of FTP_BUFFER_SIZE bytes. *)
Theorem write_memory_callback_capacity contents sz nmemb mem w :
  buffer_ok mem -> 0 <= sz -> 0 <= nmemb ->
  size mem + sz * nmemb + 1 <= 2 ^ 63 ->
  Z.of_nat (length contents) = sz * nmemb ->
  exists r mem' w',
    write_memory_callback contents sz nmemb mem w = Some (r, mem', w') /\
    capacity mem <= capacity mem' /\
    (capacity mem' = capacity mem \/ capacity mem' = FTP_BUFFER_SIZE \/
     capacity mem' < 2 * (size mem + sz * nmemb + 1)).
Proof.
  intros Hok Hsz Hn Hbound Hlen.
  assert (Hrun : exists r mem' w',
             write_memory_callback contents sz nmemb mem w = Some (r, mem', w')).
  { destruct (realloc_fails mem sz nmemb w) eqn:Hf.
    - do 3 eexists. apply write_memory_callback_fails; assumption.
    - destruct (write_memory_callback_succeeds contents sz nmemb mem w)
        as (blk & mem' & Hrun & _); try assumption.
      do 3 eexists. exact Hrun. }
  destruct Hrun as (r & mem' & w' & Hrun). exists r, mem', w'.
  split; [exact Hrun|].
  destruct Hok as [[Hs0 Hsc] Hblk].
  assert (Hprod : 0 <= sz * nmemb) by (apply Z.mul_nonneg_nonneg; assumption).
  apply write_memory_callback_inv in Hrun.
  rewrite (wrap_small (sz * nmemb)) in Hrun by lia.
  rewrite (wrap_small (size mem + sz * nmemb)) in Hrun by lia.
  rewrite (wrap_small (size mem + sz * nmemb + 1)) in Hrun by lia.
  destruct Hrun as [->|[Hgrow Hg]]; [split; [lia|auto]|].
  apply Z.ltb_lt in Hgrow.
  destruct (capacity mem =? 0) eqn:E.
  - apply Z.eqb_eq in E.
    destruct (grow_capacity_enough 64 FTP_BUFFER_SIZE (size mem + sz * nmemb + 1))
      as (c' & Hc' & _ & Hr); try (unfold FTP_BUFFER_SIZE; simpl; lia).
    rewrite Hc' in Hg. injection Hg as <-.
    apply grow_capacity_tight in Hc'; [|unfold FTP_BUFFER_SIZE; lia].
    split; [unfold FTP_BUFFER_SIZE in *; lia|]. destruct Hc'; auto.
  - apply Z.eqb_neq in E. rewrite wrap_small in Hg by lia.
    destruct (grow_capacity_enough 64 (capacity mem * 2) (size mem + sz * nmemb + 1))
      as (c' & Hc' & _ & Hr); try (simpl; lia).
    rewrite Hc' in Hg. injection Hg as <-.
    apply grow_capacity_tight in Hc'; [|lia].
    split; [lia|]. right. right. lia.
Qed.

Lemma write_memory_callback_capacity_witness :
  buffer_ok no_buffer /\ 0 <= 1 /\ 0 <= 2 /\
  (size no_buffer + 1 * 2 + 1 <= 2 ^ 63) /\
  Z.of_nat (length ["a"; "b"]%char) = 1 * 2 /\
  exists r mem' w',
    write_memory_callback ["a"; "b"]%char 1 2 no_buffer world0 = Some (r, mem', w') /\
    capacity no_buffer <= capacity mem' /\
    (capacity mem' = capacity no_buffer \/ capacity mem' = FTP_BUFFER_SIZE \/
     capacity mem' < 2 * (size no_buffer + 1 * 2 + 1)).
Proof.
  assert (H1 : buffer_ok no_buffer) by (unfold buffer_ok; simpl; lia).
  assert (H2 : 0 <= 1) by lia.
  assert (H3 : 0 <= 2) by lia.
  assert (H4 : size no_buffer + 1 * 2 + 1 <= 2 ^ 63) by (simpl; lia).
  assert (H5 : Z.of_nat (length ["a"; "b"]%char) = 1 * 2) by reflexivity.
  repeat (split; [assumption|]).
  exact (write_memory_callback_capacity ["a"; "b"]%char 1 2 no_buffer world0
           H1 H2 H3 H4 H5).
Defined.

(** X3: when one call on an empty buffer brings 2^63 bytes or more, the
    doubling loop of [write_memory_callback] never reaches what is needed:
    the capacity wraps to 0 and the loop does not end, whatever the number
    of rounds. *)
Theorem write_memory_callback_loop_never_ends contents sz nmemb w :
  2 ^ 63 <= sz * nmemb < 2 ^ 64 - 1 ->
  (forall fuel, grow_capacity fuel FTP_BUFFER_SIZE (sz * nmemb + 1) = None) /\
  write_memory_callback contents sz nmemb no_buffer w = None.
Proof.
  intros Hbig.
  assert (Hloop : forall fuel, grow_capacity fuel FTP_BUFFER_SIZE (sz * nmemb + 1) = None).
  { change FTP_BUFFER_SIZE with (2 ^ (63 - Z.of_nat 50)).
    apply grow_capacity_power; lia. }
  split; [exact Hloop|].
  unfold write_memory_callback. cbn [size capacity data no_buffer].
  rewrite (wrap_small (sz * nmemb)) by lia.
  rewrite Z.add_0_l.
  rewrite (wrap_small (sz * nmemb)) by lia.
  rewrite (wrap_small (sz * nmemb + 1)) by lia.
  destruct (0 <? sz * nmemb + 1) eqn:E; [|apply Z.ltb_ge in E; lia].
  unfold bind at 1. unfold bind at 1. unfold lift at 1.
  rewrite Z.eqb_refl, Hloop. reflexivity.
Qed.

Lemma write_memory_callback_loop_never_ends_witness :
  (2 ^ 63 <= 2 ^ 63 * 1 < 2 ^ 64 - 1) /\
  (forall fuel, grow_capacity fuel FTP_BUFFER_SIZE (2 ^ 63 * 1 + 1) = None) /\
  write_memory_callback [] (2 ^ 63) 1 no_buffer world0 = None.
Proof.
  assert (H1 : 2 ^ 63 <= 2 ^ 63 * 1 < 2 ^ 64 - 1) by lia.
  split; [exact H1|].
  exact (write_memory_callback_loop_never_ends [] (2 ^ 63) 1 world0 H1).
Defined.

(** ** Directory listings *)

(** X4: a listing that succeeds and brought data hands the caller a
    block that holds exactly the bytes received, in order, followed by a
    NUL. *)
Theorem list_dir_returns_listing c h hn rp out w :
  curl c = Some h -> host (config c) = Some hn ->
  strlen hn + strlen rp + 15 <= FTP_MAX_URL_LENGTH ->
  memory_suffices w = true ->
  data_volume (xfer_events (next_script w)) + 1 <= 2 ^ 63 ->
  file_transfer_result c (next_script w) = CURLE_OK ->
  existsb sends_data (xfer_events (next_script w)) = true ->
  exists c' blk w',
    ftp_client_list_dir (Some c) (Some rp) (Some out) w
    = Some (FTP_OK, Some c', Some (Some blk), w') /\
    take (length (received (xfer_events (next_script w)))) blk
    = received (xfer_events (next_script w)) /\
    blk !! length (received (xfer_events (next_script w))) = Some Ascii.zero.
Proof.
  intros Hc Hh Hfit Hheap Hvol Hres Hdata.
  destruct (list_dir_runs c h hn Hc Hh rp out w Hfit Hheap Hvol)
    as (c' & out' & w' & mem & Hrun & Hok & _ & Hholds & Hnull & _).
  rewrite Hres in Hrun. rewrite (Hok Hres) in Hrun.
  apply file_transfer_result_ok in Hres as [Hobs _].
  rewrite (played_all _ _ Hobs) in Hholds, Hnull.
  destruct (data mem) as [blk|] eqn:Hd.
  - exists c', blk, w'. split; [exact Hrun|]. destruct Hholds as [_ Hholds].
    rewrite Hd in Hholds. exact Hholds.
  - destruct Hnull as [Hnull _]. rewrite Hnull in Hdata by reflexivity. discriminate.
Qed.

Lemma list_dir_returns_listing_witness :
  curl example_client = Some fresh_handle /\
  host (config example_client) = Some "ftp.example.com"%string /\
  (strlen "ftp.example.com" + strlen "/pub" + 15 <= FTP_MAX_URL_LENGTH) /\
  memory_suffices (serving three_bytes) = true /\
  (data_volume (xfer_events (next_script (serving three_bytes))) + 1 <= 2 ^ 63) /\
  file_transfer_result example_client (next_script (serving three_bytes)) = CURLE_OK /\
  existsb sends_data (xfer_events (next_script (serving three_bytes))) = true /\
  exists c' blk w',
    ftp_client_list_dir (Some example_client) (Some "/pub"%string) (Some None)
      (serving three_bytes)
    = Some (FTP_OK, Some c', Some (Some blk), w') /\
    take (length (received (xfer_events (next_script (serving three_bytes))))) blk
    = received (xfer_events (next_script (serving three_bytes))) /\
    blk !! length (received (xfer_events (next_script (serving three_bytes))))
    = Some Ascii.zero.
Proof.
  assert (H1 : curl example_client = Some fresh_handle) by reflexivity.
  assert (H2 : host (config example_client) = Some "ftp.example.com"%string)
    by reflexivity.
  assert (H3 : strlen "ftp.example.com" + strlen "/pub" + 15 <= FTP_MAX_URL_LENGTH)
    by (vm_compute; discriminate).
  assert (H4 : memory_suffices (serving three_bytes) = true) by reflexivity.
  assert (H5 : data_volume (xfer_events (next_script (serving three_bytes))) + 1
               <= 2 ^ 63) by (vm_compute; discriminate).
  assert (H6 : file_transfer_result example_client (next_script (serving three_bytes))
               = CURLE_OK) by reflexivity.
  assert (H7 : existsb sends_data (xfer_events (next_script (serving three_bytes)))
               = true) by reflexivity.
  repeat (split; [assumption|]).
  exact (list_dir_returns_listing example_client fresh_handle "ftp.example.com" "/pub"
           None (serving three_bytes) H1 H2 H3 H4 H5 H6 H7).
Defined.

(** X5: a listing that succeeds without any data (an empty directory)
    returns FTP_OK and stores NULL in [*output]: no block was ever
    allocated. *)
Theorem list_dir_empty_listing c h hn rp out w :
  curl c = Some h -> host (config c) = Some hn ->
  strlen hn + strlen rp + 15 <= FTP_MAX_URL_LENGTH ->
  file_transfer_result c (next_script w) = CURLE_OK ->
  existsb sends_data (xfer_events (next_script w)) = false ->
  exists c' w',
    ftp_client_list_dir (Some c) (Some rp) (Some out) w
    = Some (FTP_OK, Some c', Some None, w').
Proof.
  intros Hc Hh Hfit Hres Hdata.
  destruct (list_dir_without_data c h hn Hc Hh rp out w Hfit Hdata)
    as (c' & w' & Hrun & _).
  rewrite Hres in Hrun. exists c', w'. exact Hrun.
Qed.

Lemma list_dir_empty_listing_witness :
  curl example_client = Some fresh_handle /\
  host (config example_client) = Some "ftp.example.com"%string /\
  (strlen "ftp.example.com" + strlen "/pub" + 15 <= FTP_MAX_URL_LENGTH) /\
  file_transfer_result example_client (next_script (serving empty_directory))
  = CURLE_OK /\
  existsb sends_data (xfer_events (next_script (serving empty_directory))) = false /\
  exists c' w',
    ftp_client_list_dir (Some example_client) (Some "/pub"%string)
      (Some (Some ["x"]%char)) (serving empty_directory)
    = Some (FTP_OK, Some c', Some None, w').
Proof.
  assert (H1 : curl example_client = Some fresh_handle) by reflexivity.
  assert (H2 : host (config example_client) = Some "ftp.example.com"%string)
    by reflexivity.
  assert (H3 : strlen "ftp.example.com" + strlen "/pub" + 15 <= FTP_MAX_URL_LENGTH)
    by (vm_compute; discriminate).
  assert (H4 : file_transfer_result example_client
                 (next_script (serving empty_directory)) = CURLE_OK) by reflexivity.
  assert (H5 : existsb sends_data (xfer_events (next_script (serving empty_directory)))
               = false) by reflexivity.
  repeat (split; [assumption|]).
  exact (list_dir_empty_listing example_client fresh_handle "ftp.example.com" "/pub"
           (Some ["x"]%char) (serving empty_directory) H1 H2 H3 H4 H5).
Defined.

(** X6: [ftp_client_list_dir] adds the '/' that marks a directory: a
    path that does not end in '/' is listed exactly as the same path
    with '/' after it. *)
Theorem list_dir_trailing_slash client rp out w :
  rp <> ""%string ->
  String.get (String.length rp - 1)%nat rp <> Some "/"%char ->
  ftp_client_list_dir client (Some rp) out w
  = ftp_client_list_dir client (Some (rp +:+ "/")) out w.
Proof.
  intros Hne Hlast.
  assert (Hpos : (0 < String.length rp)%nat) by (destruct rp; [congruence|simpl; lia]).
  assert (E1 : (0 <? strlen rp)
               && negb (bool_decide
                          (String.get (Z.to_nat (strlen rp - 1)) rp = Some "/"%char))
               = true).
  { apply andb_true_iff. split; [apply Z.ltb_lt; unfold strlen; lia|].
    replace (Z.to_nat (strlen rp - 1)) with (String.length rp - 1)%nat
      by (unfold strlen; lia).
    rewrite bool_decide_eq_false_2 by assumption. reflexivity. }
  assert (E2 : (0 <? strlen (rp +:+ "/"))
               && negb (bool_decide
                          (String.get (Z.to_nat (strlen (rp +:+ "/") - 1)) (rp +:+ "/")
                           = Some "/"%char))
               = false).
  { apply andb_false_iff. right.
    replace (Z.to_nat (strlen (rp +:+ "/") - 1)) with (String.length rp)
      by (rewrite strlen_append; unfold strlen; simpl; lia).
    rewrite bool_decide_eq_true_2 by apply get_append_last. reflexivity. }
  unfold ftp_client_list_dir.
  destruct client as [c|]; [|reflexivity].
  destruct out as [out|]; [|reflexivity].
  destruct (curl c) as [h|]; [|reflexivity].
  unfold bind at 1, lift at 1. rewrite E1.
  symmetry. unfold bind at 1, lift at 1. rewrite E2. reflexivity.
Qed.

Lemma list_dir_trailing_slash_witness :
  "pub"%string <> ""%string /\
  String.get (String.length "pub" - 1)%nat "pub" <> Some "/"%char /\
  ftp_client_list_dir (Some example_client) (Some "pub"%string) (Some None)
    (serving three_bytes)
  = ftp_client_list_dir (Some example_client) (Some ("pub" +:+ "/")) (Some None)
      (serving three_bytes).
Proof.
  assert (H1 : "pub"%string <> ""%string) by discriminate.
  assert (H2 : String.get (String.length "pub" - 1)%nat "pub" <> Some "/"%char)
    by (vm_compute; discriminate).
  split; [exact H1|]. split; [exact H2|].
  exact (list_dir_trailing_slash (Some example_client) "pub" (Some None)
           (serving three_bytes) H1 H2).
Defined.

(** ** Files *)

(** X7: a download that succeeds leaves in the local file exactly the
    bytes received, in order, and touches no other file. *)
Theorem download_stores_received_bytes c h hn rp lp w :
  curl c = Some h -> host (config c) = Some hn ->
  lp ∉ readonly w ->
  required_len hn (Some rp) <= FTP_MAX_URL_LENGTH ->
  file_transfer_result c (next_script w) = CURLE_OK ->
  exists c' w',
    ftp_client_download (Some c) (Some rp) (Some lp) w = Some (FTP_OK, Some c', w') /\
    fs w' !! lp = Some (received (xfer_events (next_script w))) /\
    (forall p, p <> lp -> fs w' !! p = fs w !! p).
Proof.
  intros Hc Hh Hro Hfit Hres.
  destruct (download_collects c h hn Hc Hh rp lp w Hro Hfit)
    as (c' & w' & Hrun & Hfile & Hothers & _).
  rewrite Hres in Hrun. specialize (Hfile Hres).
  apply file_transfer_result_ok in Hres as [Hobs _].
  rewrite (played_all _ _ Hobs) in Hfile.
  exists c', w'. split; [exact Hrun|]. split; assumption.
Qed.

Lemma download_stores_received_bytes_witness :
  curl example_client = Some fresh_handle /\
  host (config example_client) = Some "ftp.example.com"%string /\
  ("copy.bin"%string ∉ readonly (serving three_bytes)) /\
  (required_len "ftp.example.com" (Some "/f"%string) <= FTP_MAX_URL_LENGTH) /\
  file_transfer_result example_client (next_script (serving three_bytes)) = CURLE_OK /\
  exists c' w',
    ftp_client_download (Some example_client) (Some "/f"%string)
      (Some "copy.bin"%string) (serving three_bytes) = Some (FTP_OK, Some c', w') /\
    fs w' !! "copy.bin"%string
    = Some (received (xfer_events (next_script (serving three_bytes)))) /\
    (forall p, p <> "copy.bin"%string -> fs w' !! p = fs (serving three_bytes) !! p).
Proof.
  assert (H1 : curl example_client = Some fresh_handle) by reflexivity.
  assert (H2 : host (config example_client) = Some "ftp.example.com"%string)
    by reflexivity.
  assert (H3 : "copy.bin"%string ∉ readonly (serving three_bytes))
    by (simpl; apply not_elem_of_empty).
  assert (H4 : required_len "ftp.example.com" (Some "/f"%string) <= FTP_MAX_URL_LENGTH)
    by (vm_compute; discriminate).
  assert (H5 : file_transfer_result example_client (next_script (serving three_bytes))
               = CURLE_OK) by reflexivity.
  repeat (split; [assumption|]).
  exact (download_stores_received_bytes example_client fresh_handle "ftp.example.com"
           "/f" "copy.bin" (serving three_bytes) H1 H2 H3 H4 H5).
Defined.

(** X8: an upload of a file that can be opened makes one transfer, at the
    URL built from the remote path, and announces the size of the file
    (CURLOPT_INFILESIZE_LARGE); it returns FTP_OK exactly when the
    transfer ends with CURLE_OK, and whatever the outcome it changes no
    local file. *)
Theorem upload_leaves_files_alone c h hn rp lp w content :
  curl c = Some h -> host (config c) = Some hn ->
  fs w !! lp = Some content ->
  required_len hn (Some rp) <= FTP_MAX_URL_LENGTH ->
  exists r c' w' sent,
    ftp_client_upload (Some c) (Some lp) (Some rp) w = Some (r, Some c', w') /\
    (r = FTP_OK <-> file_transfer_result c (next_script w) = CURLE_OK) /\
    fs w' = fs w /\
    wire w' = wire w ++ [sent] /\
    curl_getopt sent CURLOPT_UPLOAD = Some (OptLong 1) /\
    curl_getopt sent CURLOPT_INFILESIZE_LARGE
    = Some (OptLong (Z.of_nat (length content))) /\
    curl_getopt sent CURLOPT_URL
    = Some (OptStr (Some (snprintf FTP_MAX_URL_LENGTH
                            (url_text hn (port (config c)) (Some rp))))).
Proof.
  intros Hc Hh Hfile Hfit.
  destruct (upload_reads_only c h hn Hc Hh rp lp w content Hfile Hfit)
    as (c' & w' & sent & Hrun & Hfs & _ & Hwire & Hup & Hsz & Hurl).
  eexists. exists c', w', sent. split; [exact Hrun|].
  split; [|auto 10].
  unfold upload_status.
  destruct (file_transfer_result c (next_script w) =? CURLE_OK) eqn:E.
  - apply Z.eqb_eq in E. tauto.
  - apply Z.eqb_neq in E. split; [discriminate|contradiction].
Qed.

Lemma upload_leaves_files_alone_witness :
  curl example_client = Some fresh_handle /\
  host (config example_client) = Some "ftp.example.com"%string /\
  fs upload_world !! "local.bin"%string = Some ["x"; "y"; "z"]%char /\
  (required_len "ftp.example.com" (Some "/f"%string) <= FTP_MAX_URL_LENGTH) /\
  exists r c' w' sent,
    ftp_client_upload (Some example_client) (Some "local.bin"%string)
      (Some "/f"%string) upload_world = Some (r, Some c', w') /\
    (r = FTP_OK <->
     file_transfer_result example_client (next_script upload_world) = CURLE_OK) /\
    fs w' = fs upload_world /\
    wire w' = wire upload_world ++ [sent] /\
    curl_getopt sent CURLOPT_UPLOAD = Some (OptLong 1) /\
    curl_getopt sent CURLOPT_INFILESIZE_LARGE
    = Some (OptLong (Z.of_nat (length ["x"; "y"; "z"]%char))) /\
    curl_getopt sent CURLOPT_URL
    = Some (OptStr (Some (snprintf FTP_MAX_URL_LENGTH
                            (url_text "ftp.example.com" (port (config example_client))
                               (Some "/f"%string))))).
Proof.
  assert (H1 : curl example_client = Some fresh_handle) by reflexivity.
  assert (H2 : host (config example_client) = Some "ftp.example.com"%string)
    by reflexivity.
  assert (H3 : fs upload_world !! "local.bin"%string = Some ["x"; "y"; "z"]%char)
    by (vm_compute; reflexivity).
  assert (H4 : required_len "ftp.example.com" (Some "/f"%string) <= FTP_MAX_URL_LENGTH)
    by (vm_compute; discriminate).
  repeat (split; [assumption|]).
  exact (upload_leaves_files_alone example_client fresh_handle "ftp.example.com"
           "/f" "local.bin" upload_world ["x"; "y"; "z"]%char H1 H2 H3 H4).
Defined.

(** ** Connecting *)

(** X9: [ftp_client_connect] on a client with a host makes one transfer
    and turns its result into the return value: FTP_OK for CURLE_OK,
    FTP_ERROR_AUTH for CURLE_LOGIN_DENIED, FTP_ERROR_TIMEOUT for
    CURLE_OPERATION_TIMEDOUT, FTP_ERROR_CONNECTION for everything else;
    a failure leaves its text in [last_error], a success leaves
    [last_error] as it was. *)
Theorem connect_status c h hn w :
  curl c = Some h -> host (config c) = Some hn -> hn <> ""%string ->
  required_len hn (Some "/"%string) <= FTP_MAX_URL_LENGTH ->
  memory_suffices w = true ->
  data_volume (xfer_events (next_script w)) + 1 <= 2 ^ 63 ->
  exists r c' w',
    ftp_client_connect (Some c) w = Some (r, Some c', w') /\
    length (wire w') = S (length (wire w)) /\
    (file_transfer_result c (next_script w) = CURLE_OK ->
     r = FTP_OK /\ last_error c' = last_error c) /\
    (file_transfer_result c (next_script w) = CURLE_LOGIN_DENIED -> r = FTP_ERROR_AUTH) /\
    (file_transfer_result c (next_script w) = CURLE_OPERATION_TIMEDOUT ->
     r = FTP_ERROR_TIMEOUT) /\
    (file_transfer_result c (next_script w) <> CURLE_OK ->
     file_transfer_result c (next_script w) <> CURLE_LOGIN_DENIED ->
     file_transfer_result c (next_script w) <> CURLE_OPERATION_TIMEDOUT ->
     r = FTP_ERROR_CONNECTION) /\
    (file_transfer_result c (next_script w) <> CURLE_OK ->
     last_error c'
     = snprintf 512 ("Connection failed: "
                     +:+ strerror w (file_transfer_result c (next_script w)))).
Proof.
  intros Hc Hh Hne Hfit Hheap Hvol.
  destruct (connect_runs c h hn Hc Hh w Hne Hfit Hheap Hvol) as (h' & w' & Hrun & Hlen).
  cbv zeta in Hrun.
  set (res := file_transfer_result c (next_script w)) in *.
  destruct (res =? CURLE_OK) eqn:E1.
  { apply Z.eqb_eq in E1. do 3 eexists. split; [exact Hrun|]. split; [exact Hlen|].
    rewrite E1. repeat split; try reflexivity; try discriminate; congruence. }
  apply Z.eqb_neq in E1.
  destruct (res =? CURLE_LOGIN_DENIED) eqn:E2.
  { apply Z.eqb_eq in E2. do 3 eexists. split; [exact Hrun|]. split; [exact Hlen|].
    repeat split; try reflexivity; try congruence; rewrite E2; discriminate. }
  apply Z.eqb_neq in E2.
  destruct (res =? CURLE_OPERATION_TIMEDOUT) eqn:E3.
  { apply Z.eqb_eq in E3. do 3 eexists. split; [exact Hrun|]. split; [exact Hlen|].
    repeat split; try reflexivity; try congruence. }
  apply Z.eqb_neq in E3.
  do 3 eexists. split; [exact Hrun|]. split; [exact Hlen|].
  repeat split; try reflexivity; try congruence.
Qed.

Lemma connect_status_witness :
  curl example_client = Some fresh_handle /\
  host (config example_client) = Some "ftp.example.com"%string /\
  "ftp.example.com"%string <> ""%string /\
  (required_len "ftp.example.com" (Some "/"%string) <= FTP_MAX_URL_LENGTH) /\
  memory_suffices (serving login_refused) = true /\
  (data_volume (xfer_events (next_script (serving login_refused))) + 1 <= 2 ^ 63) /\
  exists r c' w',
    ftp_client_connect (Some example_client) (serving login_refused)
    = Some (r, Some c', w') /\
    length (wire w') = S (length (wire (serving login_refused))) /\
    (file_transfer_result example_client (next_script (serving login_refused))
     = CURLE_OK -> r = FTP_OK /\ last_error c' = last_error example_client) /\
    (file_transfer_result example_client (next_script (serving login_refused))
     = CURLE_LOGIN_DENIED -> r = FTP_ERROR_AUTH) /\
    (file_transfer_result example_client (next_script (serving login_refused))
     = CURLE_OPERATION_TIMEDOUT -> r = FTP_ERROR_TIMEOUT) /\
    (file_transfer_result example_client (next_script (serving login_refused))
     <> CURLE_OK ->
     file_transfer_result example_client (next_script (serving login_refused))
     <> CURLE_LOGIN_DENIED ->
     file_transfer_result example_client (next_script (serving login_refused))
     <> CURLE_OPERATION_TIMEDOUT ->
     r = FTP_ERROR_CONNECTION) /\
    (file_transfer_result example_client (next_script (serving login_refused))
     <> CURLE_OK ->
     last_error c'
     = snprintf 512
         ("Connection failed: "
          +:+ strerror (serving login_refused)
                (file_transfer_result example_client
                   (next_script (serving login_refused))))).
Proof.
  assert (H1 : curl example_client = Some fresh_handle) by reflexivity.
  assert (H2 : host (config example_client) = Some "ftp.example.com"%string)
    by reflexivity.
  assert (H3 : "ftp.example.com"%string <> ""%string) by discriminate.
  assert (H4 : required_len "ftp.example.com" (Some "/"%string) <= FTP_MAX_URL_LENGTH)
    by (vm_compute; discriminate).
  assert (H5 : memory_suffices (serving login_refused) = true) by reflexivity.
  assert (H6 : data_volume (xfer_events (next_script (serving login_refused))) + 1
               <= 2 ^ 63) by (vm_compute; discriminate).
  repeat (split; [assumption|]).
  exact (connect_status example_client fresh_handle "ftp.example.com"
           (serving login_refused) H1 H2 H3 H4 H5 H6).
Defined.

(** X10: only [ftp_client_connect] looks at the host.  On a client whose
    host is NULL or empty it returns FTP_ERROR_INVALID_PARAM with the text
    "Host not set" and makes no transfer; the other operations hand a NULL
    host to [strlen] as soon as they build the URL, which C leaves
    undefined. *)
Theorem host_is_checked_by_connect_only c h lp rp out sz cmd resp w :
  curl c = Some h ->
  (host (config c) = None \/ host (config c) = Some ""%string ->
   ftp_client_connect (Some c) w
   = Some (FTP_ERROR_INVALID_PARAM, Some (with_error "Host not set" c), w)) /\
  (host (config c) = None ->
   (is_Some (fs w !! lp) ->
    ftp_client_upload (Some c) (Some lp) (Some rp) w = None) /\
   (lp ∉ readonly w ->
    ftp_client_download (Some c) (Some rp) (Some lp) w = None) /\
   ftp_client_list_dir (Some c) (Some rp) (Some out) w = None /\
   ftp_client_get_filesize (Some c) (Some rp) (Some sz) w = None /\
   ftp_client_execute_command (Some c) (Some cmd) resp w = None /\
   (next_alloc_fails w = false ->
    ftp_client_mkdir (Some c) (Some rp) w = None /\
    ftp_client_rmdir (Some c) (Some rp) w = None /\
    ftp_client_delete (Some c) (Some rp) w = None)).
Proof.
  intros Hc. split.
  - intros [Hh|Hh]; unfold ftp_client_connect; rewrite Hc, Hh; reflexivity.
  - intros Hh.
    assert (Hurl : forall p n, build_ftp_url c p n = None)
      by (intros p n; unfold build_ftp_url; rewrite Hh; reflexivity).
    split; [|split; [|split; [|split; [|split]]]].
    + intros [content Hfile]. unfold ftp_client_upload. rewrite Hc.
      unfold bind at 1. unfold fopen. rewrite Hfile.
      unfold bind at 1. unfold fseek_end at 1, bind at 1, file_contents at 1,
        gets at 1, ret at 1.
      unfold bind at 1, ftell at 1, ret at 1.
      unfold bind at 1, fseek_set at 1, ret at 1.
      unfold bind at 1. rewrite Hurl. reflexivity.
    + intros Hro. unfold ftp_client_download. rewrite Hc.
      unfold bind at 1. unfold fopen. rewrite decide_False by assumption.
      unfold bind at 1. rewrite Hurl. reflexivity.
    + unfold ftp_client_list_dir. rewrite Hc.
      unfold bind at 1, lift at 1. unfold bind at 1. rewrite Hurl. reflexivity.
    + unfold ftp_client_get_filesize. rewrite Hc.
      unfold bind at 1. rewrite Hurl. reflexivity.
    + unfold ftp_client_execute_command. rewrite Hc.
      unfold bind at 1. rewrite Hurl. reflexivity.
    + intros Hok.
      assert (Hcmd : forall cmds prefix w0,
                 ftp_client_execute_simple_command (Some c) (Some cmds) prefix w0 = None).
      { intros cmds prefix w0. unfold ftp_client_execute_simple_command. rewrite Hc.
        unfold bind at 1. rewrite Hurl. reflexivity. }
      unfold ftp_client_mkdir, ftp_client_rmdir, ftp_client_delete. rewrite Hc.
      unfold curl_slist_append, bind. rewrite alloc_eq, Hok. cbn [negb ret].
      rewrite !Hcmd. auto.
Qed.

Lemma host_is_checked_by_connect_only_witness :
  curl unconfigured_client = Some fresh_handle /\
  (host (config unconfigured_client) = None \/
   host (config unconfigured_client) = Some ""%string ->
   ftp_client_connect (Some unconfigured_client) upload_world
   = Some (FTP_ERROR_INVALID_PARAM,
           Some (with_error "Host not set" unconfigured_client), upload_world)) /\
  (host (config unconfigured_client) = None ->
   (is_Some (fs upload_world !! "local.bin"%string) ->
    ftp_client_upload (Some unconfigured_client) (Some "local.bin"%string)
      (Some "/f"%string) upload_world = None) /\
   ("local.bin"%string ∉ readonly upload_world ->
    ftp_client_download (Some unconfigured_client) (Some "/f"%string)
      (Some "local.bin"%string) upload_world = None) /\
   ftp_client_list_dir (Some unconfigured_client) (Some "/f"%string) (Some None)
     upload_world = None /\
   ftp_client_get_filesize (Some unconfigured_client) (Some "/f"%string) (Some 7)
     upload_world = None /\
   ftp_client_execute_command (Some unconfigured_client) (Some "NOOP"%string) None
     upload_world = None /\
   (next_alloc_fails upload_world = false ->
    ftp_client_mkdir (Some unconfigured_client) (Some "/f"%string) upload_world = None /\
    ftp_client_rmdir (Some unconfigured_client) (Some "/f"%string) upload_world = None /\
    ftp_client_delete (Some unconfigured_client) (Some "/f"%string) upload_world
    = None)).
Proof.
  assert (H1 : curl unconfigured_client = Some fresh_handle) by reflexivity.
  split; [exact H1|].
  exact (host_is_checked_by_connect_only unconfigured_client fresh_handle "local.bin"
           "/f" None 7 "NOOP" None upload_world H1).
Defined.

(** ** Programs over the API *)

(** X11: whatever the call and its arguments, one call of the API makes
    at most one transfer: either nothing goes to the server, or exactly
    one handle does. *)
Theorem call_makes_at_most_one_transfer call client w r after w' :
  api_step call client w = Some (r, after, w') ->
  (wire w' = wire w /\ net w' = net w) \/
  ((exists sent, wire w' = wire w ++ [sent]) /\ net w' = tl (net w)).
Proof.
  intros H. destruct client as [c|].
  - destruct (is_setter call) eqn:E.
    + apply setter_frame in H as ((Hw & Hn & _) & _); [|exact E]. left. auto.
    + apply operation_frame in H as (code & _ & [Hq|Ht] & _); [| |exact E].
      * destruct Hq as (Hw & Hn & _). left. auto.
      * destruct Ht as (Hw & Hn & _). right. auto.
  - apply null_client_frame in H as [_ ->]. left. auto.
Qed.

Lemma call_makes_at_most_one_transfer_witness :
  api_step sample_call (Some stale_client) (serving three_bytes)
  = Some (Some FTP_OK, sample_step_client, sample_step_world) /\
  ((wire sample_step_world = wire (serving three_bytes) /\
    net sample_step_world = net (serving three_bytes)) \/
   ((exists sent, wire sample_step_world = wire (serving three_bytes) ++ [sent]) /\
    net sample_step_world = tl (net (serving three_bytes)))).
Proof.
  assert (H : api_step sample_call (Some stale_client) (serving three_bytes)
              = Some (Some FTP_OK, sample_step_client, sample_step_world))
    by (vm_compute; reflexivity).
  split; [exact H|].
  exact (call_makes_at_most_one_transfer sample_call (Some stale_client)
           (serving three_bytes) (Some FTP_OK) sample_step_client sample_step_world H).
Defined.

(** X12: the only local file a call can change is the target of a
    download; every other call, an upload included, leaves all files as
    they were. *)
Theorem only_download_changes_files call client w r after w' :
  api_step call client w = Some (r, after, w') ->
  forall p, written_file call <> Some p -> fs w' !! p = fs w !! p.
Proof.
  intros H. destruct client as [c|].
  - destruct (is_setter call) eqn:E.
    + apply setter_frame in H as ((_ & _ & Hf) & _); [|exact E].
      intros p _. apply Hf. discriminate.
    + apply operation_frame in H as (code & _ & [Hq|Ht] & _); [| |exact E].
      * destruct Hq as (_ & _ & Hf). exact Hf.
      * destruct Ht as (_ & _ & Hf). exact Hf.
  - apply null_client_frame in H as [_ ->]. reflexivity.
Qed.

Lemma only_download_changes_files_witness :
  api_step sample_call (Some stale_client) (serving three_bytes)
  = Some (Some FTP_OK, sample_step_client, sample_step_world) /\
  forall p, written_file sample_call <> Some p ->
            fs sample_step_world !! p = fs (serving three_bytes) !! p.
Proof.
  assert (H : api_step sample_call (Some stale_client) (serving three_bytes)
              = Some (Some FTP_OK, sample_step_client, sample_step_world))
    by (vm_compute; reflexivity).
  split; [exact H|].
  exact (only_download_changes_files sample_call (Some stale_client)
           (serving three_bytes) (Some FTP_OK) sample_step_client sample_step_world H).
Defined.

(** X13: the configuration changes only through the setters: a transfer
    or a command, whatever its outcome, returns the client with the
    configuration it had. *)
Theorem only_setters_change_config call c w r after w' :
  is_setter call = false ->
  api_step call (Some c) w = Some (r, after, w') ->
  exists c', after = Some c' /\ config c' = config c.
Proof.
  intros E H. apply operation_frame in H as (code & _ & _ & c' & -> & Hcfg & _);
    [|exact E].
  exists c'. split; [reflexivity|exact Hcfg].
Qed.

Lemma only_setters_change_config_witness :
  is_setter sample_call = false /\
  api_step sample_call (Some stale_client) (serving three_bytes)
  = Some (Some FTP_OK, sample_step_client, sample_step_world) /\
  exists c', sample_step_client = Some c' /\ config c' = config stale_client.
Proof.
  assert (H1 : is_setter sample_call = false) by reflexivity.
  assert (H2 : api_step sample_call (Some stale_client) (serving three_bytes)
               = Some (Some FTP_OK, sample_step_client, sample_step_world))
    by (vm_compute; reflexivity).
  repeat (split; [assumption|]).
  exact (only_setters_change_config sample_call stale_client (serving three_bytes)
           (Some FTP_OK) sample_step_client sample_step_world H1 H2).
Defined.

(** X14: no call clears the error text: after a call that returns
    FTP_OK, and after every setter, [last_error] still holds what the
    last failure left there. *)
Theorem success_keeps_last_error call c w r after w' :
  api_step call (Some c) w = Some (r, after, w') ->
  r = Some FTP_OK \/ is_setter call = true ->
  exists c', after = Some c' /\
             ftp_client_get_error (Some c') = ftp_client_get_error (Some c).
Proof.
  intros H Hok. destruct (is_setter call) eqn:E.
  - apply setter_frame in H as (_ & c' & -> & _ & Herr & _); [|exact E].
    exists c'. split; [reflexivity|exact Herr].
  - apply operation_frame in H as (code & -> & _ & c' & -> & _ & Herr); [|exact E].
    destruct Hok as [[= ->]|Hs]; [|discriminate].
    exists c'. split; [reflexivity|]. apply Herr. reflexivity.
Qed.

Lemma success_keeps_last_error_witness :
  api_step sample_call (Some stale_client) (serving three_bytes)
  = Some (Some FTP_OK, sample_step_client, sample_step_world) /\
  (Some FTP_OK = Some FTP_OK \/ is_setter sample_call = true) /\
  exists c', sample_step_client = Some c' /\
             ftp_client_get_error (Some c') = ftp_client_get_error (Some stale_client).
Proof.
  assert (H1 : api_step sample_call (Some stale_client) (serving three_bytes)
               = Some (Some FTP_OK, sample_step_client, sample_step_world))
    by (vm_compute; reflexivity).
  assert (H2 : Some FTP_OK = Some FTP_OK \/ is_setter sample_call = true)
    by (left; reflexivity).
  repeat (split; [assumption|]).
  exact (success_keeps_last_error sample_call stale_client (serving three_bytes)
           (Some FTP_OK) sample_step_client sample_step_world H1 H2).
Defined.

(** X15: a client made by [ftp_client_create] and used through the API
    only always has a port in 1..65535 and positive timeouts, whatever
    values the program handed to the setters. *)
Theorem config_stays_in_range calls w0 c w after w' :
  ftp_client_create w0 = Some (Some c, w) ->
  api_run calls (Some c) w = Some (after, w') ->
  exists c', after = Some c' /\
             1 <= port (config c') <= 65535 /\
             0 < timeout (config c') /\ 0 < connect_timeout (config c').
Proof.
  intros Hcreate Hrun. apply create_in_range in Hcreate.
  destruct (api_run_in_range calls c w after w' Hrun Hcreate) as (c' & -> & Hr).
  exists c'. split; [reflexivity|exact Hr].
Qed.

Lemma config_stays_in_range_witness :
  ftp_client_create (serving three_bytes)
  = Some (Some unconfigured_client, serving three_bytes) /\
  api_run sample_program (Some unconfigured_client) (serving three_bytes)
  = Some (sample_run_client, sample_run_world) /\
  exists c', sample_run_client = Some c' /\
             1 <= port (config c') <= 65535 /\
             0 < timeout (config c') /\ 0 < connect_timeout (config c').
Proof.
  assert (H1 : ftp_client_create (serving three_bytes)
               = Some (Some unconfigured_client, serving three_bytes)) by reflexivity.
  assert (H2 : api_run sample_program (Some unconfigured_client) (serving three_bytes)
               = Some (sample_run_client, sample_run_world))
    by (vm_compute; reflexivity).
  repeat (split; [assumption|]).
  exact (config_stays_in_range sample_program (serving three_bytes) unconfigured_client
           (serving three_bytes) sample_run_client sample_run_world H1 H2).
Defined.

(** ** URLs *)

(** X16: with a port in 1..65535 the space [build_ftp_url] asks for is
    enough: a URL it accepts is never cut, and reads
    ftp://host:port followed by the path made absolute. *)
Theorem url_is_never_cut c hn path n :
  host (config c) = Some hn -> 1 <= port (config c) <= 65535 ->
  required_len hn (Some path) <= n ->
  build_ftp_url c (Some path) n
  = Some (FTP_OK,
          Some ("ftp://" +:+ hn +:+ ":" +:+ format_d (port (config c))
                +:+ absolute path)).
Proof.
  intros Hh Hp Hfit. rewrite (build_ftp_url_whole c hn (Some path) n) by assumption.
  unfold url_text, absolute. destruct (begins_with_slash path); reflexivity.
Qed.

Lemma url_is_never_cut_witness :
  host (config example_client) = Some "ftp.example.com"%string /\
  (1 <= port (config example_client) <= 65535) /\
  (required_len "ftp.example.com" (Some "pub/readme.txt"%string)
   <= FTP_MAX_URL_LENGTH) /\
  build_ftp_url example_client (Some "pub/readme.txt"%string) FTP_MAX_URL_LENGTH
  = Some (FTP_OK,
          Some ("ftp://" +:+ "ftp.example.com" +:+ ":"
                +:+ format_d (port (config example_client))
                +:+ absolute "pub/readme.txt")).
Proof.
  assert (H1 : host (config example_client) = Some "ftp.example.com"%string)
    by reflexivity.
  assert (H2 : 1 <= port (config example_client) <= 65535) by (simpl; lia).
  assert (H3 : required_len "ftp.example.com" (Some "pub/readme.txt"%string)
               <= FTP_MAX_URL_LENGTH) by (vm_compute; discriminate).
  split; [exact H1|]. split; [exact H2|]. split; [exact H3|].
  exact (url_is_never_cut example_client "ftp.example.com" "pub/readme.txt"
           FTP_MAX_URL_LENGTH H1 H2 H3).
Defined.

(** ** Commands *)

(** X17: [ftp_client_mkdir], [ftp_client_rmdir] and [ftp_client_delete]
    send exactly one command, at the URL of the root directory: MKD, RMD
    or DELE and the path made absolute, cut to the 511 characters the
    command buffer holds.  A path of at most 506 characters goes out
    whole. *)
Theorem single_command_is_sent c h hn rp w :
  curl c = Some h -> host (config c) = Some hn ->
  required_len hn (Some "/"%string) <= FTP_MAX_URL_LENGTH ->
  next_alloc_fails w = false ->
  data_volume (xfer_events (next_script w)) + 1 <= 2 ^ 63 ->
  let root := Some (OptStr (Some (snprintf FTP_MAX_URL_LENGTH
                                    (url_text hn (port (config c)) (Some "/"%string))))) in
  (exists r c' w' sent,
     ftp_client_mkdir (Some c) (Some rp) w = Some (r, Some c', w') /\
     wire w' = wire w ++ [sent] /\
     curl_getopt sent CURLOPT_QUOTE
     = Some (OptSlist [snprintf 512 ("MKD " +:+ absolute rp)]) /\
     curl_getopt sent CURLOPT_URL = root) /\
  (exists r c' w' sent,
     ftp_client_rmdir (Some c) (Some rp) w = Some (r, Some c', w') /\
     wire w' = wire w ++ [sent] /\
     curl_getopt sent CURLOPT_QUOTE
     = Some (OptSlist [snprintf 512 ("RMD " +:+ absolute rp)]) /\
     curl_getopt sent CURLOPT_URL = root) /\
  (exists r c' w' sent,
     ftp_client_delete (Some c) (Some rp) w = Some (r, Some c', w') /\
     wire w' = wire w ++ [sent] /\
     curl_getopt sent CURLOPT_QUOTE
     = Some (OptSlist [snprintf 512 ("DELE " +:+ absolute rp)]) /\
     curl_getopt sent CURLOPT_URL = root) /\
  (strlen (absolute rp) <= 506 ->
   snprintf 512 ("MKD " +:+ absolute rp) = "MKD " +:+ absolute rp /\
   snprintf 512 ("RMD " +:+ absolute rp) = "RMD " +:+ absolute rp /\
   snprintf 512 ("DELE " +:+ absolute rp) = "DELE " +:+ absolute rp).
Proof.
  intros Hc Hh Hfit Hok Hvol. cbv zeta.
  unfold ftp_client_mkdir, ftp_client_rmdir, ftp_client_delete. rewrite Hc. cbv zeta.
  split; [|split; [|split]].
  - apply (one_command_runs c h hn Hc Hh "MKD"); assumption.
  - apply (one_command_runs c h hn Hc Hh "RMD"); assumption.
  - apply (one_command_runs c h hn Hc Hh "DELE"); assumption.
  - intros Hlen.
    repeat split; apply snprintf_fits; rewrite strlen_append;
      unfold strlen in *; simpl; lia.
Qed.

Lemma single_command_is_sent_witness :
  curl example_client = Some fresh_handle /\
  host (config example_client) = Some "ftp.example.com"%string /\
  (required_len "ftp.example.com" (Some "/"%string) <= FTP_MAX_URL_LENGTH) /\
  next_alloc_fails (serving empty_directory) = false /\
  (data_volume (xfer_events (next_script (serving empty_directory))) + 1 <= 2 ^ 63) /\
  let root := Some (OptStr (Some (snprintf FTP_MAX_URL_LENGTH
                                    (url_text "ftp.example.com"
                                       (port (config example_client))
                                       (Some "/"%string))))) in
  (exists r c' w' sent,
     ftp_client_mkdir (Some example_client) (Some "pub/new"%string)
       (serving empty_directory) = Some (r, Some c', w') /\
     wire w' = wire (serving empty_directory) ++ [sent] /\
     curl_getopt sent CURLOPT_QUOTE
     = Some (OptSlist [snprintf 512 ("MKD " +:+ absolute "pub/new")]) /\
     curl_getopt sent CURLOPT_URL = root) /\
  (exists r c' w' sent,
     ftp_client_rmdir (Some example_client) (Some "pub/new"%string)
       (serving empty_directory) = Some (r, Some c', w') /\
     wire w' = wire (serving empty_directory) ++ [sent] /\
     curl_getopt sent CURLOPT_QUOTE
     = Some (OptSlist [snprintf 512 ("RMD " +:+ absolute "pub/new")]) /\
     curl_getopt sent CURLOPT_URL = root) /\
  (exists r c' w' sent,
     ftp_client_delete (Some example_client) (Some "pub/new"%string)
       (serving empty_directory) = Some (r, Some c', w') /\
     wire w' = wire (serving empty_directory) ++ [sent] /\
     curl_getopt sent CURLOPT_QUOTE
     = Some (OptSlist [snprintf 512 ("DELE " +:+ absolute "pub/new")]) /\
     curl_getopt sent CURLOPT_URL = root) /\
  (strlen (absolute "pub/new") <= 506 ->
   snprintf 512 ("MKD " +:+ absolute "pub/new") = "MKD " +:+ absolute "pub/new" /\
   snprintf 512 ("RMD " +:+ absolute "pub/new") = "RMD " +:+ absolute "pub/new" /\
   snprintf 512 ("DELE " +:+ absolute "pub/new") = "DELE " +:+ absolute "pub/new").
Proof.
  assert (H1 : curl example_client = Some fresh_handle) by reflexivity.
  assert (H2 : host (config example_client) = Some "ftp.example.com"%string)
    by reflexivity.
  assert (H3 : required_len "ftp.example.com" (Some "/"%string) <= FTP_MAX_URL_LENGTH)
    by (vm_compute; discriminate).
  assert (H4 : next_alloc_fails (serving empty_directory) = false) by reflexivity.
  assert (H5 : data_volume (xfer_events (next_script (serving empty_directory))) + 1
               <= 2 ^ 63) by (vm_compute; discriminate).
  split; [exact H1|]. split; [exact H2|]. split; [exact H3|]. split; [exact H4|].
  split; [exact H5|].
  exact (single_command_is_sent example_client fresh_handle "ftp.example.com" "pub/new"
           (serving empty_directory) H1 H2 H3 H4 H5).
Defined.

(** X18: when the node of the command list cannot be allocated, the
    directory and file commands return FTP_ERROR_INVALID_PARAM, not
    FTP_ERROR_MEMORY: nothing is sent and [last_error] is not set.  For a
    rename it is the second node that decides. *)
Theorem failed_list_is_invalid_param c h rp old new w :
  curl c = Some h ->
  (next_alloc_fails w = true ->
   ftp_client_mkdir (Some c) (Some rp) w
   = Some (FTP_ERROR_INVALID_PARAM, Some c, after_alloc w) /\
   ftp_client_rmdir (Some c) (Some rp) w
   = Some (FTP_ERROR_INVALID_PARAM, Some c, after_alloc w) /\
   ftp_client_delete (Some c) (Some rp) w
   = Some (FTP_ERROR_INVALID_PARAM, Some c, after_alloc w)) /\
  (next_alloc_fails (after_alloc w) = true ->
   ftp_client_rename (Some c) (Some old) (Some new) w
   = Some (FTP_ERROR_INVALID_PARAM, Some c, after_alloc (after_alloc w))).
Proof.
  intros Hc. split.
  - intros Hfail.
    unfold ftp_client_mkdir, ftp_client_rmdir, ftp_client_delete. rewrite Hc.
    unfold curl_slist_append, bind. rewrite alloc_eq, Hfail. auto.
  - intros Hfail. unfold ftp_client_rename. rewrite Hc. cbv zeta.
    unfold curl_slist_append.
    unfold bind at 1. unfold bind at 1. rewrite alloc_eq. unfold ret at 1.
    unfold bind at 1. unfold bind at 1. rewrite alloc_eq, Hfail. reflexivity.
Qed.

Lemma failed_list_is_invalid_param_witness :
  curl example_client = Some fresh_handle /\
  (next_alloc_fails (set_heap [false; false] world0) = true ->
   ftp_client_mkdir (Some example_client) (Some "/d"%string)
     (set_heap [false; false] world0)
   = Some (FTP_ERROR_INVALID_PARAM, Some example_client,
           after_alloc (set_heap [false; false] world0)) /\
   ftp_client_rmdir (Some example_client) (Some "/d"%string)
     (set_heap [false; false] world0)
   = Some (FTP_ERROR_INVALID_PARAM, Some example_client,
           after_alloc (set_heap [false; false] world0)) /\
   ftp_client_delete (Some example_client) (Some "/d"%string)
     (set_heap [false; false] world0)
   = Some (FTP_ERROR_INVALID_PARAM, Some example_client,
           after_alloc (set_heap [false; false] world0))) /\
  (next_alloc_fails (after_alloc (set_heap [false; false] world0)) = true ->
   ftp_client_rename (Some example_client) (Some "/a"%string) (Some "/b"%string)
     (set_heap [false; false] world0)
   = Some (FTP_ERROR_INVALID_PARAM, Some example_client,
           after_alloc (after_alloc (set_heap [false; false] world0)))).
Proof.
  assert (H1 : curl example_client = Some fresh_handle) by reflexivity.
  split; [exact H1|].
  exact (failed_list_is_invalid_param example_client fresh_handle "/d" "/a" "/b"
           (set_heap [false; false] world0) H1).
Defined.

(** X19: when the first node of a rename's command list cannot be
    allocated and the second can, [ftp_client_rename] sends RNTO alone,
    without the RNFR that names the file. *)
Theorem rename_sends_only_second c h hn old new w :
  curl c = Some h -> host (config c) = Some hn ->
  required_len hn (Some "/"%string) <= FTP_MAX_URL_LENGTH ->
  next_alloc_fails w = true -> next_alloc_fails (after_alloc w) = false ->
  data_volume (xfer_events (next_script w)) + 1 <= 2 ^ 63 ->
  strlen (absolute new) <= 506 ->
  exists r c' w' sent,
    ftp_client_rename (Some c) (Some old) (Some new) w = Some (r, Some c', w') /\
    wire w' = wire w ++ [sent] /\
    curl_getopt sent CURLOPT_QUOTE = Some (OptSlist ["RNTO " +:+ absolute new]).
Proof.
  intros Hc Hh. apply (rename_second_only c h hn Hc Hh).
Qed.

Lemma rename_sends_only_second_witness :
  curl example_client = Some fresh_handle /\
  host (config example_client) = Some "ftp.example.com"%string /\
  (required_len "ftp.example.com" (Some "/"%string) <= FTP_MAX_URL_LENGTH) /\
  next_alloc_fails (set_heap [false; true] world0) = true /\
  next_alloc_fails (after_alloc (set_heap [false; true] world0)) = false /\
  (data_volume (xfer_events (next_script (set_heap [false; true] world0))) + 1
   <= 2 ^ 63) /\
  (strlen (absolute "/b.txt") <= 506) /\
  exists r c' w' sent,
    ftp_client_rename (Some example_client) (Some "/a.txt"%string)
      (Some "/b.txt"%string) (set_heap [false; true] world0) = Some (r, Some c', w') /\
    wire w' = wire (set_heap [false; true] world0) ++ [sent] /\
    curl_getopt sent CURLOPT_QUOTE = Some (OptSlist ["RNTO " +:+ absolute "/b.txt"]).
Proof.
  assert (H1 : curl example_client = Some fresh_handle) by reflexivity.
  assert (H2 : host (config example_client) = Some "ftp.example.com"%string)
    by reflexivity.
  assert (H3 : required_len "ftp.example.com" (Some "/"%string) <= FTP_MAX_URL_LENGTH)
    by (vm_compute; discriminate).
  assert (H4 : next_alloc_fails (set_heap [false; true] world0) = true) by reflexivity.
  assert (H5 : next_alloc_fails (after_alloc (set_heap [false; true] world0)) = false)
    by reflexivity.
  assert (H6 : data_volume (xfer_events (next_script (set_heap [false; true] world0)))
               + 1 <= 2 ^ 63) by (vm_compute; discriminate).
  assert (H7 : strlen (absolute "/b.txt") <= 506) by (vm_compute; discriminate).
  repeat (split; [assumption|]).
  exact (rename_sends_only_second example_client fresh_handle "ftp.example.com"
           "/a.txt" "/b.txt" (set_heap [false; true] world0) H1 H2 H3 H4 H5 H6 H7).
Defined.

(** ** Setters and creation *)

(** X20: [ftp_client_set_credentials] returns FTP_OK exactly when both
    copies can be allocated, and then stores the two strings; otherwise it
    returns FTP_ERROR_MEMORY and leaves the user name NULL.  Host and port
    are not touched. *)
Theorem set_credentials_outcomes c u p w :
  exists r c' w',
    ftp_client_set_credentials (Some c) (Some u) (Some p) w = Some (r, Some c', w') /\
    (r = FTP_OK \/ r = FTP_ERROR_MEMORY) /\
    (r = FTP_OK <-> allocations_succeed 2 w = true) /\
    (r = FTP_OK ->
     username (config c') = Some u /\ password (config c') = Some p) /\
    (r = FTP_ERROR_MEMORY -> username (config c') = None) /\
    host (config c') = host (config c) /\ port (config c') = port (config c).
Proof.
  unfold ftp_client_set_credentials, strdup.
  unfold bind at 1. unfold bind at 1. rewrite alloc_eq. unfold ret at 1.
  simpl allocations_succeed.
  destruct (next_alloc_fails w); cbn [negb andb].
  - do 3 eexists. split; [reflexivity|].
    repeat split; auto; try discriminate.
  - unfold bind at 1. unfold bind at 1. rewrite alloc_eq. unfold ret at 1.
    destruct (next_alloc_fails (after_alloc w)); cbn [negb andb].
    + do 3 eexists. split; [reflexivity|].
      repeat split; auto; try discriminate.
    + do 3 eexists. split; [reflexivity|].
      repeat split; auto; try discriminate.
Qed.

(** X21: [ftp_client_create] returns a client exactly when its first two
    allocations (the structure and the handle) succeed.  The client then
    has a handle, no host and port 21; its user name is "anonymous"
    exactly when the third allocation succeeds too, NULL otherwise: the
    result of [strdup] is not checked. *)
Theorem create_outcomes w :
  exists r w',
    ftp_client_create w = Some (r, w') /\
    (is_Some r <-> allocations_succeed 2 w = true) /\
    forall c, r = Some c ->
      is_Some (curl c) /\ host (config c) = None /\ port (config c) = 21 /\
      last_error c = ""%string /\
      username (config c)
      = (if allocations_succeed 3 w then Some "anonymous"%string else None).
Proof.
  unfold ftp_client_create.
  unfold bind at 1. rewrite alloc_eq. simpl allocations_succeed.
  destruct (next_alloc_fails w); cbn [negb andb].
  { do 2 eexists. split; [reflexivity|]. split.
    - split; [intros [x Hx]|]; discriminate.
    - intros c Hc. discriminate. }
  unfold bind at 1. unfold curl_easy_init, bind at 1. rewrite alloc_eq. unfold ret at 1.
  destruct (next_alloc_fails (after_alloc w)); cbn [negb andb].
  { do 2 eexists. split; [reflexivity|]. split.
    - split; [intros [x Hx]|]; discriminate.
    - intros c Hc. discriminate. }
  unfold bind at 1. unfold ftp_client_init_config, strdup.
  unfold bind at 1. unfold bind at 1. rewrite alloc_eq. unfold ret at 1.
  unfold bind at 1. unfold bind at 1. rewrite alloc_eq. unfold ret at 1.
  unfold ret.
  do 2 eexists. split; [reflexivity|]. split.
  - split; [reflexivity|eauto].
  - intros c [= <-]. cbn [curl config host port last_error username].
    rewrite andb_true_r.
    destruct (next_alloc_fails (after_alloc (after_alloc w))); cbn [negb]; eauto 10.
Qed.

(** ** Raw commands *)

(** X22: [ftp_client_execute_command] sends the command as it is given,
    whatever its length, and on success hands the caller a block with
    exactly the bytes received, followed by a NUL. *)
Theorem execute_command_returns_response c h hn cmd old w :
  curl c = Some h -> host (config c) = Some hn ->
  required_len hn (Some "/"%string) <= FTP_MAX_URL_LENGTH ->
  memory_suffices w = true ->
  data_volume (xfer_events (next_script w)) + 1 <= 2 ^ 63 ->
  file_transfer_result c (next_script w) = CURLE_OK ->
  existsb sends_data (xfer_events (next_script w)) = true ->
  exists c' blk w' sent,
    ftp_client_execute_command (Some c) (Some cmd) (Some old) w
    = Some (FTP_OK, Some c', Some (Some blk), w') /\
    wire w' = wire w ++ [sent] /\
    curl_getopt sent CURLOPT_QUOTE = Some (OptSlist [cmd]) /\
    take (length (received (xfer_events (next_script w)))) blk
    = received (xfer_events (next_script w)) /\
    blk !! length (received (xfer_events (next_script w))) = Some Ascii.zero.
Proof.
  intros Hc Hh Hfit Hheap Hvol Hres Hdata.
  destruct (memory_suffices_alloc w Hheap) as [Hnext Hheap'].
  destruct (execute_command_runs c h hn Hc Hh cmd (Some old) w Hfit Hheap' Hvol)
    as (c' & resp' & w' & sent & mem & Hrun & Hwire & Hq & Hok & _ & Hholds & Hnull).
  rewrite Hres in Hrun. rewrite (Hok Hres) in Hrun. rewrite Hnext in Hq.
  apply file_transfer_result_ok in Hres as [Hobs _].
  rewrite (played_all _ _ Hobs) in Hholds, Hnull.
  destruct (data mem) as [blk|] eqn:Hd.
  - exists c', blk, w', sent. split; [exact Hrun|]. split; [exact Hwire|].
    split; [exact Hq|]. destruct Hholds as [_ Hholds]. rewrite Hd in Hholds. exact Hholds.
  - destruct Hnull as [Hnull _]. rewrite Hnull in Hdata by reflexivity. discriminate.
Qed.

Lemma execute_command_returns_response_witness :
  curl example_client = Some fresh_handle /\
  host (config example_client) = Some "ftp.example.com"%string /\
  (required_len "ftp.example.com" (Some "/"%string) <= FTP_MAX_URL_LENGTH) /\
  memory_suffices (serving three_bytes) = true /\
  (data_volume (xfer_events (next_script (serving three_bytes))) + 1 <= 2 ^ 63) /\
  file_transfer_result example_client (next_script (serving three_bytes)) = CURLE_OK /\
  existsb sends_data (xfer_events (next_script (serving three_bytes))) = true /\
  exists c' blk w' sent,
    ftp_client_execute_command (Some example_client) (Some "NOOP"%string) (Some None)
      (serving three_bytes)
    = Some (FTP_OK, Some c', Some (Some blk), w') /\
    wire w' = wire (serving three_bytes) ++ [sent] /\
    curl_getopt sent CURLOPT_QUOTE = Some (OptSlist ["NOOP"%string]) /\
    take (length (received (xfer_events (next_script (serving three_bytes))))) blk
    = received (xfer_events (next_script (serving three_bytes))) /\
    blk !! length (received (xfer_events (next_script (serving three_bytes))))
    = Some Ascii.zero.
Proof.
  assert (H1 : curl example_client = Some fresh_handle) by reflexivity.
  assert (H2 : host (config example_client) = Some "ftp.example.com"%string)
    by reflexivity.
  assert (H3 : required_len "ftp.example.com" (Some "/"%string) <= FTP_MAX_URL_LENGTH)
    by (vm_compute; discriminate).
  assert (H4 : memory_suffices (serving three_bytes) = true) by reflexivity.
  assert (H5 : data_volume (xfer_events (next_script (serving three_bytes))) + 1
               <= 2 ^ 63) by (vm_compute; discriminate).
  assert (H6 : file_transfer_result example_client (next_script (serving three_bytes))
               = CURLE_OK) by reflexivity.
  assert (H7 : existsb sends_data (xfer_events (next_script (serving three_bytes)))
               = true) by reflexivity.
  repeat (split; [assumption|]).
  exact (execute_command_returns_response example_client fresh_handle "ftp.example.com"
           "NOOP" None (serving three_bytes) H1 H2 H3 H4 H5 H6 H7).
Defined.

(** X23: when the node of its command list cannot be allocated,
    [ftp_client_execute_command] goes on without the command: the
    transfer runs with an empty command list and its outcome is returned,
    FTP_OK included. *)
Theorem execute_command_without_list c h hn cmd resp w :
  curl c = Some h -> host (config c) = Some hn ->
  required_len hn (Some "/"%string) <= FTP_MAX_URL_LENGTH ->
  next_alloc_fails w = true ->
  memory_suffices (after_alloc w) = true ->
  data_volume (xfer_events (next_script w)) + 1 <= 2 ^ 63 ->
  exists r c' resp' w' sent,
    ftp_client_execute_command (Some c) (Some cmd) resp w
    = Some (r, Some c', resp', w') /\
    wire w' = wire w ++ [sent] /\
    curl_getopt sent CURLOPT_QUOTE = Some (OptSlist []) /\
    (file_transfer_result c (next_script w) = CURLE_OK -> r = FTP_OK).
Proof.
  intros Hc Hh Hfit Hfail Hheap Hvol.
  destruct (execute_command_runs c h hn Hc Hh cmd resp w Hfit Hheap Hvol)
    as (c' & resp' & w' & sent & mem & Hrun & Hwire & Hq & _).
  rewrite Hfail in Hq. do 2 eexists. exists resp', w', sent.
  split; [exact Hrun|]. split; [exact Hwire|]. split; [exact Hq|].
  intros ->. reflexivity.
Qed.

Lemma execute_command_without_list_witness :
  curl example_client = Some fresh_handle /\
  host (config example_client) = Some "ftp.example.com"%string /\
  (required_len "ftp.example.com" (Some "/"%string) <= FTP_MAX_URL_LENGTH) /\
  next_alloc_fails one_refusal = true /\
  memory_suffices (after_alloc one_refusal) = true /\
  (data_volume (xfer_events (next_script one_refusal)) + 1 <= 2 ^ 63) /\
  exists r c' resp' w' sent,
    ftp_client_execute_command (Some example_client) (Some "DELE /f"%string) None
      one_refusal = Some (r, Some c', resp', w') /\
    wire w' = wire one_refusal ++ [sent] /\
    curl_getopt sent CURLOPT_QUOTE = Some (OptSlist []) /\
    (file_transfer_result example_client (next_script one_refusal) = CURLE_OK ->
     r = FTP_OK).
Proof.
  assert (H1 : curl example_client = Some fresh_handle) by reflexivity.
  assert (H2 : host (config example_client) = Some "ftp.example.com"%string)
    by reflexivity.
  assert (H3 : required_len "ftp.example.com" (Some "/"%string) <= FTP_MAX_URL_LENGTH)
    by (vm_compute; discriminate).
  assert (H4 : next_alloc_fails one_refusal = true) by reflexivity.
  assert (H5 : memory_suffices (after_alloc one_refusal) = true) by reflexivity.
  assert (H6 : data_volume (xfer_events (next_script one_refusal)) + 1 <= 2 ^ 63)
    by (vm_compute; discriminate).
  repeat (split; [assumption|]).
  exact (execute_command_without_list example_client fresh_handle "ftp.example.com"
           "DELE /f" None one_refusal H1 H2 H3 H4 H5 H6).
Defined.

(** ** Out-pointers *)

(** X24: [ftp_client_list_dir] stores through [output] only when it
    returns FTP_OK; after any other return the caller's pointer is what
    it was. *)
Theorem list_dir_writes_only_on_success client rp out w r c' out' w' :
  ftp_client_list_dir client rp out w = Some (r, c', out', w') ->
  r <> FTP_OK -> out' = out.
Proof. apply list_dir_out_frame. Qed.

Lemma list_dir_writes_only_on_success_witness :
  ftp_client_list_dir (Some example_client) (Some "/pub"%string)
    (Some (Some ["o"; "l"; "d"]%char)) (serving missing_file)
  = Some (FTP_ERROR_TRANSFER, failed_listing_client, Some (Some ["o"; "l"; "d"]%char),
          failed_listing_world) /\
  FTP_ERROR_TRANSFER <> FTP_OK /\
  Some (Some ["o"; "l"; "d"]%char) = Some (Some ["o"; "l"; "d"]%char).
Proof.
  assert (H1 : ftp_client_list_dir (Some example_client) (Some "/pub"%string)
                 (Some (Some ["o"; "l"; "d"]%char)) (serving missing_file)
               = Some (FTP_ERROR_TRANSFER, failed_listing_client,
                       Some (Some ["o"; "l"; "d"]%char), failed_listing_world))
    by (vm_compute; reflexivity).
  assert (H2 : FTP_ERROR_TRANSFER <> FTP_OK) by discriminate.
  split; [exact H1|]. split; [exact H2|].
  exact (list_dir_writes_only_on_success (Some example_client) (Some "/pub"%string)
           (Some (Some ["o"; "l"; "d"]%char)) (serving missing_file)
           FTP_ERROR_TRANSFER failed_listing_client (Some (Some ["o"; "l"; "d"]%char))
           failed_listing_world H1 H2).
Defined.

(** X25: [ftp_client_execute_command] stores through [response] only
    when it returns FTP_OK, and never when [response] is NULL. *)
Theorem execute_command_writes_only_on_success client cmd resp w r c' resp' w' :
  ftp_client_execute_command client cmd resp w = Some (r, c', resp', w') ->
  (r <> FTP_OK -> resp' = resp) /\ (resp = None -> resp' = None).
Proof. apply execute_command_out_frame. Qed.

Lemma execute_command_writes_only_on_success_witness :
  ftp_client_execute_command (Some example_client) (Some "NOOP"%string)
    (Some (Some ["o"; "l"; "d"]%char)) (serving missing_file)
  = Some (FTP_ERROR_TRANSFER, failed_command_client, Some (Some ["o"; "l"; "d"]%char),
          failed_command_world) /\
  (FTP_ERROR_TRANSFER <> FTP_OK ->
   Some (Some ["o"; "l"; "d"]%char) = Some (Some ["o"; "l"; "d"]%char)) /\
  (Some (Some ["o"; "l"; "d"]%char) = None ->
   Some (Some ["o"; "l"; "d"]%char) = None).
Proof.
  assert (H1 : ftp_client_execute_command (Some example_client) (Some "NOOP"%string)
                 (Some (Some ["o"; "l"; "d"]%char)) (serving missing_file)
               = Some (FTP_ERROR_TRANSFER, failed_command_client,
                       Some (Some ["o"; "l"; "d"]%char), failed_command_world))
    by (vm_compute; reflexivity).
  split; [exact H1|].
  exact (execute_command_writes_only_on_success (Some example_client)
           (Some "NOOP"%string) (Some (Some ["o"; "l"; "d"]%char)) (serving missing_file)
           FTP_ERROR_TRANSFER failed_command_client (Some (Some ["o"; "l"; "d"]%char))
           failed_command_world H1).
Defined.

(** ** Handles *)

(** X26: every download starts from a handle that was reset: whatever
    options the handle held from earlier calls, the one a download sends
    has no upload flag, no read callback, no announced size, no command
    list and no NOBODY or HEADER flag. *)
Theorem download_handle_is_fresh c h hn rp lp w :
  curl c = Some h -> host (config c) = Some hn ->
  lp ∉ readonly w ->
  required_len hn (Some rp) <= FTP_MAX_URL_LENGTH ->
  exists r c' w' sent,
    ftp_client_download (Some c) (Some rp) (Some lp) w = Some (r, Some c', w') /\
    wire w' = wire w ++ [sent] /\
    curl_getopt sent CURLOPT_UPLOAD = None /\
    curl_getopt sent CURLOPT_READFUNCTION = None /\
    curl_getopt sent CURLOPT_INFILESIZE_LARGE = None /\
    curl_getopt sent CURLOPT_QUOTE = None /\
    curl_getopt sent CURLOPT_NOBODY = None /\
    curl_getopt sent CURLOPT_HEADER = None.
Proof.
  intros Hc Hh Hro Hfit.
  destruct (download_sends c h hn Hc Hh rp lp w Hro Hfit)
    as (r & c' & w' & u & Hrun & Hwire).
  do 4 eexists. split; [exact Hrun|]. split; [exact Hwire|].
  repeat split;
    (rewrite getopt_write_options by discriminate;
     rewrite setup_curl_common_leaves by (simpl; tauto);
     reflexivity).
Qed.

Lemma download_handle_is_fresh_witness :
  curl sample_after_upload = Some sample_upload_handle /\
  host (config sample_after_upload) = Some "ftp.example.com"%string /\
  ("copy.bin"%string ∉ readonly (serving three_bytes)) /\
  (required_len "ftp.example.com" (Some "/f"%string) <= FTP_MAX_URL_LENGTH) /\
  exists r c' w' sent,
    ftp_client_download (Some sample_after_upload) (Some "/f"%string)
      (Some "copy.bin"%string) (serving three_bytes) = Some (r, Some c', w') /\
    wire w' = wire (serving three_bytes) ++ [sent] /\
    curl_getopt sent CURLOPT_UPLOAD = None /\
    curl_getopt sent CURLOPT_READFUNCTION = None /\
    curl_getopt sent CURLOPT_INFILESIZE_LARGE = None /\
    curl_getopt sent CURLOPT_QUOTE = None /\
    curl_getopt sent CURLOPT_NOBODY = None /\
    curl_getopt sent CURLOPT_HEADER = None.
Proof.
  assert (H1 : curl sample_after_upload = Some sample_upload_handle) by reflexivity.
  assert (H2 : host (config sample_after_upload) = Some "ftp.example.com"%string)
    by reflexivity.
  assert (H3 : "copy.bin"%string ∉ readonly (serving three_bytes))
    by (simpl; apply not_elem_of_empty).
  assert (H4 : required_len "ftp.example.com" (Some "/f"%string) <= FTP_MAX_URL_LENGTH)
    by (vm_compute; discriminate).
  repeat (split; [assumption|]).
  exact (download_handle_is_fresh sample_after_upload sample_upload_handle
           "ftp.example.com" "/f" "copy.bin" (serving three_bytes) H1 H2 H3 H4).
Defined.

(** X27: the handle [ftp_client_connect] sends carries the client's
    settings and nothing left over from earlier calls: the credentials and
    timeouts of the configuration; in active mode CURLOPT_FTPPORT "-" and
    no EPSV option, in passive mode the reverse; with FTP_SSL_NONE no TLS
    option at all, whatever [verify_ssl] says; with any other TLS mode the
    mode itself, and peer and host verification both on or both off. *)
Theorem connect_sends_the_settings c h hn w :
  curl c = Some h -> host (config c) = Some hn -> hn <> ""%string ->
  required_len hn (Some "/"%string) <= FTP_MAX_URL_LENGTH ->
  memory_suffices w = true ->
  data_volume (xfer_events (next_script w)) + 1 <= 2 ^ 63 ->
  exists r c' w' sent,
    ftp_client_connect (Some c) w = Some (r, Some c', w') /\
    wire w' = wire w ++ [sent] /\
    curl_getopt sent CURLOPT_USERNAME = Some (OptStr (username (config c))) /\
    curl_getopt sent CURLOPT_PASSWORD = Some (OptStr (password (config c))) /\
    curl_getopt sent CURLOPT_TIMEOUT = Some (OptLong (timeout (config c))) /\
    curl_getopt sent CURLOPT_CONNECTTIMEOUT
    = Some (OptLong (connect_timeout (config c))) /\
    (mode (config c) = FTP_MODE_ACTIVE ->
     curl_getopt sent CURLOPT_FTPPORT = Some (OptStr (Some "-"%string)) /\
     curl_getopt sent CURLOPT_FTP_USE_EPSV = None) /\
    (mode (config c) = FTP_MODE_PASSIVE ->
     curl_getopt sent CURLOPT_FTP_USE_EPSV = Some (OptLong 1) /\
     curl_getopt sent CURLOPT_FTPPORT = None) /\
    (ssl_mode (config c) = FTP_SSL_NONE ->
     curl_getopt sent CURLOPT_USE_SSL = None /\
     curl_getopt sent CURLOPT_SSL_VERIFYPEER = None /\
     curl_getopt sent CURLOPT_SSL_VERIFYHOST = None) /\
    (ssl_mode (config c) <> FTP_SSL_NONE ->
     curl_getopt sent CURLOPT_USE_SSL
     = Some (OptLong (ftp_ssl_mode_value (ssl_mode (config c)))) /\
     curl_getopt sent CURLOPT_SSL_VERIFYPEER
     = Some (OptLong (if verify_ssl (config c) =? 0 then 0 else 1)) /\
     curl_getopt sent CURLOPT_SSL_VERIFYHOST
     = Some (OptLong (if verify_ssl (config c) =? 0 then 0 else 2))).
Proof.
  intros Hc Hh Hne Hfit Hheap Hvol.
  destruct (connect_sends c h hn Hc Hh w Hne Hfit Hheap Hvol)
    as (r & c' & w' & u & Hrun & Hwire).
  do 4 eexists. split; [exact Hrun|]. split; [exact Hwire|].
  rewrite !getopt_write_options by discriminate.
  exact (setup_curl_common_settings c h u).
Qed.

Lemma connect_sends_the_settings_witness :
  curl tls_client = Some fresh_handle /\
  host (config tls_client) = Some "ftp.example.com"%string /\
  "ftp.example.com"%string <> ""%string /\
  (required_len "ftp.example.com" (Some "/"%string) <= FTP_MAX_URL_LENGTH) /\
  memory_suffices (serving three_bytes) = true /\
  (data_volume (xfer_events (next_script (serving three_bytes))) + 1 <= 2 ^ 63) /\
  exists r c' w' sent,
    ftp_client_connect (Some tls_client) (serving three_bytes)
    = Some (r, Some c', w') /\
    wire w' = wire (serving three_bytes) ++ [sent] /\
    curl_getopt sent CURLOPT_USERNAME = Some (OptStr (username (config tls_client))) /\
    curl_getopt sent CURLOPT_PASSWORD = Some (OptStr (password (config tls_client))) /\
    curl_getopt sent CURLOPT_TIMEOUT = Some (OptLong (timeout (config tls_client))) /\
    curl_getopt sent CURLOPT_CONNECTTIMEOUT
    = Some (OptLong (connect_timeout (config tls_client))) /\
    (mode (config tls_client) = FTP_MODE_ACTIVE ->
     curl_getopt sent CURLOPT_FTPPORT = Some (OptStr (Some "-"%string)) /\
     curl_getopt sent CURLOPT_FTP_USE_EPSV = None) /\
    (mode (config tls_client) = FTP_MODE_PASSIVE ->
     curl_getopt sent CURLOPT_FTP_USE_EPSV = Some (OptLong 1) /\
     curl_getopt sent CURLOPT_FTPPORT = None) /\
    (ssl_mode (config tls_client) = FTP_SSL_NONE ->
     curl_getopt sent CURLOPT_USE_SSL = None /\
     curl_getopt sent CURLOPT_SSL_VERIFYPEER = None /\
     curl_getopt sent CURLOPT_SSL_VERIFYHOST = None) /\
    (ssl_mode (config tls_client) <> FTP_SSL_NONE ->
     curl_getopt sent CURLOPT_USE_SSL
     = Some (OptLong (ftp_ssl_mode_value (ssl_mode (config tls_client)))) /\
     curl_getopt sent CURLOPT_SSL_VERIFYPEER
     = Some (OptLong (if verify_ssl (config tls_client) =? 0 then 0 else 1)) /\
     curl_getopt sent CURLOPT_SSL_VERIFYHOST
     = Some (OptLong (if verify_ssl (config tls_client) =? 0 then 0 else 2))).
Proof.
  assert (H1 : curl tls_client = Some fresh_handle) by reflexivity.
  assert (H2 : host (config tls_client) = Some "ftp.example.com"%string)
    by reflexivity.
  assert (H3 : "ftp.example.com"%string <> ""%string) by discriminate.
  assert (H4 : required_len "ftp.example.com" (Some "/"%string) <= FTP_MAX_URL_LENGTH)
    by (vm_compute; discriminate).
  assert (H5 : memory_suffices (serving three_bytes) = true) by reflexivity.
  assert (H6 : data_volume (xfer_events (next_script (serving three_bytes))) + 1
               <= 2 ^ 63) by (vm_compute; discriminate).
  repeat (split; [assumption|]).
  exact (connect_sends_the_settings tls_client fresh_handle "ftp.example.com"
           (serving three_bytes) H1 H2 H3 H4 H5 H6).
Defined.

(** X28: trouble with the local file is found before the server is
    contacted: an upload of a file that cannot be opened and a download
    onto a path that cannot be created return FTP_ERROR_FILE_IO, leave the
    world as it was (no transfer, the handle not even reset) and put the
    path into [last_error], cut to the 511 characters it can hold. *)
Theorem local_file_errors c h lp rp w :
  curl c = Some h ->
  (fs w !! lp = None ->
   ftp_client_upload (Some c) (Some lp) (Some rp) w
   = Some (FTP_ERROR_FILE_IO,
           Some (with_error ("Cannot open local file: " +:+ lp) c), w)) /\
  (lp ∈ readonly w ->
   ftp_client_download (Some c) (Some rp) (Some lp) w
   = Some (FTP_ERROR_FILE_IO,
           Some (with_error ("Cannot create local file: " +:+ lp) c), w)) /\
  strlen (last_error (with_error ("Cannot open local file: " +:+ lp) c)) <= 511 /\
  strlen (last_error (with_error ("Cannot create local file: " +:+ lp) c)) <= 511.
Proof.
  intros Hc. split; [|split; [|split]].
  - intros Hnone. unfold ftp_client_upload. rewrite Hc.
    unfold bind at 1. unfold fopen. rewrite Hnone. reflexivity.
  - intros Hro. unfold ftp_client_download. rewrite Hc.
    unfold bind at 1. unfold fopen. rewrite decide_True by assumption. reflexivity.
  - unfold with_error. cbn [last_error]. rewrite strlen_snprintf by lia. lia.
  - unfold with_error. cbn [last_error]. rewrite strlen_snprintf by lia. lia.
Qed.

Lemma local_file_errors_witness :
  curl example_client = Some fresh_handle /\
  (fs locked_world !! "locked.bin"%string = None ->
   ftp_client_upload (Some example_client) (Some "locked.bin"%string)
     (Some "/f"%string) locked_world
   = Some (FTP_ERROR_FILE_IO,
           Some (with_error ("Cannot open local file: " +:+ "locked.bin")
                   example_client), locked_world)) /\
  ("locked.bin"%string ∈ readonly locked_world ->
   ftp_client_download (Some example_client) (Some "/f"%string)
     (Some "locked.bin"%string) locked_world
   = Some (FTP_ERROR_FILE_IO,
           Some (with_error ("Cannot create local file: " +:+ "locked.bin")
                   example_client), locked_world)) /\
  strlen (last_error (with_error ("Cannot open local file: " +:+ "locked.bin")
                        example_client)) <= 511 /\
  strlen (last_error (with_error ("Cannot create local file: " +:+ "locked.bin")
                        example_client)) <= 511.
Proof.
  assert (H1 : curl example_client = Some fresh_handle) by reflexivity.
  split; [exact H1|].
  exact (local_file_errors example_client fresh_handle "locked.bin" "/f"
           locked_world H1).
Defined.

(** ** NULL arguments and lost hosts *)

(** X29: [ftp_client_set_host] with a client and a host returns FTP_OK
    exactly when the copy of the host can be allocated, and then stores
    it.  When it cannot, the function returns FTP_ERROR_MEMORY and the
    client is left without any host: the old one was freed first.  The
    port changes only on FTP_OK with a port in 1..65535. *)
Theorem set_host_outcomes c name p w :
  exists r c',
    ftp_client_set_host (Some c) (Some name) p w = Some (r, Some c', after_alloc w) /\
    (r = FTP_OK \/ r = FTP_ERROR_MEMORY) /\
    (r = FTP_OK <-> next_alloc_fails w = false) /\
    (r = FTP_OK -> host (config c') = Some name) /\
    (r = FTP_ERROR_MEMORY -> host (config c') = None) /\
    (port (config c')
     = if negb (next_alloc_fails w) && (0 <? p) && (p <=? 65535)
       then p else port (config c)) /\
    username (config c') = username (config c) /\
    password (config c') = password (config c) /\
    curl c' = curl c /\ last_error c' = last_error c.
Proof.
  unfold ftp_client_set_host, strdup.
  unfold bind at 1. unfold bind at 1. rewrite alloc_eq. unfold ret at 1.
  destruct (next_alloc_fails w); cbn [negb andb].
  - do 2 eexists. split; [reflexivity|].
    repeat split; auto; try discriminate.
  - destruct ((0 <? p) && (p <=? 65535));
      (do 2 eexists; split; [reflexivity|]; repeat split; auto; try discriminate).
Qed.

(** X30: NULL arguments.  With a NULL client every function that
    returns a code returns FTP_ERROR_INVALID_PARAM, the [void] setters do
    nothing and [ftp_client_get_error] answers "Invalid client handle";
    nothing else happens.  With a client, a NULL path, command or size
    pointer is refused with FTP_ERROR_INVALID_PARAM before anything is
    done.  [ftp_client_list_dir] is the exception: it checks the client
    and [output] but hands a NULL [remote_path] to [strlen], which C
    leaves undefined. *)
Theorem null_arguments c h w :
  curl c = Some h ->
  (forall call,
     api_step call None w
     = Some (if returns_void call then None else Some FTP_ERROR_INVALID_PARAM,
             None, w)) /\
  ftp_client_get_error None = "Invalid client handle"%string /\
  (forall p,
     ftp_client_upload (Some c) None p w = Some (FTP_ERROR_INVALID_PARAM, Some c, w) /\
     ftp_client_upload (Some c) p None w = Some (FTP_ERROR_INVALID_PARAM, Some c, w) /\
     ftp_client_download (Some c) None p w = Some (FTP_ERROR_INVALID_PARAM, Some c, w) /\
     ftp_client_download (Some c) p None w = Some (FTP_ERROR_INVALID_PARAM, Some c, w) /\
     ftp_client_rename (Some c) None p w = Some (FTP_ERROR_INVALID_PARAM, Some c, w) /\
     ftp_client_rename (Some c) p None w = Some (FTP_ERROR_INVALID_PARAM, Some c, w)) /\
  ftp_client_mkdir (Some c) None w = Some (FTP_ERROR_INVALID_PARAM, Some c, w) /\
  ftp_client_rmdir (Some c) None w = Some (FTP_ERROR_INVALID_PARAM, Some c, w) /\
  ftp_client_delete (Some c) None w = Some (FTP_ERROR_INVALID_PARAM, Some c, w) /\
  (forall sz rp resp out,
     ftp_client_get_filesize (Some c) None sz w
     = Some (FTP_ERROR_INVALID_PARAM, Some c, sz, w) /\
     ftp_client_get_filesize (Some c) rp None w
     = Some (FTP_ERROR_INVALID_PARAM, Some c, None, w) /\
     ftp_client_execute_command (Some c) None resp w
     = Some (FTP_ERROR_INVALID_PARAM, Some c, resp, w) /\
     ftp_client_list_dir (Some c) rp None w
     = Some (FTP_ERROR_INVALID_PARAM, Some c, None, w) /\
     ftp_client_list_dir (Some c) None (Some out) w = None).
Proof.
  intros Hc. split; [|split; [reflexivity|split; [|split; [|split; [|split]]]]].
  - intros call. destruct call; reflexivity.
  - intros p.
    unfold ftp_client_upload, ftp_client_download, ftp_client_rename.
    destruct p; repeat split; reflexivity.
  - reflexivity.
  - reflexivity.
  - reflexivity.
  - intros sz rp resp out.
    unfold ftp_client_get_filesize, ftp_client_execute_command, ftp_client_list_dir.
    rewrite Hc.
    destruct sz, rp; repeat split; reflexivity.
Qed.

Lemma null_arguments_witness :
  curl example_client = Some fresh_handle /\
  (forall call,
     api_step call None world0
     = Some (if returns_void call then None else Some FTP_ERROR_INVALID_PARAM,
             None, world0)) /\
  ftp_client_get_error None = "Invalid client handle"%string /\
  (forall p,
     ftp_client_upload (Some example_client) None p world0
     = Some (FTP_ERROR_INVALID_PARAM, Some example_client, world0) /\
     ftp_client_upload (Some example_client) p None world0
     = Some (FTP_ERROR_INVALID_PARAM, Some example_client, world0) /\
     ftp_client_download (Some example_client) None p world0
     = Some (FTP_ERROR_INVALID_PARAM, Some example_client, world0) /\
     ftp_client_download (Some example_client) p None world0
     = Some (FTP_ERROR_INVALID_PARAM, Some example_client, world0) /\
     ftp_client_rename (Some example_client) None p world0
     = Some (FTP_ERROR_INVALID_PARAM, Some example_client, world0) /\
     ftp_client_rename (Some example_client) p None world0
     = Some (FTP_ERROR_INVALID_PARAM, Some example_client, world0)) /\
  ftp_client_mkdir (Some example_client) None world0
  = Some (FTP_ERROR_INVALID_PARAM, Some example_client, world0) /\
  ftp_client_rmdir (Some example_client) None world0
  = Some (FTP_ERROR_INVALID_PARAM, Some example_client, world0) /\
  ftp_client_delete (Some example_client) None world0
  = Some (FTP_ERROR_INVALID_PARAM, Some example_client, world0) /\
  (forall sz rp resp out,
     ftp_client_get_filesize (Some example_client) None sz world0
     = Some (FTP_ERROR_INVALID_PARAM, Some example_client, sz, world0) /\
     ftp_client_get_filesize (Some example_client) rp None world0
     = Some (FTP_ERROR_INVALID_PARAM, Some example_client, None, world0) /\
     ftp_client_execute_command (Some example_client) None resp world0
     = Some (FTP_ERROR_INVALID_PARAM, Some example_client, resp, world0) /\
     ftp_client_list_dir (Some example_client) rp None world0
     = Some (FTP_ERROR_INVALID_PARAM, Some example_client, None, world0) /\
     ftp_client_list_dir (Some example_client) None (Some out) world0 = None).
Proof.
  assert (H1 : curl example_client = Some fresh_handle) by reflexivity.
  split; [exact H1|].
  exact (null_arguments example_client fresh_handle world0 H1).
Defined.
